(** * OpenSeaAlertBot: the monitoring cycle of [OpenSeaAlertBot.get_nft_alerts]

    A shallow embedding of [src/OpenSeaAlertBot.py]: the Python built-ins the
    cycle relies on ([int], [float], [/], [round], [>=]) over binary64 floats
    and unbounded integers, the effects of the bot (log lines, sleeps, the
    Telegram request, the worksheet updates) as an event trace with uncaught
    exceptions, and the three methods [send_telegram_msg],
    [update_spreadsheet] and [get_nft_alerts].

    What the bot meets is given to it: for each iteration of [while True] a
    [visit] says whether the waits end in time, which texts the page shows,
    how Telegram answers and whether a gspread call is refused.  The loop is
    run over a list of visits; it is still running when the list is used up.
    The browser is taken to start and to load the page (lines 278-282), and
    the texts of the page to be ASCII.  The libraries behave as gspread 6,
    pandas 3 and requests 2.26 and later do. *)

From Stdlib Require Import ZArith List String Ascii Bool Lia Floats.
Import ListNotations.

Local Open Scope Z_scope.

(** ** Exceptions and results *)

(** The calls of the gspread client made by [update_spreadsheet], in the
    order in which the method makes them; columns are numbered from 1. *)
Inductive api_call :=
| OpenSpreadsheet                 (* self.spreadsheet_auth.open(spread_sheet) *)
| OpenWorksheet                   (* spreadsheet.worksheet(work_sheet) *)
| Range (column : nat)            (* worksheet.range('A2:A..') *)
| UpdateCells (column : nat).     (* worksheet.update_cells(cell_list) *)

(** The exceptions that can leave the statements of the monitoring cycle. *)
Inductive exn :=
| ValueError                      (* int() or float() on malformed text; pd.DataFrame on ragged columns *)
| OverflowError                   (* int too large to convert to float *)
| ZeroDivisionError               (* float division by zero *)
| IndexError                      (* list index out of range *)
| TimeoutException                (* WebDriverWait(...).until *)
| NoSuchElementException          (* find_element *)
| ConnectionError                 (* requests.get *)
| JSONDecodeError                 (* response.json() *)
| InvalidJSONError                (* requests, on a NaN or an infinity in the body of a request *)
| APIError (call : api_call).     (* gspread *)

Inductive res (A : Type) :=
| Ok (a : A)
| Raise (e : exn).
Arguments Ok {A} a.
Arguments Raise {A} e.

(** ** The Python built-ins of the cycle *)

Module Py.

(** Characters: the text of a page element is taken to be ASCII. *)

Definition isspace (c : ascii) : bool :=
  let n := nat_of_ascii c in
  ((9 <=? n) && (n <=? 13))%nat || (n =? 32)%nat.

Definition isdigit (c : ascii) : bool :=
  let n := nat_of_ascii c in
  ((48 <=? n) && (n <=? 57))%nat.

Definition tolower (c : ascii) : ascii :=
  let n := nat_of_ascii c in
  if ((65 <=? n) && (n <=? 90))%nat then ascii_of_nat (n + 32) else c.

Fixpoint lstrip (s : list ascii) : list ascii :=
  match s with
  | c :: s' => if isspace c then lstrip s' else s
  | [] => []
  end.

Definition strip (s : list ascii) : list ascii :=
  rev (lstrip (rev (lstrip s))).

(** [text.replace(old, '')] for a one-character [old]. *)
Definition remove (old : ascii) (text : string) : string :=
  string_of_list_ascii
    (filter (fun c => negb (Ascii.eqb c old)) (list_ascii_of_string text)).

(** Underscores in numeric literals (PEP 515), as int() and float() check
    them: an underscore stands after a digit and before a digit.  [prev] is
    the character before [s]. *)
Fixpoint drop_underscores (prev : ascii) (s : list ascii) : option (list ascii) :=
  match s with
  | [] => if Ascii.eqb prev "_" then None else Some []
  | c :: s' =>
      if Ascii.eqb c "_" then
        if isdigit prev then drop_underscores c s' else None
      else if Ascii.eqb prev "_" && negb (isdigit c) then None
      else option_map (cons c) (drop_underscores c s')
  end.

Definition sign (s : list ascii) : bool * list ascii :=
  match s with
  | "-"%char :: s' => (true, s')
  | "+"%char :: s' => (false, s')
  | _ => (false, s)
  end.

Fixpoint digits (s : list ascii) : list ascii * list ascii :=
  match s with
  | c :: s' =>
      if isdigit c then let (d, r) := digits s' in (c :: d, r) else ([], s)
  | [] => ([], [])
  end.

(** The number written by a run of decimal digits. *)
Definition decimal (d : list ascii) : Z :=
  fold_left (fun acc c => 10 * acc + (Z.of_nat (nat_of_ascii c) - 48)) d 0.

(** [int(text)], base 10: optional surrounding whitespace, an optional
    sign, one or more digits. *)
Definition long_from_string (text : string) : res Z :=
  match drop_underscores " " (strip (list_ascii_of_string text)) with
  | None => Raise ValueError
  | Some s =>
      let (neg, s1) := sign s in
      match digits s1 with
      | ((_ :: _) as d, []) => Ok (if neg then - decimal d else decimal d)
      | _ => Raise ValueError
      end
  end.

(** The binary64 value nearest to [m * 10 ^ e], ties to even, as strtod
    computes it; out of range it is an infinity, and it is a zero when
    the value rounds to zero. *)
Definition of_decimal (neg : bool) (m : Z) (e : Z) : float :=
  match m with
  | Zpos p =>
      if 0 <=? e
      then SF2Prim (binary_round prec emax neg (Z.to_pos (Zpos p * 10 ^ e)) 0)
      else SF2Prim (SFdiv prec emax (S754_finite neg p 0)
                      (S754_finite false (Z.to_pos (10 ^ (- e))) 0))
  | _ => if neg then neg_zero else zero
  end.

Definition lower (s : list ascii) : string :=
  string_of_list_ascii (map tolower s).

(** The exponent part of a float literal: empty, or [e] or [E], an optional
    sign and one or more digits. *)
Definition exponent (s : list ascii) : option Z :=
  match s with
  | [] => Some 0
  | c :: s' =>
      if Ascii.eqb (tolower c) "e" then
        let (neg, s1) := sign s' in
        match digits s1 with
        | ((_ :: _) as d, []) => Some (if neg then - decimal d else decimal d)
        | _ => None
        end
      else None
  end.

(** [float(text)]: optional surrounding whitespace, an optional sign, then
    [inf], [infinity] or [nan] in any case, or a decimal literal with at
    least one digit and an optional exponent. *)
Definition float_from_string (text : string) : res float :=
  match drop_underscores " " (strip (list_ascii_of_string text)) with
  | None => Raise ValueError
  | Some s =>
      let (neg, s1) := sign s in
      let word := lower s1 in
      if (String.eqb word "inf" || String.eqb word "infinity")%bool
      then Ok (if neg then neg_infinity else infinity)
      else if String.eqb word "nan" then Ok nan
      else
        let (ip, r1) := digits s1 in
        let (fp, r2) := match r1 with
                        | "."%char :: r => digits r
                        | _ => ([], r1)
                        end in
        match (ip ++ fp)%list, exponent r2 with
        | (_ :: _) as d, Some e =>
            Ok (of_decimal neg (decimal d) (e - Z.of_nat (List.length fp)))
        | _, _ => Raise ValueError
        end
  end.

(** [PyLong_AsDouble]: the nearest binary64 value, ties to even;
    OverflowError when that is not finite. *)
Definition long_as_double (n : Z) : res float :=
  match binary_normalize prec emax n 0 false with
  | S754_infinity _ => Raise OverflowError
  | x => Ok (SF2Prim x)
  end.

(** [a / b] for an int [a] and a float [b] ([float_div]): the int is
    converted first, then a zero divisor is refused. *)
Definition float_div (a : Z) (b : float) : res float :=
  match long_as_double a with
  | Raise e => Raise e
  | Ok x => if PrimFloat.eqb b zero then Raise ZeroDivisionError else Ok (x / b)%float
  end.

(** The integer nearest to [n / d] for [0 < d], ties to even. *)
Definition div_half_even (n d : Z) : Z :=
  let q := n / d in
  match 2 * (n mod d) ?= d with
  | Lt => q
  | Gt => q + 1
  | Eq => if Z.even q then q else q + 1
  end.

(** [round(x, ndigits)] for a float [x] and [0 <= ndigits] ([double_round]):
    the exact value of [x] is rounded to [ndigits] decimal places, ties to
    even, and the decimal is converted back to the nearest float.  Zeros,
    NaN and the infinities round to themselves. *)
Definition double_round (x : float) (ndigits : Z) : float :=
  match Prim2SF x with
  | S754_finite s m e =>
      let scale := 10 ^ ndigits in
      let n := if 0 <=? e then Zpos m * 2 ^ e * scale
               else div_half_even (Zpos m * scale) (2 ^ (- e)) in
      match n with
      | Zpos p => SF2Prim (SFdiv prec emax (S754_finite s p 0)
                             (S754_finite false (Z.to_pos scale) 0))
      | _ => if s then neg_zero else zero
      end
  | _ => x
  end.

End Py.

(** ** The data of the bot *)

(** [get_attribute('href')]: [None] when the anchor carries no such
    attribute. *)
Definition href := option string.

(** The dictionary [collection_stats] built for one listing item. *)
Record collection_stats := {
  Listing_Price : float;
  Account_Value : Z;
  Ratio : float;
  Link : href }.

(** The settings [__init__] copies into the instance. *)
Record OpenSeaAlertBot := {
  api_token_chatbot : string;
  chat_id : string;
  spread_sheet : string;
  work_sheet : string;
  ratio : float;                  (* float(settings['Ratio']) *)
  busd_price : float }.           (* settings['BUSDPrice'] *)

(** A Python object held by a worksheet cell. *)
Inductive object :=
| PyFloat (x : float)
| PyInt (n : Z)
| PyStr (s : string)
| PyNone.

Definition of_href (h : href) : object :=
  match h with
  | Some s => PyStr s
  | None => PyNone
  end.

(** A gspread [Cell]; rows and columns are numbered from 1. *)
Record Cell := {
  row : nat;
  col : nat;
  value : object }.

(** The contents of the remote worksheet, by row and column. *)
Definition sheet := nat -> nat -> object.

(** A pandas DataFrame with the columns "Listing Price", "Account Value" and
    "Link": a table, one row per listing item. *)
Definition DataFrame := list (float * Z * href).

(** ** What the bot meets *)

(** How the Telegram Bot API answers [requests.get]. *)
Inductive http :=
| Unreachable                               (* the request raises *)
| Response (status_code : Z) (json : bool). (* [json]: the body parses as JSON *)

(** One element of [driver.find_elements(By.TAG_NAME, 'article')], with what
    the driver and Telegram answer while the loop handles it. *)
Record article := {
  price_visible : bool;           (* the wait for a price span ends in time *)
  price_text : option string;     (* the text of the item's price span, if it has one *)
  link : option href;             (* the href of the item's first anchor, if it has one *)
  telegram : http }.

(** What one iteration of [while True] meets. *)
Record visit := {
  balance_visible : bool;         (* the wait for the trait balance ends in time *)
  balance_text : option string;   (* the text of the trait balance element *)
  articles_visible : bool;        (* the wait for an article ends in time *)
  articles : list article;
  refused : option api_call }.    (* the first gspread call that fails, if one does *)

(** ** Effects *)

Inductive log :=
| Monitoring_NFT_Collection (collection_url : string)
| Waiting_for_collection
| Getting_trait_balance
| Waiting_for_items
| No_item_found
| Set_Ratio (r : float)
| Condition_matched (stats : collection_stats) (matched : bool)
| Sending_Telegram_message (msg : collection_stats)
| Telegram_message_has_been_sent
| Updating_Spreadsheet (spread_sheet : string)
| Updated_SpreadSheet (spread_sheet work_sheet : string)
| Stats_have_been_updated (spread_sheet : string).

Inductive event :=
| Info (l : log)                            (* self.LOGGER.info *)
| Sleep (seconds : Z)                       (* sleep *)
| Get (url : string)                        (* driver.get *)
| SendMessage (token chat : string) (text : collection_stats)
                                            (* requests.get on the sendMessage URL *)
| Update (cells : list Cell).               (* an update_cells request the sheet accepted *)

(** The variables of [get_nft_alerts] that outlive an iteration of
    [while True], and the remote worksheet. *)
Record state := {
  worksheet : sheet;
  trait_balances : list Z;
  listing_prices : list float;
  listing_urls : list href }.

(** Statements that touch no variable and no worksheet: the events they
    cause, and their value or the exception that leaves them. *)
Definition W (A : Type) : Type := list event * res A.

(** Statements in general: from a state, the events, the state left and the
    value or exception. *)
Definition M (A : Type) : Type := state -> list event * state * res A.

Class Monad (m : Type -> Type) := {
  ret : forall {A}, A -> m A;
  bind : forall {A B}, m A -> (A -> m B) -> m B }.

#[export] Instance res_Monad : Monad res := {
  ret := fun A a => Ok a;
  bind := fun A B c k =>
    match c with
    | Ok a => k a
    | Raise e => Raise e
    end }.

#[export] Instance W_Monad : Monad W := {
  ret := fun A a => ([], Ok a);
  bind := fun A B c k =>
    match c with
    | (t, Ok a) => let '(t', r) := k a in ((t ++ t')%list, r)
    | (t, Raise e) => (t, Raise e)
    end }.

#[export] Instance M_Monad : Monad M := {
  ret := fun A a s => ([], s, Ok a);
  bind := fun A B c k s =>
    match c s with
    | (t, s', Ok a) => let '(t', s'', r) := k a s' in ((t ++ t')%list, s'', r)
    | (t, s', Raise e) => (t, s', Raise e)
    end }.

Declare Scope monad_scope.
Delimit Scope monad_scope with monad.
Notation "x <- c ;; k" := (bind c (fun x => k))
  (at level 61, c at next level, right associativity) : monad_scope.
Notation "c ;; k" := (bind c (fun _ => k))
  (at level 61, right associativity) : monad_scope.
Open Scope monad_scope.

(** What both kinds of statement can do: let the exception of a built-in
    through, and cause an event. *)
Class Effects (m : Type -> Type) := {
  lift : forall {A}, res A -> m A;
  emit : event -> m unit }.

#[export] Instance W_Effects : Effects W := {
  lift := fun A r => ([], r);
  emit := fun e => ([e], Ok tt) }.

#[export] Instance M_Effects : Effects M := {
  lift := fun A r s => ([], s, r);
  emit := fun e s => ([e], s, Ok tt) }.

Definition LOGGER_info {m} `{Effects m} (l : log) : m unit := emit (Info l).
Definition sleep {m} `{Effects m} (seconds : Z) : m unit := emit (Sleep seconds).

(** A statement of the first kind, run where a state is at hand. *)
Definition io {A} (w : W A) : M A := fun s => (fst w, s, snd w).

Definition get : M state := fun s => ([], s, Ok s).
Definition put (s : state) : M unit := fun _ => ([], s, Ok tt).

(** [try: body except: handler], with a bare [except]. *)
Definition try_except {A} (body handler : W A) : W A :=
  match body with
  | (t, Raise _) => let '(t', r) := handler in ((t ++ t')%list, r)
  | done => done
  end.

Definition trace {A} (x : list event * state * res A) : list event := fst (fst x).
Definition after {A} (x : list event * state * res A) : state := snd (fst x).
Definition outcome {A} (x : list event * state * res A) : res A := snd x.

(** The Telegram requests of a trace, in order. *)
Fixpoint alerts (t : list event) : list collection_stats :=
  match t with
  | SendMessage _ _ msg :: t' => msg :: alerts t'
  | _ :: t' => alerts t'
  | [] => []
  end.

(** The accepted worksheet updates of a trace, in order. *)
Fixpoint updates (t : list event) : list (list Cell) :=
  match t with
  | Update cells :: t' => cells :: updates t'
  | _ :: t' => updates t'
  | [] => []
  end.

(** ** Selenium and gspread *)

(** [wait_until_visible]: TimeoutException when the element does not show
    within [duration]. *)
Definition wait_until_visible (visible : bool) : res unit :=
  if visible then Ok tt else Raise TimeoutException.

(** [find_element], followed by the read of its text or attribute. *)
Definition find_element {A} (found : option A) : res A :=
  match found with
  | Some a => Ok a
  | None => Raise NoSuchElementException
  end.

Definition api_call_eqb (a b : api_call) : bool :=
  match a, b with
  | OpenSpreadsheet, OpenSpreadsheet => true
  | OpenWorksheet, OpenWorksheet => true
  | Range i, Range j => Nat.eqb i j
  | UpdateCells i, UpdateCells j => Nat.eqb i j
  | _, _ => false
  end.

(** A call of the gspread client: it raises when it is the refused one. *)
Definition gspread (refused : option api_call) (call : api_call) : res unit :=
  match refused with
  | Some c => if api_call_eqb c call then Raise (APIError call) else Ok tt
  | None => Ok tt
  end.

(** One cell of an update, as the Sheets API stores it: a null value is
    skipped, the cell keeps what it holds. *)
Definition write (w : sheet) (c : Cell) : sheet :=
  match value c with
  | PyNone => w
  | v => fun r k => if (Nat.eqb r (row c) && Nat.eqb k (col c))%bool then v else w r k
  end.

(** What a cell holds after [v] has been sent for it. *)
Definition stored (v old : object) : object :=
  match v with
  | PyNone => old
  | _ => v
  end.

Definition write_all (w : sheet) (cells : list Cell) : sheet :=
  fold_left write cells w.

Definition set_worksheet (s : state) (w : sheet) : state :=
  {| worksheet := w;
     trait_balances := trait_balances s;
     listing_prices := listing_prices s;
     listing_urls := listing_urls s |}.

(** [worksheet.range] on the rows [first] to [last] of one column: the cells
    with their present values, in row order.  gspread puts the two bounds in
    order before it asks for the range, so the range of an empty snapshot,
    'A2:A1', is answered with the cells of rows 1 and 2. *)
Definition worksheet_range (refused : option api_call) (column first last : nat)
  : M (list Cell) :=
  lift (gspread refused (Range column)) ;;
  s <- get ;;
  let top := Nat.min first last in
  let bottom := Nat.max first last in
  ret (map (fun r => {| row := r; col := column; value := worksheet s r column |})
         (seq top (S bottom - top))).

(** A value that [json.dumps(..., allow_nan=False)] takes: requests encodes
    the body of a request so, and refuses a NaN and an infinity. *)
Definition json_compliant (v : object) : bool :=
  match v with
  | PyFloat x => PrimFloat.is_finite x
  | _ => true
  end.

(** The request of [update_cells] for one column: requests raises on a body
    it cannot encode before anything is sent; gspread raises when the call is
    refused. *)
Definition values_update (refused : option api_call) (column : nat)
    (cell_list : list Cell) : res unit :=
  if forallb (fun c => json_compliant (value c)) cell_list
  then gspread refused (UpdateCells column)
  else Raise InvalidJSONError.

(** [worksheet.update_cells]: one request with the values of all the cells
    given. *)
Definition worksheet_update_cells (refused : option api_call) (column : nat)
    (cell_list : list Cell) : M unit :=
  lift (values_update refused column cell_list) ;;
  emit (Update cell_list) ;;
  s <- get ;;
  put (set_worksheet s (write_all (worksheet s) cell_list)).

(** ** pandas and lists *)

(** [pd.DataFrame] on a dictionary of three lists: ValueError unless all
    have one length. *)
Definition pd_DataFrame (listing_prices : list float) (trait_balances : list Z)
    (listing_urls : list href) : res DataFrame :=
  if (Nat.eqb (List.length listing_prices) (List.length trait_balances)
      && Nat.eqb (List.length listing_prices) (List.length listing_urls))%bool
  then Ok (combine (combine listing_prices trait_balances) listing_urls)
  else Raise ValueError.

(** [df["Link"].values.tolist()]: pandas (3) holds links that stand beside
    missing ones as a string column, whose missing values read back as NaN;
    a column without a string keeps its None. *)
Definition Link_tolist (listing_urls : list href) : list object :=
  if existsb (fun u => match u with Some _ => true | None => false end) listing_urls
  then map (fun u => match u with Some s => PyStr s | None => PyFloat nan end) listing_urls
  else map of_href listing_urls.

(** [l[i]]. *)
Definition getitem {A} (l : list A) (i : nat) : res A :=
  match nth_error l i with
  | Some a => Ok a
  | None => Raise IndexError
  end.

Fixpoint replace {A} (i : nat) (a : A) (l : list A) : list A :=
  match l, i with
  | [], _ => []
  | _ :: l', O => a :: l'
  | b :: l', S i' => b :: replace i' a l'
  end.

(** [cell_list[i].value = v]. *)
Definition set_value (cell_list : list Cell) (i : nat) (v : object) : res (list Cell) :=
  c <- getitem cell_list i ;;
  ret (replace i {| row := row c; col := col c; value := v |} cell_list).

(** ** The methods of [OpenSeaAlertBot] *)

(** How an iteration of [while True] ends: it goes on to the next one
    ([continue], or the end of the body), or [get_nft_alerts] returns. *)
Inductive flow := Continue | Return.

Fixpoint for_each {A} (body : A -> M unit) (l : list A) : M unit :=
  match l with
  | [] => ret tt
  | a :: l' => body a ;; for_each body l'
  end.

Section Methods.

Variable self : OpenSeaAlertBot.

(** [send_telegram_msg], lines 155-160. *)
Definition send_telegram_msg (answer : http) (msg : collection_stats) : W unit :=
  LOGGER_info (Sending_Telegram_message msg) ;;
  emit (SendMessage self.(api_token_chatbot) self.(chat_id) msg) ;;
  json <- lift (match answer with
                | Unreachable => Raise ConnectionError
                | Response _ json => Ok json
                end) ;;
  LOGGER_info Telegram_message_has_been_sent ;;
  lift (if json : bool then Ok tt else Raise JSONDecodeError).

(** The loop of lines 261-264: the values of row [i] of the three columns
    are assigned to the cells at index [i], for each cell of
    [cell_list_column_1]. *)
Fixpoint assign_values (enumerate : list Cell) (i : nat)
    (listing_prices : list float) (trait_balances : list Z) (listing_urls : list object)
    (cell_list_column_1 cell_list_column_2 cell_list_column_3 : list Cell)
  : res (list Cell * list Cell * list Cell) :=
  match enumerate with
  | [] => Ok (cell_list_column_1, cell_list_column_2, cell_list_column_3)
  | _ :: rest =>
      p <- getitem listing_prices i ;;
      c1 <- set_value cell_list_column_1 i (PyFloat p) ;;
      b <- getitem trait_balances i ;;
      c2 <- set_value cell_list_column_2 i (PyInt b) ;;
      u <- getitem listing_urls i ;;
      c3 <- set_value cell_list_column_3 i u ;;
      assign_values rest (S i) listing_prices trait_balances listing_urls c1 c2 c3
  end.

(** [update_spreadsheet], lines 242-271. *)
Definition update_spreadsheet (refused : option api_call) (df : DataFrame)
    (spread_sheet work_sheet : string) : M unit :=
  LOGGER_info (Updating_Spreadsheet spread_sheet) ;;
  lift (gspread refused OpenSpreadsheet) ;;
  lift (gspread refused OpenWorksheet) ;;
  let listing_prices := map (fun r => fst (fst r)) df in
  let trait_balances := map (fun r => snd (fst r)) df in
  let listing_urls := Link_tolist (map (fun r => snd r) df) in
  cell_list_column_1 <- worksheet_range refused 1 2 (List.length listing_prices + 1) ;;
  cell_list_column_2 <- worksheet_range refused 2 2 (List.length listing_prices + 1) ;;
  cell_list_column_3 <- worksheet_range refused 3 2 (List.length listing_prices + 1) ;;
  cells <- lift (assign_values cell_list_column_1 0 listing_prices trait_balances
                   listing_urls cell_list_column_1 cell_list_column_2
                   cell_list_column_3) ;;
  let '(cell_list_column_1, cell_list_column_2, cell_list_column_3) := cells in
  worksheet_update_cells refused 1 cell_list_column_1 ;;
  worksheet_update_cells refused 2 cell_list_column_2 ;;
  worksheet_update_cells refused 3 cell_list_column_3 ;;
  LOGGER_info (Updated_SpreadSheet spread_sheet work_sheet).

(** Line 350: [round(trait_balance / listing_price, 2)]. *)
Definition ratio_of (trait_balance : Z) (listing_price : float) : res float :=
  quotient <- Py.float_div trait_balance listing_price ;;
  ret (Py.double_round quotient 2).

(** Lines 340-352: the price and the link of a listing item, and the
    dictionary made of them. *)
Definition stats_of (trait_balance : Z) (listing_item : article) : res collection_stats :=
  wait_until_visible listing_item.(price_visible) ;;
  text <- find_element listing_item.(price_text) ;;
  x <- Py.float_from_string (Py.remove "," text) ;;
  let listing_price := (x * self.(busd_price))%float in
  listing_url <- find_element listing_item.(link) ;;
  ratio' <- ratio_of trait_balance listing_price ;;
  ret {| Listing_Price := listing_price;
         Account_Value := trait_balance;
         Ratio := ratio';
         Link := listing_url |}.

(** [ratio >= self.ratio]. *)
Definition matched (stats : collection_stats) : bool :=
  PrimFloat.leb self.(ratio) stats.(Ratio).

(** Lines 340-358: the item is read, its ratio is logged and, when it
    matches, sent to Telegram. *)
Definition evaluate (trait_balance : Z) (listing_item : article) : W collection_stats :=
  stats <- lift (stats_of trait_balance listing_item) ;;
  LOGGER_info (Set_Ratio self.(ratio)) ;;
  LOGGER_info (Condition_matched stats (matched stats)) ;;
  (if matched stats
   then send_telegram_msg listing_item.(telegram) stats
   else ret tt) ;;
  ret stats.

(** Lines 360-363. *)
Definition append (stats : collection_stats) : M unit :=
  s <- get ;;
  put {| worksheet := worksheet s;
         trait_balances := trait_balances s ++ [stats.(Account_Value)];
         listing_prices := listing_prices s ++ [stats.(Listing_Price)];
         listing_urls := listing_urls s ++ [stats.(Link)] |}.

(** The body of the [for] loop, lines 337-363. *)
Definition for_listing_item (trait_balance : Z) (listing_item : article) : M unit :=
  stats <- io (evaluate trait_balance listing_item) ;;
  append stats.

(** Lines 320-322. *)
Definition empty_lists : M unit :=
  s <- get ;;
  put {| worksheet := worksheet s;
         trait_balances := [];
         listing_prices := [];
         listing_urls := [] |}.

(** Line 317: [int(driver.find_element(...).text)]. *)
Definition read_balance (v : visit) : res Z :=
  text <- find_element v.(balance_text) ;;
  Py.long_from_string text.

(** The body of [while True], lines 307-370. *)
Definition while_body (v : visit) : M flow :=
  shown <- io (try_except
                 (LOGGER_info Getting_trait_balance ;;
                  lift (wait_until_visible v.(balance_visible)) ;;
                  sleep 5 ;;
                  ret true)
                 (ret false)) ;;
  if shown : bool then
    trait_balance <- lift (read_balance v) ;;
    empty_lists ;;
    found <- io (try_except
                   (LOGGER_info Waiting_for_items ;;
                    lift (wait_until_visible v.(articles_visible)) ;;
                    sleep 3 ;;
                    ret true)
                   (LOGGER_info No_item_found ;;
                    sleep 3 ;;
                    ret false)) ;;
    if found : bool then
      for_each (for_listing_item trait_balance) v.(articles) ;;
      s <- get ;;
      df <- lift (pd_DataFrame s.(listing_prices) s.(trait_balances) s.(listing_urls)) ;;
      update_spreadsheet v.(refused) df self.(spread_sheet) self.(work_sheet) ;;
      LOGGER_info (Stats_have_been_updated self.(spread_sheet)) ;;
      ret Continue
    else ret Continue
  else ret Return.

(** [while True] over the visits it is given: [Continue] when they are
    used up and the loop would go on to a next one. *)
Fixpoint while_True (visits : list visit) : M flow :=
  match visits with
  | [] => ret Continue
  | v :: rest =>
      f <- while_body v ;;
      match f with
      | Continue => while_True rest
      | Return => ret Return
      end
  end.

(** [get_nft_alerts], lines 273-370.  [collection_visible]: the wait for
    the collection header ends in time. *)
Definition get_nft_alerts (collection_url : string) (collection_visible : bool)
    (visits : list visit) : M flow :=
  let auction_filer := "?search[toggles][0]=ON_AUCTION"%string in
  LOGGER_info (Monitoring_NFT_Collection collection_url) ;;
  emit (Get (collection_url ++ auction_filer)) ;;
  sleep 3 ;;
  loaded <- io (try_except
                  (LOGGER_info Waiting_for_collection ;;
                   lift (wait_until_visible collection_visible) ;;
                   sleep 3 ;;
                   ret true)
                  (ret false)) ;;
  if loaded : bool then while_True visits else ret Return.

End Methods.

(** ** Vocabulary of the statements *)

(** The Ratio Evaluator in the spec's words: [ratio(balance, price) =
    round(balance / price, 2)], which fails when [price == 0]; the quotient
    is that of [balance] as a float by [price]. *)
Definition spec_ratio (balance : Z) (price : float) : res float :=
  if PrimFloat.eqb price zero then Raise ZeroDivisionError
  else
    b <- Py.long_as_double balance ;;
    ret (Py.double_round (b / price)%float 2).

(** [r] is [q] rounded to two decimal places, in the spec's words, with the
    rule of Python's [round] for a value half way: for a finite [q] other
    than zero, of exact value [(-1)^s * m * 2^e], the integer [n] is nearest
    to [100 * m * 2^e], the even one of two that are equally near, and [r] is
    the float nearest to [(-1)^s * n / 100]; a zero, a NaN and an infinity
    are their own roundings. *)
Definition rounded_to_cents (q r : float) : Prop :=
  match Prim2SF q with
  | S754_finite s m e =>
      let numerator := 100 * Zpos m * 2 ^ Z.max e 0 in
      let denominator := 2 ^ Z.max (- e) 0 in
      exists n : Z,
        0 <= n /\
        2 * Z.abs (numerator - n * denominator) <= denominator /\
        (2 * Z.abs (numerator - n * denominator) = denominator -> Z.even n = true) /\
        r = match n with
            | Zpos p => SF2Prim (SFdiv prec emax (S754_finite s p 0) (S754_finite false 100 0))
            | _ => if s then neg_zero else zero
            end
  | _ => r = q
  end.

(** The for body runs through on this item: it is read, and its alert, if
    it has one, is answered with a JSON body. *)
Definition passes (self : OpenSeaAlertBot) (trait_balance : Z) (a : article) : bool :=
  match snd (evaluate self trait_balance a) with
  | Ok _ => true
  | Raise _ => false
  end.

(** The for loop as a fold: its events, the dictionaries of the items it
    ran through, and how it ends. *)
Fixpoint sweep (self : OpenSeaAlertBot) (trait_balance : Z) (items : list article)
  : list event * list collection_stats * res unit :=
  match items with
  | [] => ([], [], Ok tt)
  | a :: rest =>
      match evaluate self trait_balance a with
      | (t, Ok stats) =>
          let '(t', l, r) := sweep self trait_balance rest in
          ((t ++ t')%list, stats :: l, r)
      | (t, Raise e) => (t, [], Raise e)
      end
  end.

(** The dictionaries of the items that can be read. *)
Definition readable (self : OpenSeaAlertBot) (trait_balance : Z) (items : list article)
  : list collection_stats :=
  flat_map (fun a => match stats_of self trait_balance a with
                     | Ok stats => [stats]
                     | Raise _ => []
                     end) items.

(** The alerts a list of items calls for: the dictionaries of those whose
    ratio is at least the threshold. *)
Definition due (self : OpenSeaAlertBot) (trait_balance : Z) (items : list article)
  : list collection_stats :=
  filter (matched self) (readable self trait_balance items).

(** The three lists after the for loop ran through items with these
    dictionaries. *)
Definition extend (s : state) (l : list collection_stats) : state :=
  {| worksheet := worksheet s;
     trait_balances := trait_balances s ++ map Account_Value l;
     listing_prices := listing_prices s ++ map Listing_Price l;
     listing_urls := listing_urls s ++ map Link l |}.

Definition emptied (s : state) : state :=
  {| worksheet := worksheet s;
     trait_balances := [];
     listing_prices := [];
     listing_urls := [] |}.

Definition rows (l : list collection_stats) : DataFrame :=
  map (fun stats => (stats.(Listing_Price), stats.(Account_Value), stats.(Link))) l.

(** The cells of one column from row [first] on, holding [values]. *)
Fixpoint column (k first : nat) (values : list object) : list Cell :=
  match values with
  | [] => []
  | v :: values' => {| row := first; col := k; value := v |} :: column k (S first) values'
  end.

(** The calls [update_spreadsheet] makes. *)
Definition calls : list api_call :=
  [OpenSpreadsheet; OpenWorksheet; Range 1; Range 2; Range 3;
   UpdateCells 1; UpdateCells 2; UpdateCells 3].

(** The worksheet as a viewer finds it after each accepted update of a
    trace. *)
Fixpoint views (w : sheet) (t : list event) : list sheet :=
  match t with
  | Update cells :: t' => write_all w cells :: views (write_all w cells) t'
  | _ :: t' => views w t'
  | [] => []
  end.

(** The events of an iteration that finds the market empty. *)
Definition empty_market : list event :=
  [Info Getting_trait_balance; Sleep 5; Info Waiting_for_items;
   Info No_item_found; Sleep 3].

(** The iteration meets its balance and no article in time. *)
Definition finds_no_item (v : visit) : Prop :=
  v.(balance_visible) = true /\
  (exists trait_balance, read_balance v = Ok trait_balance) /\
  v.(articles_visible) = false.

(** The iteration gets as far as the first statement of
    [update_spreadsheet]. *)
Definition reaches_publish (self : OpenSeaAlertBot) (v : visit) (s : state) : Prop :=
  In (Info (Updating_Spreadsheet self.(spread_sheet))) (trace (while_body self v s)).

(** The events of the for body on an item that has been read, up to the
    comparison. *)
Definition item_events (self : OpenSeaAlertBot) (stats : collection_stats) : list event :=
  [Info (Set_Ratio self.(ratio)); Info (Condition_matched stats (matched self stats))].

(** The events of [send_telegram_msg] up to its request. *)
Definition send_events (self : OpenSeaAlertBot) (stats : collection_stats) : list event :=
  [Info (Sending_Telegram_message stats);
   SendMessage self.(api_token_chatbot) self.(chat_id) stats].

(** The events of an iteration up to the for loop. *)
Definition opening : list event :=
  [Info Getting_trait_balance; Sleep 5; Info Waiting_for_items; Sleep 3].

(** The cells of a list with their values replaced, one by one. *)
Fixpoint overwrite (cells : list Cell) (values : list object) : list Cell :=
  match cells, values with
  | c :: cells', v :: values' =>
      {| row := row c; col := col c; value := v |} :: overwrite cells' values'
  | _, _ => []
  end.

(** The three columns [update_spreadsheet] sends for a DataFrame. *)
Definition column_1 (df : DataFrame) : list Cell :=
  column 1 2 (map (fun r => PyFloat (fst (fst r))) df).
Definition column_2 (df : DataFrame) : list Cell :=
  column 2 2 (map (fun r => PyInt (snd (fst r))) df).
Definition column_3 (df : DataFrame) : list Cell :=
  column 3 2 (Link_tolist (map (fun r => snd r) df)).

(** The cells of a request can be encoded. *)
Definition compliant (cells : list Cell) : bool :=
  forallb (fun c => json_compliant (value c)) cells.

(** Every price of the DataFrame is finite and every row has its link. *)
Definition sendable (df : DataFrame) : bool :=
  forallb (fun r => (PrimFloat.is_finite (fst (fst r)) &&
                     match snd r with Some _ => true | None => false end)%bool) df.

(** [update_spreadsheet] gets through a DataFrame when no call is refused:
    it has a row, and its price and link columns can be encoded. *)
Definition publishable (df : DataFrame) : bool :=
  (match df with [] => false | _ :: _ => true end
   && compliant (column_1 df) && compliant (column_3 df))%bool.

(** The updates the worksheet has accepted when [call] is refused. *)
Definition accepted (call : api_call) (df : DataFrame) : list (list Cell) :=
  match call with
  | UpdateCells 2 => [column_1 df]
  | UpdateCells 3 => [column_1 df; column_2 df]
  | _ => []
  end.

(** The iteration goes on to the next one after it has published the rows of
    the dictionaries [l], one update per column. *)
Definition publishes (self : OpenSeaAlertBot) (v : visit) (s : state)
    (l : list collection_stats) : Prop :=
  let r := while_body self v s in
  outcome r = Ok Continue /\
  updates (trace r) = [column_1 (rows l); column_2 (rows l); column_3 (rows l)].

(** The rows of a DataFrame stand in a worksheet, from row 2 on. *)
Definition holds (w : sheet) (df : DataFrame) : Prop :=
  forall i price balance url,
    nth_error df i = Some (price, balance, url) ->
    w (2 + i)%nat 1%nat = PyFloat price /\
    w (2 + i)%nat 2%nat = PyInt balance /\
    w (2 + i)%nat 3%nat = of_href url.

(** The spec's one logical batch update: whatever a viewer finds after an
    update of the trace is the worksheet as it was, on every cell, or holds
    the whole snapshot. *)
Definition one_batch (w : sheet) (df : DataFrame) (t : list event) : Prop :=
  Forall (fun view => (forall r k, view r k = w r k) \/ holds view df) (views w t).

(** ** A bot, listing items and visits to run the statements on *)

#[local] Set Warnings "-inexact-float".

(** The spec's scenarios: a balance of 100000 and a threshold of 20. *)
Definition bot : OpenSeaAlertBot :=
  {| api_token_chatbot := "123456:TOKEN";
     chat_id := "-1001234567890";
     spread_sheet := "YN Ratio Sheet";
     work_sheet := "Sheet1";
     ratio := 20;
     busd_price := 1 |}.

Definition listing (price url : string) (answer : http) : article :=
  {| price_visible := true;
     price_text := Some price;
     link := Some (Some url);
     telegram := answer |}.

Definition cheap : article := listing "4,000" "https://opensea.io/assets/1" (Response 200 true).
Definition dear : article := listing "6,000" "https://opensea.io/assets/2" (Response 200 true).
Definition malformed : article := listing "< 0.01" "https://opensea.io/assets/3" (Response 200 true).
Definition free : article := listing "0" "https://opensea.io/assets/4" (Response 200 true).
Definition unheard : article := listing "4,000" "https://opensea.io/assets/5" Unreachable.
Definition throttled : article := listing "4,000" "https://opensea.io/assets/6" (Response 429 true).

Definition visit_of (items : list article) (refused : option api_call) : visit :=
  {| balance_visible := true;
     balance_text := Some "100000"%string;
     articles_visible := true;
     articles := items;
     refused := refused |}.

Definition empty_visit : visit :=
  {| balance_visible := true;
     balance_text := Some "100000"%string;
     articles_visible := false;
     articles := [];
     refused := None |}.

(** A visit in which the trait balance does not show in time. *)
Definition no_balance : visit :=
  {| balance_visible := false;
     balance_text := None;
     articles_visible := false;
     articles := [];
     refused := None |}.

Definition blank : sheet := fun _ _ => PyNone.

Definition start : state :=
  {| worksheet := blank;
     trait_balances := [];
     listing_prices := [];
     listing_urls := [] |}.

(** A worksheet that holds the snapshot of an earlier iteration. *)
Definition earlier : sheet :=
  write_all blank
    [{| row := 2; col := 1; value := PyFloat 5000 |};
     {| row := 2; col := 2; value := PyInt 90000 |};
     {| row := 2; col := 3; value := PyStr "https://opensea.io/assets/0"%string |}].

(** ** Vocabulary of whole runs *)

(** The gspread call refused in a visit, if there is one, is a call
    [update_spreadsheet] makes. *)
Definition refuses (refused : option api_call) : bool :=
  match refused with
  | Some c => existsb (api_call_eqb c) calls
  | None => false
  end.

(** The iteration ends by going on to the next one: its balance shows and
    is read, and either no article shows in time, or the for loop runs
    through, no gspread call is refused and the snapshot has a row and can be
    sent. *)
Definition continues (self : OpenSeaAlertBot) (v : visit) : bool :=
  (v.(balance_visible) &&
   match read_balance v with
   | Ok trait_balance =>
       if v.(articles_visible)
       then forallb (passes self trait_balance) v.(articles)
            && negb (refuses v.(refused))
            && publishable (rows (readable self trait_balance v.(articles)))
       else true
   | Raise _ => false
   end)%bool.

(** An alert a run may send: the dictionary of an article of [items], read
    with the balance [b], whose ratio is at least the threshold. *)
Definition sound (self : OpenSeaAlertBot) (b : Z) (items : list article)
    (msg : collection_stats) : Prop :=
  matched self msg = true /\ exists a, In a items /\ stats_of self b a = Ok msg.

(** The alerts the articles of a visit call for. *)
Definition dues (self : OpenSeaAlertBot) (v : visit) : list collection_stats :=
  if v.(articles_visible) then
    match read_balance v with
    | Ok trait_balance => due self trait_balance v.(articles)
    | Raise _ => []
    end
  else [].

(** The seconds a trace sleeps. *)
Fixpoint slept (t : list event) : Z :=
  match t with
  | Sleep seconds :: t' => seconds + slept t'
  | _ :: t' => slept t'
  | [] => 0
  end.

(** An ASCII character [int()] takes in no place of its text: no digit, no
    sign, no underscore and no whitespace. *)
Definition foreign (c : ascii) : bool :=
  (Nat.ltb (nat_of_ascii c) 128 &&
   negb (Py.isdigit c || Py.isspace c || Ascii.eqb c "_" || Ascii.eqb c "+" || Ascii.eqb c "-"))%bool.

(** A worksheet after the rows of a DataFrame have been written from row 2
    on, columns 1 to 3. *)
Definition published (w : sheet) (df : DataFrame) : sheet :=
  fun r k =>
    if (Nat.leb 2 r && Nat.ltb r (2 + List.length df))%bool then
      match nth_error df (r - 2), k with
      | Some (price, _, _), 1%nat => PyFloat price
      | Some (_, balance, _), 2%nat => PyInt balance
      | Some (_, _, url), 3%nat => of_href url
      | _, _ => w r k
      end
    else w r k.

(** The pages a trace requests, in order. *)
Fixpoint gets (t : list event) : list string :=
  match t with
  | Get url :: t' => url :: gets t'
  | _ :: t' => gets t'
  | [] => []
  end.

(** * Start-up

    The methods that run before the loop: the settings file and the
    constructor, the user agent and the proxy, and the Chrome options. *)

Module Startup.

#[local] Set Warnings "-register-all".

(** What [json.load] returns. *)
Inductive json :=
| JNull
| JBool (b : bool)
| JInt (n : Z)
| JFloat (x : float)
| JStr (s : string)
| JList (l : list json)
| JDict (d : list (string * json)).

(** The exceptions of the start-up, beside those of the loop. *)
Inductive error :=
| KeyError (key : string)
| TypeError
| FileNotFoundError
| WebDriverException
| Builtin (e : exn).

Inductive result (A : Type) :=
| Done (a : A)
| Failed (e : error).

Arguments Done {A} a.
Arguments Failed {A} e.

#[export] Instance result_Monad : Monad result := {
  ret := fun A a => Done a;
  bind := fun A B c k =>
    match c with
    | Done a => k a
    | Failed e => Failed e
    end }.

Definition builtin {A} (r : res A) : result A :=
  match r with
  | Ok a => Done a
  | Raise e => Failed (Builtin e)
  end.

(** ** The settings file *)

(** The path BotRes/Settings.json: its directory is missing, the file is
    missing, or the file is there, holding a JSON document or a text that is
    none. *)
Inductive path_state :=
| NoDirectory
| NoFile
| File (doc : option json).

Definition isfile (p : path_state) : bool :=
  match p with
  | File _ => true
  | _ => false
  end.

(** [json.load] of the file opened for reading. *)
Definition load (p : path_state) : result json :=
  match p with
  | File (Some doc) => Done doc
  | File None => Failed (Builtin JSONDecodeError)
  | _ => Failed FileNotFoundError
  end.

(** [json.dump] to the file opened for writing. *)
Definition dump (doc : json) (p : path_state) : result path_state :=
  match p with
  | NoDirectory => Failed FileNotFoundError
  | _ => Done (File (Some doc))
  end.

(** [get_settings], lines 118-134. *)
Definition get_settings (file_settings : path_state) : path_state * result json :=
  if isfile file_settings then (file_settings, load file_settings)
  else
    let settings := JDict [("Settings"%string, JDict [("ThreadsCount"%string, JInt 5)])] in
    match dump settings file_settings with
    | Failed e => (file_settings, Failed e)
    | Done written => (written, load written)
    end.

(** ** The constructor *)

Fixpoint lookup {A} (key : string) (d : list (string * A)) : option A :=
  match d with
  | [] => None
  | (k, v) :: d' => if String.eqb k key then Some v else lookup key d'
  end.

(** [v[key]] for a string [key]. *)
Definition subscript (v : json) (key : string) : result json :=
  match v with
  | JDict d =>
      match lookup key d with
      | Some x => Done x
      | None => Failed (KeyError key)
      end
  | _ => Failed TypeError
  end.

(** [float(v)]. *)
Definition float_of (v : json) : result float :=
  match v with
  | JStr s => builtin (Py.float_from_string s)
  | JInt n => builtin (Py.long_as_double n)
  | JFloat x => Done x
  | JBool b => Done (if b then one else zero)
  | _ => Failed TypeError
  end.

(** The attributes [__init__] sets from the settings. *)
Record instance := {
  settings : json;
  client_secret_file_name : json;
  api_token_chatbot : json;
  chat_id : json;
  spread_sheet : json;
  work_sheet : json;
  ratio : float;
  busd_price : json }.

(** [self.settings['settings'][key]]. *)
Definition setting (settings : json) (key : string) : result json :=
  section <- subscript settings "settings" ;;
  subscript section key.

(** [__init__], lines 35-51.  [get_logger] and [get_spreadsheet_auth] stand
    for how these two calls end. *)
Definition __init__ (file_settings : path_state)
    (get_logger get_spreadsheet_auth : result unit) : path_state * result instance :=
  let (file_settings', loaded) := get_settings file_settings in
  (file_settings',
   settings <- loaded ;;
   client_secret_file_name <- setting settings "ClientSecretFileName" ;;
   api_token_chatbot <- setting settings "ChatBotToken" ;;
   chat_id <- setting settings "ChatID" ;;
   spread_sheet <- setting settings "SpreadSheet" ;;
   work_sheet <- setting settings "WorkSheet" ;;
   ratio <- (v <- setting settings "Ratio" ;; float_of v) ;;
   busd_price <- setting settings "BUSDPrice" ;;
   get_logger ;;
   get_spreadsheet_auth ;;
   ret {| settings := settings;
          client_secret_file_name := client_secret_file_name;
          api_token_chatbot := api_token_chatbot;
          chat_id := chat_id;
          spread_sheet := spread_sheet;
          work_sheet := work_sheet;
          ratio := ratio;
          busd_price := busd_price |}).

(** The keys the constructor reads. *)
Definition keys : list string :=
  ["ClientSecretFileName"; "ChatBotToken"; "ChatID"; "SpreadSheet"; "WorkSheet";
   "Ratio"; "BUSDPrice"]%string.

(** ** The user agent and the proxy *)

(** [str.isspace] on an ASCII character. *)
Definition isspace (c : ascii) : bool :=
  let n := nat_of_ascii c in
  (Py.isspace c || ((28 <=? n) && (n <=? 31))%nat)%bool.

Fixpoint lstrip (s : list ascii) : list ascii :=
  match s with
  | c :: s' => if isspace c then lstrip s' else s
  | [] => []
  end.

(** [x.strip()]. *)
Definition strip (x : string) : string :=
  string_of_list_ascii (rev (lstrip (rev (lstrip (list_ascii_of_string x))))).

(** [random.choice(seq)]; [draw] is the random number it draws. *)
Definition random_choice {A} (draw : nat) (seq : list A) : result A :=
  match seq with
  | [] => Failed (Builtin IndexError)
  | a :: _ => Done (nth (draw mod List.length seq) seq a)
  end.

(** [get_user_agent], lines 137-142.  [file_uagents] holds the lines of
    BotRes/user_agents.txt, when the file is there. *)
Definition get_user_agent (file_uagents : option (list string)) (draw : nat)
  : result string :=
  match file_uagents with
  | None => Failed FileNotFoundError
  | Some content =>
      let u_agents_list := map strip content in
      random_choice draw u_agents_list
  end.

(** [get_proxy], lines 145-152: the proxy selected is logged. *)
Definition get_proxy (file_proxies : option (list string)) (draw : nat)
  : list string * result string :=
  match file_proxies with
  | None => ([], Failed FileNotFoundError)
  | Some content =>
      let proxy_list := map strip content in
      match random_choice draw proxy_list with
      | Done proxy => ([("Proxy selected: " ++ proxy)%string], Done proxy)
      | Failed e => ([], Failed e)
      end
  end.

(** ** The Chrome options *)

Inductive experimental :=
| Switches (l : list string)
| Flag (b : bool)
| Prefs (l : list (string * Z)).

Record ChromeOptions := {
  binary_location : string;
  arguments : list string;
  experimental_options : list (string * experimental) }.

Definition add_argument (argument : string) (options : ChromeOptions) : ChromeOptions :=
  {| binary_location := binary_location options;
     arguments := (arguments options ++ [argument])%list;
     experimental_options := experimental_options options |}.

(** [d[key] = value]. *)
Fixpoint setitem {A} (key : string) (value : A) (d : list (string * A))
  : list (string * A) :=
  match d with
  | [] => [(key, value)]
  | (k, v) :: d' =>
      if String.eqb k key then (k, value) :: d' else (k, v) :: setitem key value d'
  end.

Definition add_experimental_option (name : string) (value : experimental)
    (options : ChromeOptions) : ChromeOptions :=
  {| binary_location := binary_location options;
     arguments := arguments options;
     experimental_options := setitem name value (experimental_options options) |}.

(** The options of lines 170-188, before the user agent is added. *)
Definition fixed_options : ChromeOptions :=
  let options := {| binary_location :=
                      "/Applications/Brave Browser.app/Contents/MacOS/Brave Browser";
                    arguments := [];
                    experimental_options := [] |} in
  let options := add_argument "--start-maximized" options in
  let options := add_argument "--disable-extensions" options in
  let options := add_argument "--disable-notifications" options in
  let options := add_argument "--disable-blink-features" options in
  let options := add_argument "--disable-dev-shm-usage" options in
  let options := add_argument "--no-sandbox" options in
  let options := add_argument "--disable-gpu" options in
  let options := add_argument "--dns-prefetch-disable" options in
  let options := add_argument "--ignore-ssl-errors" options in
  let options := add_argument "--ignore-certificate-errors" options in
  let options := add_argument "--disable-blink-features=AutomationControlled" options in
  let options := add_experimental_option "excludeSwitches" (Switches ["enable-logging"%string])
                   options in
  let options := add_experimental_option "excludeSwitches"
                   (Switches ["enable-automation"%string]) options in
  let options := add_experimental_option "useAutomationExtension" (Flag false) options in
  let prefs := [("profile.default_content_setting_values.geolocation"%string, 2);
                ("profile.managed_default_content_setting_values.images"%string, 2)] in
  add_experimental_option "prefs" (Prefs prefs) options.

(** [get_driver], lines 163-195: the log lines, and the options Chrome was
    started with.  [chrome]: [webdriver.Chrome] starts the browser. *)
Definition get_driver (file_uagents file_proxies : option (list string))
    (draw_agent draw_proxy : nat) (chrome : bool) (proxy headless : bool)
  : list string * result ChromeOptions :=
  let options := fixed_options in
  match get_user_agent file_uagents draw_agent with
  | Failed e => ([], Failed e)
  | Done agent =>
      let options := add_argument ("--user-agent=" ++ agent) options in
      let '(logged, chosen) :=
        if proxy then
          match get_proxy file_proxies draw_proxy with
          | (t, Done p) => (t, Done (add_argument ("--proxy-server=" ++ p) options))
          | (t, Failed e) => (t, Failed e)
          end
        else ([], Done options) in
      match chosen with
      | Failed e => (logged, Failed e)
      | Done options =>
          let options := if headless then add_argument "--headless" options else options in
          if chrome then (logged, Done options) else (logged, Failed WebDriverException)
      end
  end.

End Startup.

(** A settings file as the bot needs it, and the lines of a user agents
    file. *)
Definition settings_json : Startup.json :=
  Startup.JDict
    [("settings"%string,
      Startup.JDict
        [("ClientSecretFileName"%string, Startup.JStr "client_secret.json");
         ("ChatBotToken"%string, Startup.JStr "123456:TOKEN");
         ("ChatID"%string, Startup.JStr "-1001234567890");
         ("SpreadSheet"%string, Startup.JStr "YN Ratio Sheet");
         ("WorkSheet"%string, Startup.JStr "Sheet1");
         ("Ratio"%string, Startup.JStr "20");
         ("BUSDPrice"%string, Startup.JInt 1);
         ("CollectionURL"%string, Startup.JStr "https://opensea.io/collection/x")])].

(** The attributes the constructor sets from it. *)
Definition constructed : Startup.instance :=
  {| Startup.settings := settings_json;
     Startup.client_secret_file_name := Startup.JStr "client_secret.json";
     Startup.api_token_chatbot := Startup.JStr "123456:TOKEN";
     Startup.chat_id := Startup.JStr "-1001234567890";
     Startup.spread_sheet := Startup.JStr "YN Ratio Sheet";
     Startup.work_sheet := Startup.JStr "Sheet1";
     Startup.ratio := 20;
     Startup.busd_price := Startup.JInt 1 |}.

Definition user_agents : list string :=
  [String.append "Mozilla/5.0 (Windows NT 10.0; Win64; x64)" (String "010" EmptyString);
   String.append "  Mozilla/5.0 (X11; Linux x86_64) " (String "010" EmptyString);
   String "010" EmptyString].

(** * Properties *)

(** ** The built-ins on examples *)

Example float_from_string_examples :
  Py.float_from_string "16.67" = Ok 16.67%float /\
  Py.float_from_string (Py.remove "," "1,234.5") = Ok 1234.5%float /\
  Py.float_from_string " 1_0.5e-1 " = Ok 1.05%float /\
  Py.float_from_string "-Infinity" = Ok neg_infinity /\
  Py.float_from_string "1e400" = Ok infinity /\
  Py.float_from_string "1,234.5" = Raise ValueError /\
  Py.float_from_string "< 0.01" = Raise ValueError /\
  Py.float_from_string "" = Raise ValueError /\
  Py.float_from_string "1e" = Raise ValueError /\
  Py.float_from_string "1__0" = Raise ValueError.
Proof. repeat split; vm_compute; reflexivity. Qed.

Example long_from_string_examples :
  Py.long_from_string "100000" = Ok 100000 /\
  Py.long_from_string " -12_3 " = Ok (-123) /\
  Py.long_from_string "007" = Ok 7 /\
  Py.long_from_string "1 2" = Raise ValueError /\
  Py.long_from_string "12.5" = Raise ValueError /\
  Py.long_from_string "" = Raise ValueError.
Proof. repeat split; vm_compute; reflexivity. Qed.

Example double_round_examples :
  Py.double_round 16.666666666666668 2 = 16.67%float /\
  Py.double_round 2.675 2 = 2.67%float /\
  Py.double_round 0.125 2 = 0.12%float /\
  Py.double_round 0.375 2 = 0.38%float /\
  Py.double_round 1e300 2 = 1e300%float /\
  Py.double_round (-0.004) 2 = neg_zero /\
  Py.double_round infinity 2 = infinity.
Proof. repeat split; vm_compute; reflexivity. Qed.

Example float_div_examples :
  Py.float_div 100000 4000 = Ok 25%float /\
  Py.float_div 1 0 = Raise ZeroDivisionError /\
  Py.float_div 1 neg_zero = Raise ZeroDivisionError /\
  Py.float_div (2 ^ 1024) 1 = Raise OverflowError /\
  Py.float_div (2 ^ 1024) 0 = Raise OverflowError.
Proof. repeat split; vm_compute; reflexivity. Qed.


(** ** Running statements *)

Arguments Py.float_from_string : simpl never.
Arguments Py.long_from_string : simpl never.
Arguments Py.float_div : simpl never.
Arguments Py.double_round : simpl never.
Arguments stats_of : simpl never.
Arguments evaluate : simpl never.
Arguments matched : simpl never.

Lemma run_bind_Ok {A B} (c : M A) (k : A -> M B) s t s' a :
  c s = (t, s', Ok a) ->
  (x <- c ;; k x) s = ((t ++ trace (k a s'))%list, after (k a s'), outcome (k a s')).
Proof.
  intros H. cbn. rewrite H. destruct (k a s') as [[t' s''] r]. reflexivity.
Qed.

Lemma run_bind_Raise {A B} (c : M A) (k : A -> M B) s t s' e :
  c s = (t, s', Raise e) ->
  (x <- c ;; k x) s = (t, s', Raise e).
Proof.
  intros H. cbn. rewrite H. reflexivity.
Qed.

Lemma run_eta {A} (x : list event * state * res A) : x = (trace x, after x, outcome x).
Proof. destruct x as [[t s] r]. reflexivity. Qed.

Lemma extend_nil s : extend s [] = s.
Proof.
  destruct s. unfold extend. cbn. rewrite !app_nil_r. reflexivity.
Qed.

Lemma alerts_app t t' : alerts (t ++ t') = (alerts t ++ alerts t')%list.
Proof.
  induction t as [|e t IH]; [reflexivity|].
  destruct e; cbn; rewrite IH; reflexivity.
Qed.

Lemma updates_app t t' : updates (t ++ t') = (updates t ++ updates t')%list.
Proof.
  induction t as [|e t IH]; [reflexivity|].
  destruct e; cbn; rewrite IH; reflexivity.
Qed.

Section Runs.

Variable self : OpenSeaAlertBot.

(** *** One listing item *)

Lemma evaluate_eq b a :
  evaluate self b a =
  match stats_of self b a with
  | Raise e => ([], Raise e)
  | Ok stats =>
      if matched self stats then
        match a.(telegram) with
        | Unreachable =>
            ((item_events self stats ++ send_events self stats)%list, Raise ConnectionError)
        | Response _ true =>
            ((item_events self stats ++ send_events self stats
              ++ [Info Telegram_message_has_been_sent])%list, Ok stats)
        | Response _ false =>
            ((item_events self stats ++ send_events self stats
              ++ [Info Telegram_message_has_been_sent])%list, Raise JSONDecodeError)
        end
      else (item_events self stats, Ok stats)
  end.
Proof.
  unfold evaluate, send_telegram_msg, item_events, send_events.
  destruct (stats_of self b a) as [stats|e]; [|reflexivity].
  cbn -[matched]. destruct (matched self stats); [|reflexivity].
  destruct (telegram a) as [|code [|]]; reflexivity.
Qed.

Lemma evaluate_stats b a t stats :
  evaluate self b a = (t, Ok stats) -> stats_of self b a = Ok stats.
Proof.
  rewrite evaluate_eq. destruct (stats_of self b a) as [st|e]; [|discriminate].
  destruct (matched self st); [destruct (telegram a) as [|code [|]]|];
    intros H; inversion H; reflexivity.
Qed.

Lemma evaluate_alerts b a t stats :
  evaluate self b a = (t, Ok stats) ->
  alerts t = if matched self stats then [stats] else [].
Proof.
  rewrite evaluate_eq. destruct (stats_of self b a) as [st|e]; [|discriminate].
  destruct (matched self st) eqn:E; [destruct (telegram a) as [|code [|]]|];
    intros H; inversion H; subst; rewrite E; reflexivity.
Qed.

Lemma evaluate_quiet b a : updates (fst (evaluate self b a)) = [].
Proof.
  rewrite evaluate_eq. destruct (stats_of self b a) as [st|e]; [|reflexivity].
  destruct (matched self st); [destruct (telegram a) as [|code [|]]|]; reflexivity.
Qed.

Lemma evaluate_not_publish b a name :
  ~ In (Info (Updating_Spreadsheet name)) (fst (evaluate self b a)).
Proof.
  rewrite evaluate_eq. destruct (stats_of self b a) as [st|e]; [|intros []].
  destruct (matched self st); [destruct (telegram a) as [|code [|]]|];
    cbn; intuition discriminate.
Qed.

Lemma for_listing_item_run b a s :
  for_listing_item self b a s =
  match evaluate self b a with
  | (t, Ok stats) => (t, extend s [stats], Ok tt)
  | (t, Raise e) => (t, s, Raise e)
  end.
Proof.
  unfold for_listing_item, io. cbn -[evaluate].
  destruct (evaluate self b a) as [t [stats|e]]; cbn; [|reflexivity].
  rewrite app_nil_r. reflexivity.
Qed.

(** *** The for loop *)

Lemma extend_cons s stats l : extend (extend s [stats]) l = extend s (stats :: l).
Proof.
  unfold extend. cbn. rewrite <- !app_assoc. reflexivity.
Qed.

Lemma for_each_sweep b items : forall s,
  for_each (for_listing_item self b) items s =
  let '(t, l, r) := sweep self b items in (t, extend s l, r).
Proof.
  induction items as [|a items IH]; intros s.
  - cbn. rewrite extend_nil. reflexivity.
  - cbn [for_each sweep].
    destruct (evaluate self b a) as [t [stats|e]] eqn:E.
    + erewrite run_bind_Ok by (rewrite for_listing_item_run, E; reflexivity).
      rewrite IH. destruct (sweep self b items) as [[t' l] r]. cbn.
      rewrite extend_cons. reflexivity.
    + erewrite run_bind_Raise by (rewrite for_listing_item_run, E; reflexivity).
      rewrite extend_nil. reflexivity.
Qed.

Lemma sweep_passes b items :
  forallb (passes self b) items = true ->
  exists t,
    sweep self b items = (t, readable self b items, Ok tt) /\
    alerts t = due self b items /\ updates t = [] /\
    forall name, ~ In (Info (Updating_Spreadsheet name)) t.
Proof.
  unfold due. induction items as [|a items IH]; intros H.
  - exists []. cbn. intuition.
  - cbn in H. apply andb_prop in H. destruct H as [Ha H].
    destruct (IH H) as (t' & Hs & Hal & Hup & Hno).
    unfold passes in Ha.
    destruct (evaluate self b a) as [t [stats|e]] eqn:E; [|discriminate].
    exists (t ++ t')%list. cbn [sweep readable flat_map]. rewrite E, Hs.
    rewrite (evaluate_stats _ _ _ _ E). cbn [app filter].
    rewrite alerts_app, updates_app, Hal, Hup, (evaluate_alerts _ _ _ _ E).
    pose proof (evaluate_quiet b a) as Hq. rewrite E in Hq. cbn in Hq. rewrite Hq.
    repeat split.
    + destruct (matched self stats); reflexivity.
    + intros name Hin. apply in_app_or in Hin. destruct Hin as [Hin|Hin].
      * pose proof (evaluate_not_publish b a name) as Hn. rewrite E in Hn. auto.
      * eapply Hno; eauto.
Qed.

Lemma sweep_fails b pre a post :
  forallb (passes self b) pre = true ->
  passes self b a = false ->
  exists t e,
    evaluate self b a = (t, Raise e) /\
    sweep self b (pre ++ a :: post) =
      ((fst (fst (sweep self b pre)) ++ t)%list, readable self b pre, Raise e).
Proof.
  intros Hpre Ha. unfold passes in Ha.
  destruct (evaluate self b a) as [t [stats|e]] eqn:E; [discriminate|].
  exists t, e. split; [reflexivity|].
  induction pre as [|p pre IH].
  - cbn. rewrite E. reflexivity.
  - cbn in Hpre. apply andb_prop in Hpre. destruct Hpre as [Hp Hpre].
    specialize (IH Hpre). unfold passes in Hp.
    cbn [app sweep readable flat_map].
    destruct (evaluate self b p) as [tp [st|ep]] eqn:Ep; [|discriminate].
    rewrite IH, (evaluate_stats _ _ _ _ Ep).
    destruct (sweep self b pre) as [[t' l] r]. cbn. rewrite app_assoc. reflexivity.
Qed.

End Runs.

(** ** The worksheet *)

Arguments gspread : simpl never.
Arguments worksheet_range : simpl never.
Arguments worksheet_update_cells : simpl never.

Lemma getitem_app {A} (pre : list A) a l : getitem (pre ++ a :: l) (List.length pre) = Ok a.
Proof.
  unfold getitem. rewrite nth_error_app2, Nat.sub_diag by lia. reflexivity.
Qed.

Lemma replace_app {A} (pre : list A) a b l :
  replace (List.length pre) b (pre ++ a :: l) = (pre ++ b :: l)%list.
Proof.
  induction pre as [|x pre IH]; cbn; [reflexivity|]. rewrite IH. reflexivity.
Qed.

Lemma set_value_app pre c l n v :
  List.length pre = n ->
  set_value (pre ++ c :: l) n v
  = Ok (pre ++ {| row := row c; col := col c; value := v |} :: l)%list.
Proof.
  intros <-. unfold set_value. cbn. rewrite getitem_app, replace_app. reflexivity.
Qed.

Lemma assign_values_app enumerate :
  forall pp pb pu ps bs us d1 d2 d3 r1 r2 r3,
    List.length pb = List.length pp -> List.length pu = List.length pp ->
    List.length d1 = List.length pp -> List.length d2 = List.length pp ->
    List.length d3 = List.length pp ->
    List.length ps = List.length enumerate -> List.length bs = List.length enumerate ->
    List.length us = List.length enumerate -> List.length r1 = List.length enumerate ->
    List.length r2 = List.length enumerate -> List.length r3 = List.length enumerate ->
    assign_values enumerate (List.length pp) (pp ++ ps) (pb ++ bs) (pu ++ us)
      (d1 ++ r1) (d2 ++ r2) (d3 ++ r3)
    = Ok ((d1 ++ overwrite r1 (map PyFloat ps))%list,
          (d2 ++ overwrite r2 (map PyInt bs))%list,
          (d3 ++ overwrite r3 us)%list).
Proof.
  induction enumerate as [|c enumerate IH]; intros pp pb pu ps bs us d1 d2 d3 r1 r2 r3
    Hpb Hpu Hd1 Hd2 Hd3 Hps Hbs Hus Hr1 Hr2 Hr3.
  - destruct ps, bs, us, r1, r2, r3; try discriminate. reflexivity.
  - destruct ps as [|p ps], bs as [|b bs], us as [|u us],
      r1 as [|c1 r1], r2 as [|c2 r2], r3 as [|c3 r3]; try discriminate.
    cbn in Hps, Hbs, Hus, Hr1, Hr2, Hr3.
    cbn [assign_values bind res_Monad].
    rewrite getitem_app. cbn [bind res_Monad].
    rewrite set_value_app by assumption. cbn [bind res_Monad].
    rewrite <- Hpb, getitem_app. cbn [bind res_Monad].
    rewrite set_value_app by congruence. cbn [bind res_Monad].
    rewrite Hpb, <- Hpu, getitem_app. cbn [bind res_Monad].
    rewrite set_value_app by congruence. cbn [bind res_Monad].
    rewrite Hpu.
    replace (S (List.length pp)) with (List.length (pp ++ [p])) by (rewrite length_app; cbn; lia).
    replace (pp ++ p :: ps)%list with ((pp ++ [p]) ++ ps)%list by (rewrite <- app_assoc; reflexivity).
    replace (pb ++ b :: bs)%list with ((pb ++ [b]) ++ bs)%list by (rewrite <- app_assoc; reflexivity).
    replace (pu ++ u :: us)%list with ((pu ++ [u]) ++ us)%list by (rewrite <- app_assoc; reflexivity).
    match goal with
    | |- assign_values _ _ _ _ _ (d1 ++ ?x1 :: r1) (d2 ++ ?x2 :: r2) (d3 ++ ?x3 :: r3) = _ =>
        replace (d1 ++ x1 :: r1)%list with ((d1 ++ [x1]) ++ r1)%list by (rewrite <- app_assoc; reflexivity);
        replace (d2 ++ x2 :: r2)%list with ((d2 ++ [x2]) ++ r2)%list by (rewrite <- app_assoc; reflexivity);
        replace (d3 ++ x3 :: r3)%list with ((d3 ++ [x3]) ++ r3)%list by (rewrite <- app_assoc; reflexivity)
    end.
    rewrite IH by (rewrite ?length_app; cbn; lia).
    cbn [map overwrite]. rewrite <- !app_assoc. reflexivity.
Qed.

(** The loop on the two cells of an empty snapshot's range: its first
    assignment indexes an empty list. *)
Lemma assign_values_empty c enumerate bs us d1 d2 d3 :
  assign_values (c :: enumerate) 0 [] bs us d1 d2 d3 = Raise IndexError.
Proof. reflexivity. Qed.

Arguments assign_values : simpl never.

Lemma overwrite_range (w : sheet) k values : forall first,
  overwrite (map (fun r => {| row := r; col := k; value := w r k |})
               (seq first (List.length values))) values
  = column k first values.
Proof.
  induction values as [|v values IH]; intros first; [reflexivity|].
  cbn. rewrite IH. reflexivity.
Qed.

Lemma worksheet_range_run refused k n s :
  worksheet_range refused k 2 (n + 1) s =
  match gspread refused (Range k) with
  | Ok _ => ([], s, Ok (map (fun r => {| row := r; col := k; value := worksheet s r k |})
                          (match n with
                           | O => [1; 2]%nat
                           | S _ => seq 2 n
                           end)))
  | Raise e => ([], s, Raise e)
  end.
Proof.
  unfold worksheet_range. cbn [bind M_Monad lift M_Effects get ret].
  destruct (gspread refused (Range k)); [|reflexivity].
  destruct n as [|n]; [reflexivity|].
  rewrite Nat.min_l, Nat.max_r by lia.
  replace (S (S n + 1) - 2)%nat with (S n) by lia. reflexivity.
Qed.

Arguments values_update : simpl never.

Lemma worksheet_update_cells_run refused k cells s :
  worksheet_update_cells refused k cells s =
  match values_update refused k cells with
  | Ok _ => ([Update cells], set_worksheet s (write_all (worksheet s) cells), Ok tt)
  | Raise e => ([], s, Raise e)
  end.
Proof.
  unfold worksheet_update_cells. cbn. destruct (values_update refused k cells); reflexivity.
Qed.

Section Publish.

Lemma assign_values_range (df : DataFrame) (w : sheet) :
  let n := List.length (map (fun r => fst (fst r)) df) in
  let range k := map (fun r => {| row := r; col := k; value := w r k |}) (seq 2 n) in
  assign_values (range 1%nat) 0 (map (fun r => fst (fst r)) df)
    (map (fun r => snd (fst r)) df) (Link_tolist (map (fun r => snd r) df))
    (range 1%nat) (range 2%nat) (range 3%nat)
  = Ok (column_1 df, column_2 df, column_3 df).
Proof.
  intros n range.
  assert (L : List.length (Link_tolist (map (fun r => snd r) df)) = List.length df).
  { unfold Link_tolist. destruct (existsb _ _); rewrite !length_map; reflexivity. }
  pose proof (assign_values_app (range 1%nat) [] [] []
                (map (fun r => fst (fst r)) df) (map (fun r => snd (fst r)) df)
                (Link_tolist (map (fun r => snd r) df)) [] [] []
                (range 1%nat) (range 2%nat) (range 3%nat)) as H.
  cbn [app List.length] in H. rewrite H; clear H;
    try reflexivity; subst range n; rewrite ?L, ?length_map, ?length_seq; try reflexivity.
  unfold column_1, column_2, column_3.
  rewrite <- (overwrite_range w 1), <- (overwrite_range w 2), <- (overwrite_range w 3).
  rewrite !map_map, ?L, !length_map. reflexivity.
Qed.

(** [update_spreadsheet], call by call. *)
Lemma update_spreadsheet_run refused df ss ws s :
  let w1 := write_all (worksheet s) (column_1 df) in
  let w2 := write_all w1 (column_2 df) in
  let w3 := write_all w2 (column_3 df) in
  let t0 := [Info (Updating_Spreadsheet ss)] in
  update_spreadsheet refused df ss ws s =
  match gspread refused OpenSpreadsheet with Raise e => (t0, s, Raise e) | Ok _ =>
  match gspread refused OpenWorksheet with Raise e => (t0, s, Raise e) | Ok _ =>
  match gspread refused (Range 1) with Raise e => (t0, s, Raise e) | Ok _ =>
  match gspread refused (Range 2) with Raise e => (t0, s, Raise e) | Ok _ =>
  match gspread refused (Range 3) with Raise e => (t0, s, Raise e) | Ok _ =>
  match df with [] => (t0, s, Raise IndexError) | _ :: _ =>
  match values_update refused 1 (column_1 df) with Raise e => (t0, s, Raise e) | Ok _ =>
  match values_update refused 2 (column_2 df) with
  | Raise e => (t0 ++ [Update (column_1 df)], set_worksheet s w1, Raise e)
  | Ok _ =>
  match values_update refused 3 (column_3 df) with
  | Raise e => (t0 ++ [Update (column_1 df); Update (column_2 df)],
                set_worksheet s w2, Raise e)
  | Ok _ =>
      (t0 ++ [Update (column_1 df); Update (column_2 df); Update (column_3 df);
              Info (Updated_SpreadSheet ss ws)],
       set_worksheet s w3, Ok tt)
  end end end end end end end end end.
Proof.
  intros w1 w2 w3 t0. unfold update_spreadsheet.
  cbn [bind M_Monad LOGGER_info emit M_Effects lift].
  destruct (gspread refused OpenSpreadsheet) as [[]|e]; [|reflexivity].
  destruct (gspread refused OpenWorksheet) as [[]|e]; [|reflexivity].
  rewrite worksheet_range_run.
  destruct (gspread refused (Range 1)) as [[]|e]; [|reflexivity].
  rewrite worksheet_range_run.
  destruct (gspread refused (Range 2)) as [[]|e]; [|reflexivity].
  rewrite worksheet_range_run.
  destruct (gspread refused (Range 3)) as [[]|e]; [|reflexivity].
  destruct df as [|row df].
  - cbn [map List.length]. rewrite assign_values_empty. reflexivity.
  - remember (row :: df) as df' eqn:E.
    replace (match List.length (map (fun r => fst (fst r)) df') with
             | O => [1; 2]%nat
             | S _ => seq 2 (List.length (map (fun r => fst (fst r)) df'))
             end) with (seq 2 (List.length (map (fun r => fst (fst r)) df')))
      by (subst df'; reflexivity).
    rewrite (assign_values_range df' (worksheet s)).
    rewrite worksheet_update_cells_run.
    destruct (values_update refused 1 (column_1 df')) as [[]|e]; [|reflexivity].
    rewrite worksheet_update_cells_run.
    destruct (values_update refused 2 (column_2 df')) as [[]|e]; [|reflexivity].
    rewrite worksheet_update_cells_run.
    destruct (values_update refused 3 (column_3 df')) as [[]|e]; reflexivity.
Qed.

End Publish.

(** The cases of [update_spreadsheet_run], one goal for each. *)
Ltac publish_cases :=
  rewrite ?update_spreadsheet_run; cbn zeta;
  repeat match goal with
         | |- context [gspread ?r ?c] => destruct (gspread r c) as [[]|?]
         end;
  try match goal with
      | |- context [match ?df with [] => _ | _ :: _ => _ end] =>
          destruct df
      end;
  repeat match goal with
         | |- context [values_update ?r ?k ?c] => destruct (values_update r k c) as [[]|?]
         end.

(** *** DataFrames whose every value can be sent *)

Lemma compliant_column k values : forall first,
  compliant (column k first values) = forallb json_compliant values.
Proof.
  induction values as [|v values IH]; intros first; [reflexivity|].
  cbn [column compliant forallb value]. f_equal. apply IH.
Qed.

Lemma Link_tolist_present (df : DataFrame) :
  sendable df = true ->
  Link_tolist (map (fun r => snd r) df) = map (fun r => of_href (snd r)) df.
Proof.
  intros H. unfold Link_tolist.
  destruct (existsb _ _); rewrite map_map; [|reflexivity].
  induction df as [|[[p b] u] df IH]; [reflexivity|].
  cbn [sendable forallb fst snd] in H. apply andb_prop in H. destruct H as [H Hdf].
  apply andb_prop in H. destruct H as [_ Hu].
  cbn [map snd]. rewrite (IH Hdf). destruct u; [reflexivity|discriminate].
Qed.

Lemma compliant_column_1 df : sendable df = true -> compliant (column_1 df) = true.
Proof.
  intros H. unfold column_1. rewrite compliant_column.
  induction df as [|[[p b] u] df IH]; [reflexivity|].
  cbn [sendable forallb fst snd] in H. apply andb_prop in H. destruct H as [H Hdf].
  apply andb_prop in H. destruct H as [Hp _].
  cbn [map forallb json_compliant fst]. rewrite Hp. apply IH. exact Hdf.
Qed.

Lemma compliant_column_2 df : compliant (column_2 df) = true.
Proof.
  unfold column_2. rewrite compliant_column.
  induction df as [|r df IH]; [reflexivity|exact IH].
Qed.

Lemma compliant_column_3 df : sendable df = true -> compliant (column_3 df) = true.
Proof.
  intros H. unfold column_3. rewrite compliant_column, (Link_tolist_present df H).
  induction df as [|[[p b] u] df IH]; [reflexivity|].
  cbn [sendable forallb fst snd] in H. apply andb_prop in H. destruct H as [_ Hdf].
  cbn [map forallb snd]. rewrite (IH Hdf). destruct u; reflexivity.
Qed.

Lemma values_update_compliant refused k cells :
  compliant cells = true -> values_update refused k cells = gspread refused (UpdateCells k).
Proof. unfold values_update, compliant. intros ->. reflexivity. Qed.

(** A DataFrame with a row whose values can all be sent fails on a refused
    call only. *)
Lemma update_spreadsheet_sendable refused df ss ws s :
  df <> [] ->
  sendable df = true ->
  let w1 := write_all (worksheet s) (column_1 df) in
  let w2 := write_all w1 (column_2 df) in
  let w3 := write_all w2 (column_3 df) in
  let t0 := [Info (Updating_Spreadsheet ss)] in
  update_spreadsheet refused df ss ws s =
  match gspread refused OpenSpreadsheet with Raise e => (t0, s, Raise e) | Ok _ =>
  match gspread refused OpenWorksheet with Raise e => (t0, s, Raise e) | Ok _ =>
  match gspread refused (Range 1) with Raise e => (t0, s, Raise e) | Ok _ =>
  match gspread refused (Range 2) with Raise e => (t0, s, Raise e) | Ok _ =>
  match gspread refused (Range 3) with Raise e => (t0, s, Raise e) | Ok _ =>
  match gspread refused (UpdateCells 1) with Raise e => (t0, s, Raise e) | Ok _ =>
  match gspread refused (UpdateCells 2) with
  | Raise e => (t0 ++ [Update (column_1 df)], set_worksheet s w1, Raise e)
  | Ok _ =>
  match gspread refused (UpdateCells 3) with
  | Raise e => (t0 ++ [Update (column_1 df); Update (column_2 df)],
                set_worksheet s w2, Raise e)
  | Ok _ =>
      (t0 ++ [Update (column_1 df); Update (column_2 df); Update (column_3 df);
              Info (Updated_SpreadSheet ss ws)],
       set_worksheet s w3, Ok tt)
  end end end end end end end end.
Proof.
  intros Hne H w1 w2 w3 t0. rewrite update_spreadsheet_run. cbn zeta.
  rewrite (values_update_compliant refused 1 _ (compliant_column_1 df H)).
  rewrite (values_update_compliant refused 2 _ (compliant_column_2 df)).
  rewrite (values_update_compliant refused 3 _ (compliant_column_3 df H)).
  destruct df as [|row df]; [contradiction|]. reflexivity.
Qed.

(** A refused call makes [update_spreadsheet] fail, whatever the DataFrame. *)
Lemma update_spreadsheet_fails call df ss ws s :
  In call calls ->
  exists e, outcome (update_spreadsheet (Some call) df ss ws s) = Raise e.
Proof.
  intros H. rewrite update_spreadsheet_run. cbn zeta. unfold values_update, gspread.
  cbn in H.
  repeat (destruct H as [<-|H];
          [cbn [api_call_eqb Nat.eqb]; destruct df;
           repeat match goal with
                  | |- context [if ?b then _ else _] => destruct b
                  end; eexists; reflexivity|]).
  destruct H.
Qed.

(** ** One iteration of [while True] *)

Arguments update_spreadsheet : simpl never.
Arguments pd_DataFrame : simpl never.
Arguments read_balance : simpl never.
Arguments sweep : simpl never.

Lemma pd_DataFrame_rows l :
  pd_DataFrame (map Listing_Price l) (map Account_Value l) (map Link l) = Ok (rows l).
Proof.
  unfold pd_DataFrame. rewrite !length_map, Nat.eqb_refl. cbn [andb]. f_equal.
  induction l as [|stats l IH]; [reflexivity|]. cbn. rewrite IH. reflexivity.
Qed.

Section Iteration.

Variable self : OpenSeaAlertBot.

Lemma while_body_run v s :
  while_body self v s =
  if v.(balance_visible) then
    match read_balance v with
    | Raise e => ([Info Getting_trait_balance; Sleep 5], s, Raise e)
    | Ok b =>
        if v.(articles_visible) then
          let '(t, l, r) := sweep self b v.(articles) in
          match r with
          | Raise e => ((opening ++ t)%list, extend (emptied s) l, Raise e)
          | Ok _ =>
              let p := update_spreadsheet v.(refused) (rows l) self.(spread_sheet)
                         self.(work_sheet) (extend (emptied s) l) in
              match outcome p with
              | Raise e => ((opening ++ t ++ trace p)%list, after p, Raise e)
              | Ok _ =>
                  ((opening ++ t ++ trace p
                    ++ [Info (Stats_have_been_updated self.(spread_sheet))])%list,
                   after p, Ok Continue)
              end
          end
        else (empty_market, emptied s, Ok Continue)
    end
  else ([Info Getting_trait_balance], s, Ok Return).
Proof.
  unfold while_body, io, try_except.
  destruct (balance_visible v); [|reflexivity].
  cbn [bind M_Monad W_Monad LOGGER_info sleep emit lift W_Effects M_Effects
         wait_until_visible ret fst snd app].
  destruct (read_balance v) as [b|e]; [|reflexivity].
  destruct (articles_visible v); [|reflexivity].
  cbn [bind M_Monad W_Monad LOGGER_info sleep emit lift W_Effects M_Effects
         wait_until_visible ret fst snd app empty_lists get put].
  rewrite for_each_sweep.
  destruct (sweep self b (articles v)) as [[t l] [[]|e]]; [|reflexivity].
  cbn [extend emptied worksheet trait_balances listing_prices listing_urls app].
  rewrite pd_DataFrame_rows.
  destruct (update_spreadsheet _ _ _ _ _) as [[tp sp] [[]|e]]; cbn;
    rewrite ?app_nil_r; reflexivity.
Qed.

Lemma update_spreadsheet_quiet refused df ss ws s :
  alerts (trace (update_spreadsheet refused df ss ws s)) = [].
Proof.
  publish_cases; reflexivity.
Qed.

Lemma update_spreadsheet_keeps refused df ss ws s :
  let s' := after (update_spreadsheet refused df ss ws s) in
  trait_balances s' = trait_balances s /\
  listing_prices s' = listing_prices s /\
  listing_urls s' = listing_urls s.
Proof.
  publish_cases; cbn; auto.
Qed.

Lemma update_spreadsheet_starts refused df ss ws s :
  In (Info (Updating_Spreadsheet ss)) (trace (update_spreadsheet refused df ss ws s)).
Proof.
  publish_cases; left; reflexivity.
Qed.

(** An iteration reaches the publish step exactly when its waits end in
    time, its balance is read and its for loop runs through. *)
Lemma reaches_publish_iff v s :
  reaches_publish self v s <->
  v.(balance_visible) = true /\ v.(articles_visible) = true /\
  exists b, read_balance v = Ok b /\ forallb (passes self b) v.(articles) = true.
Proof.
  unfold reaches_publish. rewrite while_body_run. split.
  - destruct (balance_visible v); [|cbn; intuition discriminate].
    destruct (read_balance v) as [b|e]; [|cbn; intuition discriminate].
    destruct (articles_visible v); [|cbn; intuition discriminate].
    intros H. repeat split. exists b. split; [reflexivity|].
    destruct (forallb (passes self b) (articles v)) eqn:E; [reflexivity|exfalso].
    revert H. clear - E. unfold trace.
    (* the for loop stops in the items: its events hold no publish *)
    assert (Hs : forall items, forallb (passes self b) items = false ->
               exists t l e, sweep self b items = (t, l, Raise e) /\
                 ~ In (Info (Updating_Spreadsheet self.(spread_sheet))) t).
    { clear. induction items as [|a items IH]; [discriminate|].
      cbn [forallb]. intros H. unfold sweep; fold sweep. unfold passes in H.
      pose proof (evaluate_not_publish self b a self.(spread_sheet)) as Hn.
      destruct (evaluate self b a) as [t [stats|e]]; cbn [fst snd] in *.
      - cbn [andb] in H. destruct (IH H) as (t' & l & e & -> & Hno).
        exists (t ++ t')%list, (stats :: l), e. split; [reflexivity|].
        intros Hin. apply in_app_or in Hin. tauto.
      - exists t, [], e. split; [reflexivity|assumption]. }
    destruct (Hs _ E) as (t & l & e & -> & Hno). cbn.
    intuition discriminate.
  - intros (-> & -> & b & -> & H).
    destruct (sweep_passes self b _ H) as (t & -> & _).
    cbn zeta. set (p := update_spreadsheet _ _ _ _ _).
    pose proof (update_spreadsheet_starts (refused v) (rows (readable self b (articles v)))
                  self.(spread_sheet) self.(work_sheet)
                  (extend (emptied s) (readable self b (articles v)))) as Hin.
    fold p in Hin.
    destruct (outcome p); unfold trace at 1; cbn [fst];
      apply in_or_app; right; apply in_or_app; right;
      [apply in_or_app; left|]; exact Hin.
Qed.

(** *** The loop *)

Lemma while_True_Continue v rest s :
  outcome (while_body self v s) = Ok Continue ->
  while_True self (v :: rest) s =
  let r := while_True self rest (after (while_body self v s)) in
  ((trace (while_body self v s) ++ trace r)%list, after r, outcome r).
Proof.
  intros H. cbn [while_True].
  rewrite (run_bind_Ok _ _ s (trace (while_body self v s))
             (after (while_body self v s)) Continue); [reflexivity|].
  rewrite <- H. apply run_eta.
Qed.

Lemma while_True_Raise v rest s e :
  outcome (while_body self v s) = Raise e ->
  while_True self (v :: rest) s = while_body self v s.
Proof.
  intros H. cbn [while_True].
  rewrite (run_bind_Raise _ _ s (trace (while_body self v s))
             (after (while_body self v s)) e).
  - rewrite <- H. symmetry. apply run_eta.
  - rewrite <- H. apply run_eta.
Qed.

End Iteration.

(** ** Comparisons of floats *)

Lemma eqb_leb (x y : float) : PrimFloat.eqb x y = true -> PrimFloat.leb y x = true.
Proof.
  rewrite eqb_spec, leb_spec. unfold SFeqb, SFleb.
  destruct (Prim2SF x) as [sx|sx| |sx mx ex], (Prim2SF y) as [sy|sy| |sy my ey];
    try destruct sx; try destruct sy; cbn; try discriminate; try reflexivity.
  all: destruct (ex ?= ey) eqn:E; try discriminate;
    apply Z.compare_eq in E; subst ey; rewrite Z.compare_refl;
    destruct (Pos.compare_cont Eq mx my) eqn:M; try discriminate;
    apply Pos.compare_eq in M; subst my; intros _;
    change (Pos.compare_cont Eq mx mx) with (Pos.compare mx mx);
    rewrite Pos.compare_refl; reflexivity.
Qed.

Lemma positive_is_not_zero (p : float) :
  PrimFloat.ltb zero p = true -> PrimFloat.eqb p zero = false.
Proof.
  rewrite ltb_spec, eqb_spec. unfold SFltb, SFeqb.
  change (Prim2SF zero) with (S754_zero false).
  destruct (Prim2SF p) as [s|s| |s m e]; cbn; try discriminate;
    destruct s; (discriminate || reflexivity).
Qed.

(** ** Integers as floats *)

Lemma digits2_pos_le m : forall k, Zpos m < 2 ^ Zpos k -> (digits2_pos m <= k)%positive.
Proof.
  induction m as [m IH|m IH|]; intros k H; cbn [digits2_pos].
  - destruct (Pos.eq_dec k 1) as [->|Hk]; [cbn in H; lia|].
    destruct (Pos.succ_pred_or k) as [E|E]; [congruence|].
    rewrite <- E in H |- *. rewrite Pos2Z.inj_succ, Z.pow_succ_r in H by lia.
    apply -> Pos.succ_le_mono. apply IH. lia.
  - destruct (Pos.eq_dec k 1) as [->|Hk]; [cbn in H; lia|].
    destruct (Pos.succ_pred_or k) as [E|E]; [congruence|].
    rewrite <- E in H |- *. rewrite Pos2Z.inj_succ, Z.pow_succ_r in H by lia.
    apply -> Pos.succ_le_mono. apply IH. lia.
  - apply Pos.le_1_l.
Qed.

Lemma digits2_pos_iter m k : digits2_pos (Pos.iter xO m k) = (digits2_pos m + k)%positive.
Proof.
  induction k as [|k IH] using Pos.peano_ind.
  - cbn. lia.
  - rewrite Pos.iter_succ. cbn [digits2_pos]. rewrite IH. lia.
Qed.

(** An integer of at most 53 bits is a float as it stands: its mantissa is
    shifted, never rounded, and its exponent is in range. *)
Lemma binary_normalize_small n :
  0 <= n < 2 ^ 53 ->
  match binary_normalize prec emax n 0 false with
  | S754_infinity _ => False
  | _ => True
  end.
Proof.
  intros [H0 H]. destruct n as [|m|m]; [exact I| |lia].
  pose proof (digits2_pos_le m 53 H) as Hd.
  unfold binary_normalize, binary_round.
  assert (Hf : fexp prec emax (Zpos (digits2_pos m) + 0) = Zpos (digits2_pos m) - 53).
  { unfold fexp, SpecFloat.emin, prec, emax. lia. }
  rewrite Hf. unfold shl_align.
  destruct (Zpos (digits2_pos m) - 53 - 0) as [|k|k] eqn:E; [|lia|].
  - unfold binary_round_aux, shr_fexp.
    assert (E0 : fexp prec emax (Zdigits2 (Zpos m) + 0) - 0 = 0).
    { unfold fexp, SpecFloat.emin, prec, emax, Zdigits2. lia. }
    rewrite E0. cbn [shr shr_record_of_loc shr_m loc_of_shr_record round_nearest_even].
    rewrite E0. cbn. exact I.
  - unfold binary_round_aux, shr_fexp.
    assert (E0 : fexp prec emax (Zdigits2 (Zpos (Pos.iter xO m k)) + (Zpos (digits2_pos m) - 53))
                 - (Zpos (digits2_pos m) - 53) = 0).
    { unfold fexp, SpecFloat.emin, prec, emax, Zdigits2. rewrite digits2_pos_iter. lia. }
    rewrite E0. cbn [shr shr_record_of_loc shr_m loc_of_shr_record round_nearest_even].
    rewrite E0. cbn [shr shr_record_of_loc shr_m].
    destruct (Zpos (digits2_pos m) - 53 <=? emax - prec) eqn:L; [exact I|].
    apply Z.leb_gt in L. unfold emax, prec in L. lia.
Qed.

(** ** The ratio and the threshold *)

(** The scenarios of the spec: 100000 by 4000 and by 6000. *)
Example ratio_of_scenarios :
  ratio_of 100000 4000 = Ok 25%float /\ ratio_of 100000 6000 = Ok 16.67%float.
Proof. split; vm_compute; reflexivity. Qed.

(** [div_half_even n d] is the one integer nearest to [n / d] that is even
    when two are equally near. *)
Lemma div_half_even_spec n d :
  0 < d -> 0 <= n ->
  let k := Py.div_half_even n d in
  0 <= k /\
  2 * Z.abs (n - k * d) <= d /\
  (2 * Z.abs (n - k * d) = d -> Z.even k = true).
Proof.
  intros Hd Hn k. subst k. unfold Py.div_half_even.
  pose proof (Z.div_mod n d ltac:(lia)) as Hdm.
  pose proof (Z.mod_pos_bound n d Hd) as Hm.
  pose proof (Z.div_pos n d Hn Hd) as Hq.
  destruct (2 * (n mod d) ?= d) eqn:E.
  - apply Z.compare_eq in E. destruct (Z.even (n / d)) eqn:Ev.
    + repeat split; [lia|lia|intros _; exact Ev].
    + repeat split; [lia|lia|intros _; rewrite Z.even_add, Ev; reflexivity].
  - rewrite Z.compare_lt_iff in E. repeat split; [lia|lia|lia].
  - rewrite Z.compare_gt_iff in E. repeat split; [lia|lia|lia].
Qed.

(** [round(q, 2)] is [q] rounded to two decimal places. *)
Lemma double_round_rounded q : rounded_to_cents q (Py.double_round q 2).
Proof.
  unfold rounded_to_cents, Py.double_round.
  destruct (Prim2SF q) as [s0|s0| |s0 m e]; try reflexivity.
  cbn zeta. change (10 ^ 2) with 100. change (Z.to_pos 100) with 100%positive.
  destruct (0 <=? e) eqn:L.
  - apply Z.leb_le in L. rewrite Z.max_l, Z.max_r by lia. change (2 ^ 0) with 1.
    assert (P : 0 < 2 ^ e) by (apply Z.pow_pos_nonneg; lia).
    exists (Zpos m * 2 ^ e * 100). repeat split; [nia|nia|nia].
  - apply Z.leb_gt in L. rewrite Z.max_r, Z.max_l by lia. change (2 ^ 0) with 1.
    assert (P : 0 < 2 ^ (- e)) by (apply Z.pow_pos_nonneg; lia).
    destruct (div_half_even_spec (Zpos m * 100) (2 ^ (- e)) P ltac:(lia)) as (H0 & H1 & H2).
    exists (Py.div_half_even (Zpos m * 100) (2 ^ (- e))).
    replace (100 * Zpos m * 1) with (Zpos m * 100) by lia.
    repeat split; assumption.
Qed.

(** An int of at most 63 bits converts as the primitive conversion does. *)
Lemma long_as_double_of_uint63 n :
  0 <= n < 2 ^ 53 -> Py.long_as_double n = Ok (of_uint63 (Uint63.of_Z n)).
Proof.
  intros H. pose proof (binary_normalize_small n H) as B.
  unfold Py.long_as_double.
  assert (E : binary_normalize prec emax n 0 false = Prim2SF (of_uint63 (Uint63.of_Z n))).
  { rewrite of_uint63_spec, Uint63.of_Z_spec, Z.mod_small; [reflexivity|].
    change Uint63.wB with (2 ^ 63). assert (2 ^ 53 < 2 ^ 63) by reflexivity. lia. }
  rewrite E in B |- *.
  destruct (Prim2SF (of_uint63 (Uint63.of_Z n))) eqn:F; try contradiction;
    rewrite <- F, SF2Prim_Prim2SF; reflexivity.
Qed.

(** C4: for a balance >= 0 and a price > 0 -- the text of the item's price
    span, commas removed, read as a float and multiplied by the conversion
    rate -- the ratio computed at line 350 and put in the item's dictionary
    is the balance divided by that price, rounded to 2 decimal places:
    [spec_ratio].  Whenever it is a value, it is the float quotient of the
    balance by the price rounded to the nearest hundredth, a value half way
    going to the even hundredth, as the nearest float.  For a balance below
    2 ^ 53 it is a value, and the balance enters the quotient as the float of
    the same value. *)
Theorem ratio_is_rounded_quotient self trait_balance item text x url :
  0 <= trait_balance ->
  item.(price_visible) = true ->
  item.(price_text) = Some text ->
  Py.float_from_string (Py.remove "," text) = Ok x ->
  item.(link) = Some url ->
  PrimFloat.ltb zero (x * self.(busd_price)) = true ->
  ratio_of trait_balance (x * self.(busd_price))
  = spec_ratio trait_balance (x * self.(busd_price)) /\
  stats_of self trait_balance item =
    (r <- spec_ratio trait_balance (x * self.(busd_price)) ;;
     ret {| Listing_Price := (x * self.(busd_price))%float;
            Account_Value := trait_balance;
            Ratio := r;
            Link := url |}) /\
  (forall stats,
     stats_of self trait_balance item = Ok stats ->
     exists b,
       Py.long_as_double trait_balance = Ok b /\
       rounded_to_cents (b / (x * self.(busd_price)))%float stats.(Ratio)) /\
  (trait_balance < 2 ^ 53 ->
   exists stats,
     stats_of self trait_balance item = Ok stats /\
     rounded_to_cents
       (of_uint63 (Uint63.of_Z trait_balance) / (x * self.(busd_price)))%float
       stats.(Ratio)).
Proof.
  intros H0 Hv Ht Hx Hl Hp.
  assert (Hr : ratio_of trait_balance (x * self.(busd_price))
               = spec_ratio trait_balance (x * self.(busd_price))).
  { unfold ratio_of, spec_ratio, Py.float_div.
    rewrite (positive_is_not_zero _ Hp). cbn [bind res_Monad ret].
    destruct (Py.long_as_double trait_balance) as [b|e]; reflexivity. }
  assert (Hst : stats_of self trait_balance item =
                (r <- spec_ratio trait_balance (x * self.(busd_price)) ;;
                 ret {| Listing_Price := (x * self.(busd_price))%float;
                        Account_Value := trait_balance;
                        Ratio := r;
                        Link := url |})).
  { unfold stats_of. rewrite Hv, Ht, Hl.
    cbn [wait_until_visible find_element bind res_Monad]. rewrite Hx, Hr. reflexivity. }
  split; [exact Hr|]. split; [exact Hst|]. split.
  - intros stats Hs. rewrite Hst in Hs. unfold spec_ratio in Hs.
    rewrite (positive_is_not_zero _ Hp) in Hs. cbn [bind res_Monad ret] in Hs.
    destruct (Py.long_as_double trait_balance) as [b|e]; [|discriminate].
    exists b. split; [reflexivity|]. inversion Hs. cbn [Ratio].
    apply double_round_rounded.
  - intros Hb. rewrite Hst. unfold spec_ratio.
    rewrite (positive_is_not_zero _ Hp), (long_as_double_of_uint63 _ (conj H0 Hb)).
    cbn [bind res_Monad ret]. eexists. split; [reflexivity|]. cbn [Ratio].
    apply double_round_rounded.
Qed.

Lemma ratio_is_rounded_quotient_witness :
  exists stats,
    stats_of bot 100000 dear = Ok stats /\
    stats.(Ratio) = 16.67%float /\
    rounded_to_cents (of_uint63 (Uint63.of_Z 100000) / (6000 * 1))%float stats.(Ratio).
Proof.
  destruct (ratio_is_rounded_quotient bot 100000 dear "6,000" 6000
              (Some "https://opensea.io/assets/2"%string))
    as (_ & Hst & _ & H);
    [ lia | reflexivity | reflexivity | vm_compute; reflexivity | reflexivity
    | vm_compute; reflexivity | ].
  destruct (H ltac:(lia)) as (stats & Hs & Hround).
  exists stats. split; [exact Hs|]. split; [|exact Hround].
  assert (E : stats_of bot 100000 dear
              = Ok {| Listing_Price := 6000; Account_Value := 100000;
                      Ratio := 16.67; Link := Some "https://opensea.io/assets/2"%string |})
    by (vm_compute; reflexivity).
  rewrite E in Hs. inversion Hs. reflexivity.
Defined.

(** The item of the spec's second scenario: a price of 6000 gives 16.67. *)
Example stats_of_dear :
  stats_of bot 100000 dear =
    Ok {| Listing_Price := 6000;
          Account_Value := 100000;
          Ratio := 16.67;
          Link := Some "https://opensea.io/assets/2"%string |}.
Proof. vm_compute. reflexivity. Qed.

(** C5: for an item that has been read, whatever the state and the balance
    of the iteration, the for body sends an alert exactly when the item's
    ratio is at least the threshold, [ratio >= self.ratio]; a ratio equal to
    the threshold is sent. *)
Theorem alert_iff_ratio_reaches_threshold self trait_balance item stats s :
  stats_of self trait_balance item = Ok stats ->
  let t := trace (for_listing_item self trait_balance item s) in
  (alerts t = [stats] <-> PrimFloat.leb self.(ratio) stats.(Ratio) = true) /\
  (alerts t = [] <-> PrimFloat.leb self.(ratio) stats.(Ratio) = false) /\
  (PrimFloat.eqb stats.(Ratio) self.(ratio) = true -> alerts t = [stats]).
Proof.
  intros H t.
  assert (Ht : alerts t = if PrimFloat.leb self.(ratio) stats.(Ratio) then [stats] else []).
  { subst t. rewrite for_listing_item_run, evaluate_eq, H. unfold matched.
    destruct (PrimFloat.leb (ratio self) (Ratio stats)) eqn:E;
      [destruct (telegram item) as [|code [|]]|]; reflexivity. }
  rewrite Ht. repeat split.
  - destruct (PrimFloat.leb _ _); [reflexivity|discriminate].
  - intros ->. reflexivity.
  - destruct (PrimFloat.leb _ _); [discriminate|reflexivity].
  - intros ->. reflexivity.
  - intros E. rewrite (eqb_leb _ _ E). reflexivity.
Qed.

Lemma alert_iff_ratio_reaches_threshold_witness :
  let stats := {| Listing_Price := 5000;
                  Account_Value := 100000;
                  Ratio := 20;
                  Link := Some "https://opensea.io/assets/7"%string |} in
  alerts (trace (for_listing_item bot 100000
                   (listing "5,000" "https://opensea.io/assets/7" (Response 200 true))
                   start)) = [stats].
Proof.
  intros stats.
  apply (alert_iff_ratio_reaches_threshold bot 100000
           (listing "5,000" "https://opensea.io/assets/7" (Response 200 true)) stats start);
    vm_compute; reflexivity.
Defined.

(** ** Iterations that publish *)

Section Snapshots.

Variable self : OpenSeaAlertBot.

Lemma stats_of_balance b a stats :
  stats_of self b a = Ok stats -> stats.(Account_Value) = b.
Proof.
  unfold stats_of. cbn [bind res_Monad ret].
  repeat match goal with
         | |- match ?x with _ => _ end = _ -> _ => destruct x; try discriminate
         end.
  intros H. inversion H. reflexivity.
Qed.

Lemma stats_of_ext b a a' :
  a.(price_visible) = a'.(price_visible) ->
  a.(price_text) = a'.(price_text) ->
  a.(link) = a'.(link) ->
  stats_of self b a = stats_of self b a'.
Proof.
  unfold stats_of. intros -> -> ->. reflexivity.
Qed.

Lemma passes_stats b a :
  passes self b a = true ->
  a.(price_visible) = true /\ exists stats, stats_of self b a = Ok stats.
Proof.
  unfold passes. rewrite evaluate_eq.
  destruct (stats_of self b a) as [stats|e] eqn:E; [|discriminate].
  intros _. split; [|eauto].
  unfold stats_of in E. destruct (price_visible a); [reflexivity|discriminate].
Qed.

Lemma readable_passes b items :
  forallb (passes self b) items = true ->
  Forall2 (fun a stats => stats_of self b a = Ok stats) items (readable self b items) /\
  map Account_Value (readable self b items) = repeat b (List.length items).
Proof.
  induction items as [|a items IH]; intros H.
  - split; constructor.
  - cbn in H. apply andb_prop in H. destruct H as [Ha H].
    destruct (IH H) as [IH1 IH2].
    destruct (passes_stats _ _ Ha) as [_ [stats Hs]].
    cbn [readable flat_map]. rewrite Hs. cbn [app List.length repeat map].
    split.
    + constructor; assumption.
    + rewrite (stats_of_balance _ _ _ Hs). f_equal. exact IH2.
Qed.

Lemma readable_ext b items : forall items',
  forallb (passes self b) items = true ->
  forallb (passes self b) items' = true ->
  map price_text items = map price_text items' ->
  map link items = map link items' ->
  readable self b items = readable self b items'.
Proof.
  induction items as [|a items IH]; intros [|a' items'] H H' Hp Hl;
    try discriminate; [reflexivity|].
  cbn in H, H', Hp, Hl.
  apply andb_prop in H. destruct H as [Ha H].
  apply andb_prop in H'. destruct H' as [Ha' H'].
  inversion Hp. inversion Hl.
  destruct (passes_stats _ _ Ha) as [Hv _], (passes_stats _ _ Ha') as [Hv' _].
  cbn [readable flat_map].
  rewrite (stats_of_ext b a a') by congruence.
  f_equal. apply IH; assumption.
Qed.

(** What an iteration that reaches the publish step has done before it. *)
Lemma while_body_publishing v s b :
  reaches_publish self v s ->
  read_balance v = Ok b ->
  let l := readable self b v.(articles) in
  let p := update_spreadsheet v.(refused) (rows l) self.(spread_sheet) self.(work_sheet)
             (extend (emptied s) l) in
  forallb (passes self b) v.(articles) = true /\
  after (while_body self v s) = after p /\
  alerts (trace (while_body self v s)) = due self b v.(articles) /\
  updates (trace (while_body self v s)) = updates (trace p) /\
  outcome (while_body self v s) =
    match outcome p with
    | Ok _ => Ok Continue
    | Raise e => Raise e
    end.
Proof.
  intros H Hb l p. apply reaches_publish_iff in H.
  destruct H as (Hv & Ha & b' & Hb' & Hpass).
  rewrite Hb in Hb'. inversion Hb'. subst b'. clear Hb'.
  split; [assumption|].
  rewrite while_body_run, Hv, Hb, Ha.
  destruct (sweep_passes self b _ Hpass) as (t & -> & Hal & Hup & _).
  cbn zeta. fold l. fold p.
  pose proof (update_spreadsheet_quiet v.(refused) (rows l) self.(spread_sheet)
                self.(work_sheet) (extend (emptied s) l)) as Hq. fold p in Hq.
  clearbody p. destruct p as [[tp sp] [[]|e]];
    cbn [trace after outcome fst snd] in *;
    rewrite !alerts_app, !updates_app, Hal, Hup, Hq; cbn; rewrite ?app_nil_r; auto.
Qed.

End Snapshots.

(** C10: in an iteration that reaches the publish step, the lists
    [listing_prices], [trait_balances] and [listing_urls] from which the
    DataFrame is built have one length, that of the list of articles: they
    hold the price, the balance and the link of each article in page order,
    and every entry of [trait_balances] is the balance read at the start of
    the iteration. *)
Theorem snapshot_lists_are_parallel self v s :
  reaches_publish self v s ->
  exists trait_balance l,
    read_balance v = Ok trait_balance /\
    Forall2 (fun a stats => stats_of self trait_balance a = Ok stats) v.(articles) l /\
    let s' := after (while_body self v s) in
    s'.(listing_prices) = map Listing_Price l /\
    s'.(trait_balances) = repeat trait_balance (List.length v.(articles)) /\
    s'.(listing_urls) = map Link l /\
    List.length s'.(listing_prices) = List.length v.(articles) /\
    List.length s'.(trait_balances) = List.length v.(articles) /\
    List.length s'.(listing_urls) = List.length v.(articles) /\
    pd_DataFrame s'.(listing_prices) s'.(trait_balances) s'.(listing_urls) = Ok (rows l).
Proof.
  intros H. pose proof H as H0. apply reaches_publish_iff in H0.
  destruct H0 as (_ & _ & b & Hb & _).
  destruct (while_body_publishing self v s b H Hb) as (Hpass & Hafter & _).
  destruct (readable_passes self b _ Hpass) as [HF Hbal].
  exists b, (readable self b v.(articles)).
  split; [assumption|]. split; [assumption|].
  cbn zeta. rewrite Hafter.
  destruct (update_spreadsheet_keeps v.(refused) (rows (readable self b v.(articles)))
              self.(spread_sheet) self.(work_sheet)
              (extend (emptied s) (readable self b v.(articles)))) as (-> & -> & ->).
  cbn [extend emptied trait_balances listing_prices listing_urls app].
  pose proof (Forall2_length HF) as Hlen.
  rewrite !length_map, <- Hlen.
  repeat split; try reflexivity; [exact Hbal | apply pd_DataFrame_rows].
Qed.

Lemma snapshot_lists_are_parallel_witness :
  exists trait_balance l,
    read_balance (visit_of [cheap; dear] None) = Ok trait_balance /\
    Forall2 (fun a stats => stats_of bot trait_balance a = Ok stats) [cheap; dear] l /\
    let s' := after (while_body bot (visit_of [cheap; dear] None) start) in
    s'.(listing_prices) = map Listing_Price l /\
    s'.(trait_balances) = repeat trait_balance 2 /\
    s'.(listing_urls) = map Link l /\
    List.length s'.(listing_prices) = 2%nat /\
    List.length s'.(trait_balances) = 2%nat /\
    List.length s'.(listing_urls) = 2%nat /\
    pd_DataFrame s'.(listing_prices) s'.(trait_balances) s'.(listing_urls) = Ok (rows l).
Proof.
  apply (snapshot_lists_are_parallel bot (visit_of [cheap; dear] None) start).
  unfold reaches_publish. vm_compute. tauto.
Defined.

Lemma update_spreadsheet_memoryless refused df ss ws s s' :
  trace (update_spreadsheet refused df ss ws s)
  = trace (update_spreadsheet refused df ss ws s') /\
  outcome (update_spreadsheet refused df ss ws s)
  = outcome (update_spreadsheet refused df ss ws s').
Proof.
  publish_cases; split; reflexivity.
Qed.

(** The events and the end of an iteration do not depend on the state it
    starts from. *)
Lemma while_body_memoryless self v s s' :
  trace (while_body self v s) = trace (while_body self v s') /\
  outcome (while_body self v s) = outcome (while_body self v s').
Proof.
  rewrite !while_body_run.
  destruct (balance_visible v); [|split; reflexivity].
  destruct (read_balance v) as [b|e]; [|split; reflexivity].
  destruct (articles_visible v); [|split; reflexivity].
  destruct (sweep self b (articles v)) as [[t l] [[]|e]]; [|split; reflexivity].
  cbn zeta.
  destruct (update_spreadsheet_memoryless (refused v) (rows l) self.(spread_sheet)
              self.(work_sheet) (extend (emptied s) l) (extend (emptied s') l)) as [Ht Ho].
  rewrite Ho.
  destruct (outcome (update_spreadsheet _ _ _ _ (extend (emptied s') l)));
    cbn [trace outcome fst snd];
    change (fst (fst ?x)) with (trace x); rewrite Ht; split; reflexivity.
Qed.

(** C9: an iteration keeps no memory of the ones before it.  From any two
    states the same visit causes the same events and ends the same way; and
    two iterations that reach the publish step after reading the same
    balance and articles with the same price texts and links send the same
    alerts: those of all the articles whose ratio is at least the
    threshold, alerted before or not. *)
Theorem identical_snapshots_identical_alerts self v1 v2 s1 s2 trait_balance :
  read_balance v1 = Ok trait_balance ->
  read_balance v2 = Ok trait_balance ->
  map price_text v1.(articles) = map price_text v2.(articles) ->
  map link v1.(articles) = map link v2.(articles) ->
  reaches_publish self v1 s1 ->
  reaches_publish self v2 s2 ->
  trace (while_body self v1 s1) = trace (while_body self v1 s2) /\
  outcome (while_body self v1 s1) = outcome (while_body self v1 s2) /\
  alerts (trace (while_body self v1 s1)) = due self trait_balance v1.(articles) /\
  alerts (trace (while_body self v2 s2)) = due self trait_balance v1.(articles).
Proof.
  intros Hb1 Hb2 Hp Hl H1 H2.
  destruct (while_body_publishing self v1 s1 _ H1 Hb1) as (P1 & _ & A1 & _).
  destruct (while_body_publishing self v2 s2 _ H2 Hb2) as (P2 & _ & A2 & _).
  destruct (while_body_memoryless self v1 s1 s2) as [Mt Mo].
  repeat split; try assumption.
  rewrite A2. unfold due. f_equal. symmetry. apply readable_ext; assumption.
Qed.

(** Two iterations in a row on the same page: the second starts from the
    state the first leaves, with the earlier snapshot in the worksheet. *)
Lemma identical_snapshots_identical_alerts_witness :
  let v := visit_of [cheap; dear] None in
  let s := after (while_body bot v start) in
  trace (while_body bot v start) = trace (while_body bot v s) /\
  outcome (while_body bot v start) = outcome (while_body bot v s) /\
  alerts (trace (while_body bot v start)) = due bot 100000 [cheap; dear] /\
  alerts (trace (while_body bot v s)) = due bot 100000 [cheap; dear].
Proof.
  intros v s.
  apply (identical_snapshots_identical_alerts bot v v start s 100000);
    try reflexivity; unfold reaches_publish; vm_compute; tauto.
Defined.

(** The item above the threshold is alerted in each of two iterations in a
    row. *)
Example alerts_repeat :
  let v := visit_of [cheap; dear] None in
  map Link (alerts (trace (while_True bot [v; v] start)))
  = [Some "https://opensea.io/assets/1"%string; Some "https://opensea.io/assets/1"%string].
Proof. vm_compute. reflexivity. Qed.

(** ** Iterations that find no item *)

Lemma while_True_app self visits : forall rest s,
  outcome (while_True self visits s) = Ok Continue ->
  while_True self (visits ++ rest) s =
  let r := while_True self visits s in
  let r' := while_True self rest (after r) in
  ((trace r ++ trace r')%list, after r', outcome r').
Proof.
  induction visits as [|v visits IH]; intros rest s H.
  - cbn. destruct (while_True self rest s) as [[t s'] r]. reflexivity.
  - cbn [app]. destruct (outcome (while_body self v s)) as [[|]|e] eqn:E.
    + pose proof (while_True_Continue self v visits s E) as E1.
      pose proof (while_True_Continue self v (visits ++ rest) s E) as E2.
      cbn zeta in E1, E2. rewrite E1 in H. cbn [outcome snd] in H.
      rewrite E2, E1, (IH rest _ H). cbn [trace after outcome fst snd].
      rewrite app_assoc. reflexivity.
    + exfalso. revert H. cbn [while_True].
      rewrite (run_bind_Ok _ _ s (trace (while_body self v s))
                 (after (while_body self v s)) Return)
        by (rewrite <- E; apply run_eta).
      discriminate.
    + rewrite (while_True_Raise self v visits s e E) in H. congruence.
Qed.

Lemma get_nft_alerts_run self collection_url visits s :
  get_nft_alerts self collection_url true visits s =
  let r := while_True self visits s in
  (([Info (Monitoring_NFT_Collection collection_url);
     Get (collection_url ++ "?search[toggles][0]=ON_AUCTION"); Sleep 3;
     Info Waiting_for_collection; Sleep 3] ++ trace r)%list,
   after r, outcome r).
Proof.
  unfold get_nft_alerts, io, try_except.
  cbn [bind M_Monad W_Monad LOGGER_info sleep emit lift W_Effects M_Effects
         wait_until_visible ret fst snd app].
  destruct (while_True self visits s) as [[t s'] r]. reflexivity.
Qed.

(** C8, as the code has it: when the wait for listing items times out, the
    iteration logs that no item was found, sleeps 3 seconds and goes on to
    the next iteration without an update of the worksheet or an alert; any
    number of such iterations in a row leaves the loop, and with it
    [get_nft_alerts], running, and the visits that follow are handled as
    they would be from the state left.  The next iteration starts at the
    wait for the trait balance, not at the wait for items: when the balance
    does not show in time, the loop ends there and [get_nft_alerts]
    returns. *)
Theorem empty_market_is_retried self collection_url visits s :
  Forall finds_no_item visits ->
  let r := while_True self visits s in
  outcome r = Ok Continue /\
  trace r = flat_map (fun _ => empty_market) visits /\
  worksheet (after r) = worksheet s /\
  outcome (get_nft_alerts self collection_url true visits s) = Ok Continue /\
  (forall rest,
     while_True self (visits ++ rest) s =
     let r' := while_True self rest (after r) in
     ((trace r ++ trace r')%list, after r', outcome r')) /\
  (forall v rest,
     v.(balance_visible) = false ->
     while_True self (visits ++ v :: rest) s
     = ((trace r ++ [Info Getting_trait_balance])%list, after r, Ok Return) /\
     outcome (get_nft_alerts self collection_url true (visits ++ v :: rest) s) = Ok Return).
Proof.
  intros H.
  assert (G : outcome (while_True self visits s) = Ok Continue /\
              trace (while_True self visits s) = flat_map (fun _ => empty_market) visits /\
              worksheet (after (while_True self visits s)) = worksheet s).
  { revert s. induction H as [|v visits (Hv & (b & Hb) & Ha) _ IH]; intros s.
    - repeat split.
    - assert (E : while_body self v s = (empty_market, emptied s, Ok Continue)).
      { rewrite while_body_run, Hv, Hb, Ha. reflexivity. }
      pose proof (while_True_Continue self v visits s) as C.
      rewrite E in C. specialize (C eq_refl). cbn zeta in C. rewrite C.
      destruct (IH (emptied s)) as (Ho & Ht & Hw).
      repeat split; [exact Ho | | exact Hw].
      cbn [flat_map]. unfold trace at 1. cbn [fst]. f_equal. exact Ht. }
  destruct G as (Ho & Ht & Hw). cbn zeta.
  assert (A : forall rest,
            while_True self (visits ++ rest) s =
            ((trace (while_True self visits s)
              ++ trace (while_True self rest (after (while_True self visits s))))%list,
             after (while_True self rest (after (while_True self visits s))),
             outcome (while_True self rest (after (while_True self visits s)))))
    by (intros rest; apply while_True_app; assumption).
  assert (B : forall v rest s',
            v.(balance_visible) = false ->
            while_True self (v :: rest) s' = ([Info Getting_trait_balance], s', Ok Return)).
  { intros v rest s' Hv.
    assert (E : while_body self v s' = ([Info Getting_trait_balance], s', Ok Return))
      by (rewrite while_body_run, Hv; reflexivity).
    cbn [while_True].
    rewrite (run_bind_Ok _ _ s' [Info Getting_trait_balance] s' Return E). reflexivity. }
  split; [exact Ho|]. split; [exact Ht|]. split; [exact Hw|].
  split; [rewrite get_nft_alerts_run; exact Ho|]. split; [exact A|].
  intros v rest Hv. split.
  - rewrite A, (B v rest _ Hv). reflexivity.
  - rewrite get_nft_alerts_run. cbn zeta. cbn [outcome snd].
    rewrite A, (B v rest _ Hv). reflexivity.
Qed.

Lemma empty_market_is_retried_witness :
  let visits := [empty_visit; empty_visit; empty_visit] in
  let r := while_True bot visits start in
  outcome r = Ok Continue /\
  trace r = (empty_market ++ empty_market ++ empty_market)%list /\
  worksheet (after r) = blank /\
  outcome (get_nft_alerts bot "https://opensea.io/collection/yn" true visits start)
  = Ok Continue /\
  (forall rest,
     while_True bot (visits ++ rest) start =
     let r' := while_True bot rest (after r) in
     ((trace r ++ trace r')%list, after r', outcome r')) /\
  (forall v rest,
     v.(balance_visible) = false ->
     while_True bot (visits ++ v :: rest) start
     = ((trace r ++ [Info Getting_trait_balance])%list, after r, Ok Return) /\
     outcome (get_nft_alerts bot "https://opensea.io/collection/yn" true
                (visits ++ v :: rest) start) = Ok Return).
Proof.
  apply (empty_market_is_retried bot "https://opensea.io/collection/yn"
           [empty_visit; empty_visit; empty_visit] start).
  repeat constructor; exists 100000; vm_compute; reflexivity.
Defined.

(** C8 as the spec has it fails: after an iteration that found the market
    empty the loop does not go back to the wait for items.  It waits for
    the trait balance first, and when that does not show in time the loop
    ends and [get_nft_alerts] returns, although a later visit would have
    shown an article that calls for an alert. *)
Lemma empty_market_can_end_the_loop :
  let visits := [empty_visit; no_balance; visit_of [cheap] None] in
  let r := get_nft_alerts bot "https://opensea.io/collection/yn" true visits start in
  finds_no_item empty_visit /\
  outcome r = Ok Return /\
  outcome r <> Ok Continue /\
  trace (while_True bot visits start) = (empty_market ++ [Info Getting_trait_balance])%list /\
  List.length (due bot 100000 [cheap]) = 1%nat /\
  alerts (trace r) = [].
Proof.
  cbn zeta. split.
  - repeat split; [exists 100000; vm_compute; reflexivity].
  - repeat split; try (vm_compute; reflexivity). vm_compute. discriminate.
Qed.

(** ** Iterations that an exception ends *)

Section Failures.

Variable self : OpenSeaAlertBot.

(** The for loop stops at the first item its body does not run through;
    nothing is caught on the way out of the iteration. *)
Lemma while_body_stops v s b pre item post :
  v.(balance_visible) = true ->
  read_balance v = Ok b ->
  v.(articles_visible) = true ->
  v.(articles) = (pre ++ item :: post)%list ->
  forallb (passes self b) pre = true ->
  passes self b item = false ->
  exists t e,
    evaluate self b item = (t, Raise e) /\
    while_body self v s =
      ((opening ++ fst (fst (sweep self b pre)) ++ t)%list,
       extend (emptied s) (readable self b pre), Raise e) /\
    alerts (fst (fst (sweep self b pre))) = due self b pre /\
    updates (fst (fst (sweep self b pre))) = [].
Proof.
  intros Hv Hb Ha Hart Hpre Hitem.
  destruct (sweep_fails self b pre item post Hpre Hitem) as (t & e & He & Hs).
  destruct (sweep_passes self b pre Hpre) as (tp & Hp & Hal & Hup & _).
  exists t, e. split; [assumption|].
  rewrite while_body_run, Hv, Hb, Ha, Hart, Hs, Hp. cbn [fst].
  repeat split; assumption.
Qed.

End Failures.

(** C1, as the code has it: the exception of an item whose price or link
    cannot be read is not caught.  The items before it have been evaluated
    and alerted; with it the iteration and the loop end: the items after
    it are not evaluated, no update is sent to the worksheet, and no later
    iteration runs. *)
Theorem unreadable_item_ends_the_loop self v s trait_balance pre item post e rest :
  v.(balance_visible) = true ->
  read_balance v = Ok trait_balance ->
  v.(articles_visible) = true ->
  v.(articles) = (pre ++ item :: post)%list ->
  forallb (passes self trait_balance) pre = true ->
  stats_of self trait_balance item = Raise e ->
  let r := while_body self v s in
  outcome r = Raise e /\
  trace r = (opening ++ fst (fst (sweep self trait_balance pre)))%list /\
  alerts (trace r) = due self trait_balance pre /\
  updates (trace r) = [] /\
  worksheet (after r) = worksheet s /\
  while_True self (v :: rest) s = r.
Proof.
  intros Hv Hb Ha Hart Hpre Hitem r.
  assert (He : evaluate self trait_balance item = ([], Raise e))
    by (rewrite evaluate_eq, Hitem; reflexivity).
  assert (Hp : passes self trait_balance item = false)
    by (unfold passes; rewrite He; reflexivity).
  destruct (while_body_stops self v s trait_balance pre item post Hv Hb Ha Hart Hpre Hp)
    as (t' & e' & He' & Hr & Hal & Hup).
  rewrite He in He'. inversion He'. subst t' e'. clear He'.
  rewrite app_nil_r in Hr.
  assert (Ho : outcome r = Raise e) by (subst r; rewrite Hr; reflexivity).
  repeat split; try assumption.
  - subst r. rewrite Hr. reflexivity.
  - subst r. rewrite Hr. unfold trace. cbn [fst]. rewrite alerts_app, Hal. reflexivity.
  - subst r. rewrite Hr. unfold trace. cbn [fst]. rewrite updates_app, Hup. reflexivity.
  - subst r. rewrite Hr. reflexivity.
  - apply (while_True_Raise self v rest s e Ho).
Qed.

Lemma unreadable_item_ends_the_loop_witness :
  let v := visit_of [cheap; malformed; dear] None in
  let r := while_body bot v start in
  outcome r = Raise ValueError /\
  trace r = (opening ++ fst (fst (sweep bot 100000 [cheap])))%list /\
  alerts (trace r) = due bot 100000 [cheap] /\
  updates (trace r) = [] /\
  worksheet (after r) = blank /\
  while_True bot [v; visit_of [cheap] None] start = r.
Proof.
  apply (unreadable_item_ends_the_loop bot (visit_of [cheap; malformed; dear] None) start
           100000 [cheap] malformed [dear] ValueError [visit_of [cheap] None]);
    vm_compute; reflexivity.
Defined.

(** C1 as the spec has it fails: of three items, the second with the price
    text "< 0.01", the other two can be read, yet the iteration ends with
    ValueError and publishes nothing. *)
Lemma malformed_item_is_not_skipped :
  let v := visit_of [cheap; malformed; dear] None in
  List.length (readable bot 100000 v.(articles)) = 2%nat /\
  outcome (while_body bot v start) = Raise ValueError /\
  ~ publishes bot v start (readable bot 100000 v.(articles)).
Proof.
  repeat split; try (vm_compute; reflexivity).
  intros [H _]. vm_compute in H. discriminate.
Qed.

(** C2, as the code has it.  An alert is one request, never repeated.  When
    Telegram answers it with a JSON body, whatever the status code, the for
    body runs through as after a delivery: "Telegram message has been sent"
    is logged, the loop goes on and, the items after it passing, the
    iteration reaches the publish step.  When the request raises, the
    exception is not caught: the iteration and the loop end, no update is
    sent to the worksheet and no later iteration runs. *)
Theorem dispatch_failure_is_ignored_or_fatal self v s trait_balance pre item post stats rest :
  v.(balance_visible) = true ->
  read_balance v = Ok trait_balance ->
  v.(articles_visible) = true ->
  v.(articles) = (pre ++ item :: post)%list ->
  forallb (passes self trait_balance) pre = true ->
  stats_of self trait_balance item = Ok stats ->
  matched self stats = true ->
  (forall status_code, item.(telegram) = Response status_code true ->
     evaluate self trait_balance item =
       ((item_events self stats ++ send_events self stats
         ++ [Info Telegram_message_has_been_sent])%list, Ok stats) /\
     passes self trait_balance item = true /\
     (forallb (passes self trait_balance) post = true ->
      reaches_publish self v s /\
      alerts (trace (while_body self v s)) = due self trait_balance v.(articles))) /\
  (item.(telegram) = Unreachable ->
     let r := while_body self v s in
     outcome r = Raise ConnectionError /\
     trace r = (opening ++ fst (fst (sweep self trait_balance pre))
                ++ item_events self stats ++ send_events self stats)%list /\
     alerts (trace r) = (due self trait_balance pre ++ [stats])%list /\
     updates (trace r) = [] /\
     while_True self (v :: rest) s = r).
Proof.
  intros Hv Hb Ha Hart Hpre Hs Hm. split.
  - intros code Ht.
    assert (E : evaluate self trait_balance item =
                ((item_events self stats ++ send_events self stats
                  ++ [Info Telegram_message_has_been_sent])%list, Ok stats))
      by (rewrite evaluate_eq, Hs, Hm, Ht; reflexivity).
    assert (Hp : passes self trait_balance item = true)
      by (unfold passes; rewrite E; reflexivity).
    split; [exact E|]. split; [exact Hp|].
    intros Hpost.
    assert (Hr : reaches_publish self v s).
    { apply reaches_publish_iff. repeat split; try assumption.
      exists trait_balance. split; [assumption|].
      rewrite Hart, forallb_app. cbn [forallb]. rewrite Hpre, Hp, Hpost. reflexivity. }
    split; [exact Hr|].
    apply (while_body_publishing self v s trait_balance Hr Hb).
  - intros Ht r.
    assert (E : evaluate self trait_balance item =
                ((item_events self stats ++ send_events self stats)%list,
                 Raise ConnectionError))
      by (rewrite evaluate_eq, Hs, Hm, Ht; reflexivity).
    assert (Hp : passes self trait_balance item = false)
      by (unfold passes; rewrite E; reflexivity).
    destruct (while_body_stops self v s trait_balance pre item post Hv Hb Ha Hart Hpre Hp)
      as (t' & e' & He' & Hr & Hal & Hup).
    rewrite E in He'. inversion He'. subst t' e'. clear He'.
    assert (Ho : outcome r = Raise ConnectionError) by (subst r; rewrite Hr; reflexivity).
    repeat split.
    + exact Ho.
    + subst r. rewrite Hr. reflexivity.
    + subst r. rewrite Hr. unfold trace. cbn [fst].
      rewrite !alerts_app, Hal. reflexivity.
    + subst r. rewrite Hr. unfold trace. cbn [fst].
      rewrite !updates_app, Hup. reflexivity.
    + apply (while_True_Raise self v rest s _ Ho).
Qed.

Lemma dispatch_failure_is_ignored_or_fatal_witness :
  let v := visit_of [throttled; unheard; dear] None in
  let r := while_body bot v start in
  passes bot 100000 throttled = true /\
  outcome r = Raise ConnectionError /\
  List.length (alerts (trace r)) = 2%nat /\
  updates (trace r) = [] /\
  while_True bot [v; visit_of [cheap] None] start = r.
Proof.
  intros v r.
  destruct (dispatch_failure_is_ignored_or_fatal bot v start 100000 [throttled] unheard [dear]
              {| Listing_Price := 4000;
                 Account_Value := 100000;
                 Ratio := 25;
                 Link := Some "https://opensea.io/assets/5"%string |}
              [visit_of [cheap] None])
    as [_ H]; try (vm_compute; reflexivity).
  destruct (H eq_refl) as (Ho & _ & Hal & Hup & Hw).
  repeat split; try assumption; try (vm_compute; reflexivity).
Defined.

(** A response 429 with a JSON body: the iteration goes on and publishes
    both items. *)
Example throttled_alert_is_ignored :
  let v := visit_of [throttled; dear] None in
  let r := while_body bot v start in
  outcome r = Ok Continue /\
  List.length (alerts (trace r)) = 1%nat /\
  List.length (updates (trace r)) = 3%nat /\
  List.length (listing_prices (after r)) = 2%nat.
Proof. repeat split; vm_compute; reflexivity. Qed.

(** C2 as the spec has it fails: every item of the page can be read, the
    request of the first alert raises, and the iteration ends with
    ConnectionError and publishes nothing. *)
Lemma unreachable_channel_is_not_swallowed :
  let v := visit_of [unheard; dear] None in
  List.length (readable bot 100000 v.(articles)) = 2%nat /\
  outcome (while_body bot v start) = Raise ConnectionError /\
  ~ publishes bot v start (readable bot 100000 v.(articles)).
Proof.
  repeat split; try (vm_compute; reflexivity).
  intros [H _]. vm_compute in H. discriminate.
Qed.

(** C6, as the code has it: no statement tests the price before line 350.  A
    listing price equal to zero reaches the division, which raises
    ZeroDivisionError; the exception is not caught, so the iteration and the
    loop end there: the items after it are not evaluated, no update is sent
    to the worksheet, and no later iteration runs. *)
Theorem zero_price_reaches_the_division
    self v s trait_balance pre item post text x url b rest :
  v.(balance_visible) = true ->
  read_balance v = Ok trait_balance ->
  v.(articles_visible) = true ->
  v.(articles) = (pre ++ item :: post)%list ->
  forallb (passes self trait_balance) pre = true ->
  item.(price_visible) = true ->
  item.(price_text) = Some text ->
  Py.float_from_string (Py.remove "," text) = Ok x ->
  item.(link) = Some url ->
  PrimFloat.eqb (x * self.(busd_price)) zero = true ->
  Py.long_as_double trait_balance = Ok b ->
  ratio_of trait_balance (x * self.(busd_price)) = Raise ZeroDivisionError /\
  let r := while_body self v s in
  outcome r = Raise ZeroDivisionError /\
  alerts (trace r) = due self trait_balance pre /\
  updates (trace r) = [] /\
  while_True self (v :: rest) s = r.
Proof.
  intros Hv Hb Ha Hart Hpre Hpv Hpt Hx Hl Hz Hd.
  assert (Hr : ratio_of trait_balance (x * self.(busd_price)) = Raise ZeroDivisionError).
  { unfold ratio_of, Py.float_div. rewrite Hd, Hz. reflexivity. }
  split; [exact Hr|].
  assert (Hs : stats_of self trait_balance item = Raise ZeroDivisionError).
  { unfold stats_of. rewrite Hpv, Hpt, Hl.
    cbn [wait_until_visible find_element bind res_Monad]. rewrite Hx, Hr. reflexivity. }
  assert (He : evaluate self trait_balance item = ([], Raise ZeroDivisionError))
    by (rewrite evaluate_eq, Hs; reflexivity).
  assert (Hp : passes self trait_balance item = false)
    by (unfold passes; rewrite He; reflexivity).
  destruct (while_body_stops self v s trait_balance pre item post Hv Hb Ha Hart Hpre Hp)
    as (t' & e' & He' & Hw & Hal & Hup).
  rewrite He in He'. inversion He'. subst t' e'. clear He'.
  rewrite app_nil_r in Hw. cbn zeta.
  assert (Ho : outcome (while_body self v s) = Raise ZeroDivisionError)
    by (rewrite Hw; reflexivity).
  repeat split.
  - exact Ho.
  - rewrite Hw. unfold trace. cbn [fst]. rewrite alerts_app, Hal. reflexivity.
  - rewrite Hw. unfold trace. cbn [fst]. rewrite updates_app, Hup. reflexivity.
  - apply (while_True_Raise self v rest s _ Ho).
Qed.

Lemma zero_price_reaches_the_division_witness :
  let v := visit_of [cheap; free; dear] None in
  ratio_of 100000 (0 * 1) = Raise ZeroDivisionError /\
  let r := while_body bot v start in
  outcome r = Raise ZeroDivisionError /\
  alerts (trace r) = due bot 100000 [cheap] /\
  updates (trace r) = [] /\
  while_True bot [v; visit_of [cheap] None] start = r.
Proof.
  apply (zero_price_reaches_the_division bot (visit_of [cheap; free; dear] None) start
           100000 [cheap] free [dear] "0" 0%float
           (Some "https://opensea.io/assets/4"%string) 100000%float [visit_of [cheap] None]);
    vm_compute; reflexivity.
Defined.

(** C6 as the spec has it fails: an item priced "0" is not left out of the
    iteration; its division raises ZeroDivisionError and nothing is
    published. *)
Lemma zero_price_is_not_dropped :
  let v := visit_of [cheap; free; dear] None in
  List.length (readable bot 100000 v.(articles)) = 2%nat /\
  outcome (while_body bot v start) = Raise ZeroDivisionError /\
  ~ publishes bot v start (readable bot 100000 v.(articles)).
Proof.
  repeat split; try (vm_compute; reflexivity).
  intros [H _]. vm_compute in H. discriminate.
Qed.

(** ** The publish step *)

Lemma update_spreadsheet_refused call df ss ws s :
  df <> [] ->
  sendable df = true ->
  In call calls ->
  let r := update_spreadsheet (Some call) df ss ws s in
  outcome r = Raise (APIError call) /\
  trace r = Info (Updating_Spreadsheet ss) :: map Update (accepted call df).
Proof.
  intros Hne Hs H r. subst r. rewrite (update_spreadsheet_sendable _ _ _ _ _ Hne Hs).
  unfold gspread. cbn in H.
  repeat (destruct H as [<-|H]; [cbn; split; reflexivity|]).
  destruct H.
Qed.

(** C3, as the code has it: the exception of a failed publish is not
    caught.  When a gspread call of [update_spreadsheet] is refused the
    method raises, nothing is logged after its events, the call is not
    repeated, the iteration and the loop end with that exception, and no
    later iteration runs.  For a snapshot with a row whose values can all
    be sent the exception is that of the refused call, after "Updating
    Spreadsheet" and the updates the worksheet accepted before the
    refusal. *)
Theorem publish_failure_ends_the_loop self v s trait_balance call rest :
  reaches_publish self v s ->
  read_balance v = Ok trait_balance ->
  v.(refused) = Some call ->
  In call calls ->
  let r := while_body self v s in
  let l := readable self trait_balance v.(articles) in
  let p := update_spreadsheet (Some call) (rows l) self.(spread_sheet) self.(work_sheet)
             (extend (emptied s) l) in
  (exists e, outcome p = Raise e /\ outcome r = Raise e) /\
  trace r = (opening ++ fst (fst (sweep self trait_balance v.(articles))) ++ trace p)%list /\
  while_True self (v :: rest) s = r /\
  (l <> [] -> sendable (rows l) = true ->
   outcome r = Raise (APIError call) /\
   trace r = (opening ++ fst (fst (sweep self trait_balance v.(articles)))
              ++ Info (Updating_Spreadsheet self.(spread_sheet))
                 :: map Update (accepted call (rows l)))%list).
Proof.
  intros H Hb Hr Hc r l p.
  apply reaches_publish_iff in H. destruct H as (Hv & Ha & b' & Hb' & Hpass).
  rewrite Hb in Hb'. inversion Hb'. subst b'. clear Hb'.
  destruct (sweep_passes self trait_balance _ Hpass) as (t & Hs & _).
  destruct (update_spreadsheet_fails call (rows l) self.(spread_sheet) self.(work_sheet)
              (extend (emptied s) l) Hc) as [e He].
  fold p in He.
  assert (E : r = ((opening ++ t ++ trace p)%list, after p, Raise e)).
  { subst r. rewrite while_body_run, Hv, Hb, Ha, Hs, Hr. cbn zeta. fold l. fold p.
    rewrite He. reflexivity. }
  assert (Hout : outcome r = Raise e) by (rewrite E; reflexivity).
  split; [exists e; split; assumption|].
  split; [rewrite E, Hs; reflexivity|].
  split; [apply (while_True_Raise self v rest s _ Hout)|].
  intros Hne Hsend.
  assert (Hrows : rows l <> []) by (destruct l; [contradiction|discriminate]).
  destruct (update_spreadsheet_refused call (rows l) self.(spread_sheet) self.(work_sheet)
              (extend (emptied s) l) Hrows Hsend Hc) as [Ho Ht].
  fold p in Ho, Ht. rewrite He in Ho. inversion Ho. subst e.
  split; [exact Hout|]. rewrite E, Hs, Ht. reflexivity.
Qed.

Lemma publish_failure_ends_the_loop_witness :
  let v := visit_of [cheap; dear] (Some (UpdateCells 2)) in
  let r := while_body bot v start in
  let l := readable bot 100000 [cheap; dear] in
  outcome r = Raise (APIError (UpdateCells 2)) /\
  trace r = (opening ++ fst (fst (sweep bot 100000 [cheap; dear]))
             ++ [Info (Updating_Spreadsheet "YN Ratio Sheet"); Update (column_1 (rows l))])%list /\
  while_True bot [v; visit_of [cheap] None] start = r.
Proof.
  intros v r l.
  destruct (publish_failure_ends_the_loop bot (visit_of [cheap; dear] (Some (UpdateCells 2)))
              start 100000 (UpdateCells 2) [visit_of [cheap] None])
    as (_ & _ & Hw & H).
  - unfold reaches_publish. vm_compute. tauto.
  - vm_compute. reflexivity.
  - reflexivity.
  - cbn. tauto.
  - destruct H as [Ho Ht]; [vm_compute; discriminate|vm_compute; reflexivity|].
    split; [exact Ho|]. split; [exact Ht|exact Hw].
Defined.

(** C3 as the spec has it fails: the spreadsheet cannot be opened in a first
    iteration, and the loop does not go on to the second, whose item calls
    for an alert: [get_nft_alerts] is left by the exception. *)
Lemma publish_failure_is_not_contained :
  let v := visit_of [dear] (Some OpenSpreadsheet) in
  let next := visit_of [cheap] None in
  let r := while_True bot [v; next] start in
  outcome (while_body bot v start) <> Ok Continue /\
  outcome r = Raise (APIError OpenSpreadsheet) /\
  r = while_body bot v start /\
  List.length (due bot 100000 next.(articles)) = 1%nat /\
  alerts (trace r) = [].
Proof.
  repeat split; try (vm_compute; reflexivity).
  vm_compute. discriminate.
Qed.

(** *** What the three updates write *)

Lemma write_at (w : sheet) (c : Cell) r k :
  write w c r k =
  if (Nat.eqb r (row c) && Nat.eqb k (col c))%bool then stored (value c) (w r k) else w r k.
Proof.
  unfold write, stored. destruct (value c), (Nat.eqb r (row c) && Nat.eqb k (col c))%bool;
    reflexivity.
Qed.

Lemma write_all_column k values : forall first (w : sheet) r c,
  write_all w (column k first values) r c =
  if (Nat.eqb c k && Nat.leb first r && Nat.ltb r (first + List.length values))%bool
  then stored (nth (r - first) values PyNone) (w r c)
  else w r c.
Proof.
  induction values as [|v values IH]; intros first w r c.
  - cbn [column write_all fold_left List.length].
    destruct (Nat.eqb c k), (Nat.leb_spec first r), (Nat.ltb_spec r (first + 0));
      cbn; try reflexivity; lia.
  - cbn [column write_all fold_left List.length].
    change (fold_left write (column k (S first) values) ?w0)
      with (write_all w0 (column k (S first) values)).
    rewrite IH, write_at. cbn [row col value].
    destruct (Nat.eqb_spec c k) as [->|Hc].
    + destruct (Nat.leb_spec (S first) r), (Nat.ltb_spec r (S first + List.length values)),
        (Nat.leb_spec first r), (Nat.ltb_spec r (first + S (List.length values))),
        (Nat.eqb_spec r first); cbn [andb]; try lia; try reflexivity.
      * replace (r - first)%nat with (S (r - S first)) by lia. reflexivity.
      * subst r. rewrite Nat.sub_diag. reflexivity.
    + cbn. rewrite andb_false_r. reflexivity.
Qed.

Lemma nth_map_nth_error {A} (f : A -> object) (l : list A) i a :
  nth_error l i = Some a -> nth i (map f l) PyNone = f a.
Proof.
  revert i. induction l as [|x l IH]; intros [|i] H; try discriminate; cbn in *.
  - inversion H. reflexivity.
  - apply IH. assumption.
Qed.

(** The three columns of a DataFrame whose values can all be sent, cell
    by cell. *)
Lemma write_columns (w : sheet) df r c :
  sendable df = true ->
  let inside k := (Nat.eqb c k && Nat.leb 2 r && Nat.ltb r (2 + List.length df))%bool in
  write_all w (column_1 df) r c
  = (if inside 1%nat then nth (r - 2) (map (fun x => PyFloat (fst (fst x))) df) PyNone
     else w r c) /\
  write_all w (column_2 df) r c
  = (if inside 2%nat then nth (r - 2) (map (fun x => PyInt (snd (fst x))) df) PyNone
     else w r c) /\
  write_all w (column_3 df) r c
  = (if inside 3%nat then nth (r - 2) (map (fun x => of_href (snd x)) df) PyNone
     else w r c).
Proof.
  intros H inside. subst inside. unfold column_1, column_2, column_3.
  rewrite (Link_tolist_present df H), !write_all_column, !length_map.
  destruct (Nat.leb_spec 2 r) as [L|L]; [|rewrite !andb_false_r; repeat split].
  destruct (Nat.ltb_spec r (2 + List.length df)) as [U|U]; [|rewrite !andb_false_r; repeat split].
  destruct (nth_error df (r - 2)) as [[[p b] u]|] eqn:E.
  2:{ apply nth_error_None in E. lia. }
  rewrite (nth_map_nth_error (fun x => PyFloat (fst (fst x))) df _ _ E),
    (nth_map_nth_error (fun x => PyInt (snd (fst x))) df _ _ E),
    (nth_map_nth_error (fun x => of_href (snd x)) df _ _ E).
  assert (Hu : exists link, u = Some link).
  { clear - H E. revert E. generalize (r - 2)%nat. intros i. revert i.
    induction df as [|x df IH]; intros [|i] E; try discriminate.
    - cbn in E. inversion E. subst x. cbn in H. apply andb_prop in H. destruct H as [H _].
      apply andb_prop in H. destruct H as [_ H]. destruct u; [eauto|discriminate].
    - cbn [sendable forallb] in H. apply andb_prop in H. destruct H as [_ H].
      exact (IH H i E). }
  destruct Hu as [link ->]. cbn [fst snd of_href stored].
  repeat split; destruct (Nat.eqb c _); reflexivity.
Qed.

(** C7, as the code has it: a snapshot of N >= 1 rows whose values can all
    be sent (finite prices, a link in every row) is written to rows 2 to
    N + 1 of the columns 1, 2 and 3 by three updates, one per column: the
    prices, then the balances, then the links.  After the third the
    worksheet holds the snapshot and is as before in every other cell;
    after the first a viewer finds the new prices beside the balances and
    links of before. *)
Theorem publish_is_three_updates df ss ws s :
  df <> [] ->
  sendable df = true ->
  let r := update_spreadsheet None df ss ws s in
  outcome r = Ok tt /\
  updates (trace r) = [column_1 df; column_2 df; column_3 df] /\
  holds (worksheet (after r)) df /\
  (forall row col,
     (row < 2 \/ List.length df + 1 < row \/ col < 1 \/ 3 < col)%nat ->
     worksheet (after r) row col = worksheet s row col) /\
  exists first second,
    views (worksheet s) (trace r) = [first; second; worksheet (after r)] /\
    (forall i price balance url,
       nth_error df i = Some (price, balance, url) -> first (2 + i)%nat 1%nat = PyFloat price) /\
    (forall row, first row 2%nat = worksheet s row 2%nat /\
                 first row 3%nat = worksheet s row 3%nat).
Proof.
  intros Hne Hs r. subst r. rewrite (update_spreadsheet_sendable _ _ _ _ _ Hne Hs).
  unfold gspread.
  cbn [trace after outcome fst snd app updates views set_worksheet worksheet].
  split; [reflexivity|]. split; [reflexivity|].
  split; [|split].
  - intros i price balance url H.
    assert (Hi : (i < List.length df)%nat) by (apply nth_error_Some; congruence).
    destruct (write_columns (write_all (write_all (worksheet s) (column_1 df)) (column_2 df))
                df (2 + i) 1 Hs) as (_ & _ & ->).
    destruct (write_columns (write_all (write_all (worksheet s) (column_1 df)) (column_2 df))
                df (2 + i) 2 Hs) as (_ & _ & ->).
    destruct (write_columns (write_all (write_all (worksheet s) (column_1 df)) (column_2 df))
                df (2 + i) 3 Hs) as (_ & _ & ->).
    destruct (write_columns (write_all (worksheet s) (column_1 df)) df (2 + i) 1 Hs)
      as (_ & -> & _).
    destruct (write_columns (write_all (worksheet s) (column_1 df)) df (2 + i) 2 Hs)
      as (_ & -> & _).
    destruct (write_columns (worksheet s) df (2 + i) 1 Hs) as (-> & _ & _).
    cbn [Nat.eqb andb].
    destruct (Nat.leb_spec 2 (2 + i)), (Nat.ltb_spec (2 + i) (2 + List.length df));
      try lia.
    replace (2 + i - 2)%nat with i by lia. cbn [andb].
    rewrite (nth_map_nth_error (fun r => PyFloat (fst (fst r))) df i _ H),
      (nth_map_nth_error (fun r => PyInt (snd (fst r))) df i _ H),
      (nth_map_nth_error (fun r => of_href (snd r)) df i _ H).
    repeat split.
  - intros row col H.
    destruct (write_columns (write_all (write_all (worksheet s) (column_1 df)) (column_2 df))
                df row col Hs) as (_ & _ & ->).
    destruct (write_columns (write_all (worksheet s) (column_1 df)) df row col Hs)
      as (_ & -> & _).
    destruct (write_columns (worksheet s) df row col Hs) as (-> & _ & _).
    destruct (Nat.eqb_spec col 3), (Nat.eqb_spec col 2), (Nat.eqb_spec col 1),
      (Nat.leb_spec 2 row), (Nat.ltb_spec row (2 + List.length df));
      cbn [andb]; try reflexivity; lia.
  - eexists. eexists. split; [reflexivity|]. split.
    + intros i price balance url H.
      assert (Hi : (i < List.length df)%nat) by (apply nth_error_Some; congruence).
      destruct (write_columns (worksheet s) df (2 + i) 1 Hs) as (-> & _ & _).
      cbn [Nat.eqb andb].
      destruct (Nat.leb_spec 2 (2 + i)), (Nat.ltb_spec (2 + i) (2 + List.length df));
        try lia.
      replace (2 + i - 2)%nat with i by lia.
      apply (nth_map_nth_error (fun r => PyFloat (fst (fst r))) df i _ H).
    + intros row.
      destruct (write_columns (worksheet s) df row 2 Hs) as (-> & _ & _).
      destruct (write_columns (worksheet s) df row 3 Hs) as (-> & _ & _).
      split; reflexivity.
Qed.

Lemma publish_is_three_updates_witness :
  let df := rows (readable bot 100000 [cheap; dear]) in
  let r := update_spreadsheet None df "YN Ratio Sheet" "Sheet1"
             {| worksheet := earlier; trait_balances := []; listing_prices := [];
                listing_urls := [] |} in
  outcome r = Ok tt /\
  updates (trace r) = [column_1 df; column_2 df; column_3 df] /\
  holds (worksheet (after r)) df /\
  (forall row col,
     (row < 2 \/ List.length df + 1 < row \/ col < 1 \/ 3 < col)%nat ->
     worksheet (after r) row col = earlier row col) /\
  exists first second,
    views earlier (trace r) = [first; second; worksheet (after r)] /\
    (forall i price balance url,
       nth_error df i = Some (price, balance, url) -> first (2 + i)%nat 1%nat = PyFloat price) /\
    (forall row, first row 2%nat = earlier row 2%nat /\ first row 3%nat = earlier row 3%nat).
Proof.
  intros df r.
  apply (publish_is_three_updates df "YN Ratio Sheet" "Sheet1"
           {| worksheet := earlier; trait_balances := []; listing_prices := [];
              listing_urls := [] |}).
  - vm_compute. discriminate.
  - vm_compute. reflexivity.
Defined.

(** C7 as the spec has it fails: over a worksheet that holds an earlier
    snapshot, the first of the three updates leaves the new price in row 2
    beside the balance of the earlier snapshot. *)
Lemma columns_are_not_one_batch :
  let df := rows (readable bot 100000 [cheap]) in
  let s := {| worksheet := earlier; trait_balances := []; listing_prices := [];
              listing_urls := [] |} in
  let t := trace (update_spreadsheet None df "YN Ratio Sheet" "Sheet1" s) in
  (exists first rest,
     views earlier t = first :: rest /\
     first 2%nat 1%nat = PyFloat 4000 /\ first 2%nat 2%nat = PyInt 90000) /\
  ~ one_batch earlier df t.
Proof.
  intros df s t. split.
  - eexists. eexists. split; [vm_compute; reflexivity|]. split; vm_compute; reflexivity.
  - intros H. unfold one_batch in H.
    assert (E : exists first rest, views earlier t = first :: rest /\
                  first 2%nat 1%nat = PyFloat 4000 /\ first 2%nat 2%nat = PyInt 90000).
    { eexists. eexists. split; [vm_compute; reflexivity|]. split; vm_compute; reflexivity. }
    destruct E as (first & rest & E & H1 & H2). rewrite E in H.
    inversion H as [|x l [Hold|Hnew] _]; subst.
    + specialize (Hold 2%nat 1%nat). rewrite H1 in Hold. vm_compute in Hold.
      apply (f_equal (fun o => match o with
                               | PyFloat x => PrimFloat.eqb x 4000
                               | _ => false
                               end)) in Hold.
      vm_compute in Hold. discriminate.
    + destruct (Hnew 0%nat 4000%float 100000 (Some "https://opensea.io/assets/1"%string))
        as (_ & Hb & _); [vm_compute; reflexivity|].
      cbn in Hb. rewrite H2 in Hb. discriminate.
Qed.

(** * Whole runs *)

(** ** How an iteration ends *)

Lemma sweep_cons self b a rest :
  sweep self b (a :: rest) =
  match evaluate self b a with
  | (t, Ok stats) =>
      let '(t', l, r) := sweep self b rest in ((t ++ t')%list, stats :: l, r)
  | (t, Raise e) => (t, [], Raise e)
  end.
Proof. reflexivity. Qed.

Lemma update_spreadsheet_accepted refused df ss ws s :
  refuses refused = false ->
  update_spreadsheet refused df ss ws s = update_spreadsheet None df ss ws s.
Proof.
  intros H. rewrite !update_spreadsheet_run. unfold values_update, gspread.
  destruct refused as [[| |n|n]|]; try reflexivity; try discriminate;
    destruct n as [|[|[|[|n]]]]; try reflexivity; discriminate.
Qed.

(** A publish that no call refuses, of a DataFrame that has a row and can
    be encoded: three updates. *)
Lemma update_spreadsheet_publishable df ss ws s :
  publishable df = true ->
  update_spreadsheet None df ss ws s =
  ([Info (Updating_Spreadsheet ss); Update (column_1 df); Update (column_2 df);
    Update (column_3 df); Info (Updated_SpreadSheet ss ws)],
   set_worksheet s (write_all (write_all (write_all (worksheet s) (column_1 df))
                                 (column_2 df)) (column_3 df)),
   Ok tt).
Proof.
  intros H. rewrite update_spreadsheet_run. cbn zeta.
  unfold publishable in H. apply andb_prop in H. destruct H as [H H3].
  apply andb_prop in H. destruct H as [Hne H1].
  rewrite (values_update_compliant None 1 _ H1), (values_update_compliant None 2 _ (compliant_column_2 df)),
    (values_update_compliant None 3 _ H3).
  destruct df as [|row df]; [discriminate|]. reflexivity.
Qed.

(** A publish that no call refuses fails on an empty DataFrame and on one
    that cannot be encoded. *)
Lemma update_spreadsheet_unpublishable df ss ws s :
  publishable df = false ->
  exists e,
    outcome (update_spreadsheet None df ss ws s) = Raise e /\
    (e = IndexError /\ df = [] \/
     e = InvalidJSONError /\ df <> [] /\
     (compliant (column_1 df) && compliant (column_3 df))%bool = false).
Proof.
  intros H. rewrite update_spreadsheet_run. cbn zeta. unfold values_update, gspread.
  fold (compliant (column_1 df)). fold (compliant (column_2 df)). fold (compliant (column_3 df)).
  rewrite compliant_column_2. unfold publishable in H.
  destruct df as [|row df]; [exists IndexError; split; [reflexivity|left; split; reflexivity]|].
  cbn [andb] in H. rewrite H.
  destruct (compliant (column_1 (row :: df))), (compliant (column_3 (row :: df)));
    try discriminate; exists InvalidJSONError;
    (split; [reflexivity|right; repeat split; discriminate]).
Qed.

Lemma update_spreadsheet_Ok_iff refused df ss ws s :
  outcome (update_spreadsheet refused df ss ws s) = Ok tt <->
  refuses refused = false /\ publishable df = true.
Proof.
  split.
  - intros H. destruct (refuses refused) eqn:R.
    + exfalso. destruct refused as [call|]; [|discriminate].
      assert (Hc : In call calls).
      { unfold refuses in R. apply existsb_exists in R. destruct R as (c & Hc & E).
        destruct call, c; try discriminate; cbn in E; try apply Nat.eqb_eq in E;
          subst; exact Hc. }
      destruct (update_spreadsheet_fails call df ss ws s Hc) as [e He]. congruence.
    + split; [reflexivity|]. rewrite (update_spreadsheet_accepted _ _ _ _ _ R) in H.
      destruct (publishable df) eqn:P; [reflexivity|].
      destruct (update_spreadsheet_unpublishable df ss ws s P) as (e & He & _). congruence.
  - intros [R P]. rewrite (update_spreadsheet_accepted _ _ _ _ _ R),
      (update_spreadsheet_publishable _ _ _ _ P). reflexivity.
Qed.

Lemma while_True_Return self v rest s :
  outcome (while_body self v s) = Ok Return ->
  while_True self (v :: rest) s = while_body self v s.
Proof.
  intros H. cbn [while_True].
  rewrite (run_bind_Ok _ _ s (trace (while_body self v s))
             (after (while_body self v s)) Return) by (rewrite <- H; apply run_eta).
  cbn [ret M_Monad trace after outcome fst snd]. rewrite app_nil_r, <- H. symmetry.
  apply run_eta.
Qed.


Lemma sweep_outcome self b items :
  snd (sweep self b items) = Ok tt <-> forallb (passes self b) items = true.
Proof.
  induction items as [|a items IH]; [split; reflexivity|].
  rewrite sweep_cons. cbn [forallb]. unfold passes at 1.
  destruct (evaluate self b a) as [t [stats|e]]; cbn [snd andb].
  - destruct (sweep self b items) as [[t' l] r]. exact IH.
  - split; discriminate.
Qed.

Lemma continues_iff self v s :
  outcome (while_body self v s) = Ok Continue <-> continues self v = true.
Proof.
  rewrite while_body_run. unfold continues.
  destruct (balance_visible v); [|split; discriminate].
  destruct (read_balance v) as [b|e]; [|split; discriminate].
  destruct (articles_visible v); [|split; reflexivity].
  cbn [andb].
  destruct (forallb (passes self b) (articles v)) eqn:Hp.
  - destruct (sweep_passes self b _ Hp) as (t & -> & _). cbn zeta. cbn [andb].
    pose proof (update_spreadsheet_Ok_iff (refused v) (rows (readable self b (articles v)))
                  self.(spread_sheet) self.(work_sheet)
                  (extend (emptied s) (readable self b (articles v)))) as I.
    destruct (outcome (update_spreadsheet _ _ _ _ _)) as [[]|e].
    + destruct I as [I _]. destruct (I eq_refl) as [-> ->]. split; reflexivity.
    + split; [discriminate|]. intros H. apply andb_prop in H. destruct H as [R P].
      apply negb_true_iff in R. destruct I as [_ I]. discriminate (I (conj R P)).
  - pose proof (sweep_outcome self b (articles v)) as Hs. rewrite Hp in Hs.
    destruct (sweep self b (articles v)) as [[t l] [[]|e]]; cbn [snd] in Hs.
    + destruct Hs as [Hs _]. discriminate (Hs eq_refl).
    + split; discriminate.
Qed.

(** ** Alerts of a run *)

Section Alerts.

Variable self : OpenSeaAlertBot.

Lemma evaluate_sound b a items :
  In a items -> Forall (sound self b items) (alerts (fst (evaluate self b a))).
Proof.
  intros Ha. rewrite evaluate_eq.
  destruct (stats_of self b a) as [stats|e] eqn:E; [|constructor].
  unfold item_events, send_events.
  destruct (matched self stats) eqn:M; [|constructor].
  assert (S : sound self b items stats) by (split; [exact M|exists a; split; assumption]).
  destruct (telegram a) as [|code [|]]; cbn; (constructor; [exact S|constructor]).
Qed.

Lemma sweep_sound b items : forall all,
  incl items all -> Forall (sound self b all) (alerts (fst (fst (sweep self b items)))).
Proof.
  induction items as [|a items IH]; intros all Hincl; [constructor|].
  rewrite sweep_cons.
  pose proof (evaluate_sound b a all (Hincl a (or_introl eq_refl))) as Ha.
  assert (Hi : incl items all) by (intros x Hx; apply Hincl; right; exact Hx).
  specialize (IH all Hi).
  destruct (evaluate self b a) as [t [stats|e]]; cbn [fst] in Ha.
  - destruct (sweep self b items) as [[t' l] r]. cbn [fst] in *.
    rewrite alerts_app. apply Forall_app. split; assumption.
  - exact Ha.
Qed.

Lemma while_body_sound v s :
  Forall (fun msg => exists b, read_balance v = Ok b /\ sound self b v.(articles) msg)
    (alerts (trace (while_body self v s))).
Proof.
  rewrite while_body_run.
  destruct (balance_visible v); [|constructor].
  destruct (read_balance v) as [b|e]; [|constructor].
  destruct (articles_visible v); [|constructor].
  pose proof (sweep_sound b (articles v) (articles v) (incl_refl _)) as Hs.
  assert (Hs' : Forall (fun msg => exists b0, Ok b = Ok b0 /\ sound self b0 (articles v) msg)
                  (alerts (fst (fst (sweep self b (articles v)))))).
  { eapply Forall_impl; [|exact Hs]. intros msg H. exists b. split; [reflexivity|exact H]. }
  destruct (sweep self b (articles v)) as [[t l] [[]|e]]; cbn [fst] in Hs'.
  - cbn zeta.
    pose proof (update_spreadsheet_quiet (refused v) (rows l) self.(spread_sheet)
                  self.(work_sheet) (extend (emptied s) l)) as Hq.
    destruct (outcome (update_spreadsheet _ _ _ _ _)); cbn [trace fst];
      rewrite !alerts_app; change (fst (fst ?x)) with (trace x); rewrite Hq;
      cbn; rewrite ?app_nil_r; exact Hs'.
  - cbn [trace fst]. rewrite alerts_app. exact Hs'.
Qed.

End Alerts.

(** What holds of the alerts of every iteration holds of the alerts of the
    loop. *)
Lemma while_True_alerts self (P : collection_stats -> Prop) visits : forall s,
  (forall v s', In v visits -> Forall P (alerts (trace (while_body self v s')))) ->
  Forall P (alerts (trace (while_True self visits s))).
Proof.
  induction visits as [|v visits IH]; intros s H; [constructor|].
  pose proof (H v s (or_introl eq_refl)) as Hv.
  destruct (outcome (while_body self v s)) as [[|]|e] eqn:E.
  - rewrite (while_True_Continue self v visits s E). cbn zeta. cbn [trace fst].
    change (fst (fst ?x)) with (trace x).
    rewrite alerts_app. apply Forall_app. split; [exact Hv|].
    apply IH. intros v0 s' Hin. apply H. right. exact Hin.
  - rewrite (while_True_Return self v visits s E). exact Hv.
  - rewrite (while_True_Raise self v visits s e E). exact Hv.
Qed.

(** X1: a run sends no alert but for an article it met: every alert in the
    trace of [get_nft_alerts] is the dictionary of an article of one of the
    visits, read with the balance of that visit, and its ratio is at least
    the threshold. *)
Theorem every_alert_is_due self collection_url collection_visible visits s :
  Forall (fun msg =>
            matched self msg = true /\
            exists v a b,
              In v visits /\ In a v.(articles) /\
              read_balance v = Ok b /\ stats_of self b a = Ok msg)
    (alerts (trace (get_nft_alerts self collection_url collection_visible visits s))).
Proof.
  destruct collection_visible; [|constructor].
  rewrite get_nft_alerts_run. cbn zeta. cbn [trace fst app alerts].
  change (fst (fst ?x)) with (trace x).
  apply while_True_alerts. intros v s' Hin.
  eapply Forall_impl; [|apply while_body_sound].
  intros msg (b & Hb & Hm & a & Ha & Hs). split; [exact Hm|].
  exists v, a, b. repeat split; assumption.
Qed.


(** ** Pauses and page requests *)

Lemma slept_app t t' : slept (t ++ t') = slept t + slept t'.
Proof.
  induction t as [|e t IH]; [reflexivity|].
  destruct e; cbn [app slept]; rewrite IH; lia.
Qed.

Lemma gets_app t t' : gets (t ++ t') = (gets t ++ gets t')%list.
Proof.
  induction t as [|e t IH]; [reflexivity|].
  destruct e; cbn; rewrite IH; reflexivity.
Qed.

Lemma evaluate_rests self b a :
  slept (fst (evaluate self b a)) = 0 /\ gets (fst (evaluate self b a)) = [].
Proof.
  rewrite evaluate_eq. destruct (stats_of self b a) as [st|e]; [|split; reflexivity].
  destruct (matched self st); [destruct (telegram a) as [|code [|]]|]; split; reflexivity.
Qed.

Lemma sweep_rests self b items :
  slept (fst (fst (sweep self b items))) = 0 /\ gets (fst (fst (sweep self b items))) = [].
Proof.
  induction items as [|a items [IH1 IH2]]; [split; reflexivity|].
  rewrite sweep_cons. destruct (evaluate_rests self b a) as [H1 H2].
  destruct (evaluate self b a) as [t [stats|e]]; cbn [fst] in *.
  - destruct (sweep self b items) as [[t' l] r]. cbn [fst] in *.
    rewrite slept_app, gets_app, H1, H2, IH1, IH2. split; reflexivity.
  - split; assumption.
Qed.

Lemma update_spreadsheet_rests refused df ss ws s :
  slept (trace (update_spreadsheet refused df ss ws s)) = 0 /\
  gets (trace (update_spreadsheet refused df ss ws s)) = [].
Proof.
  publish_cases; split; reflexivity.
Qed.

Lemma while_body_rests self v s :
  0 <= slept (trace (while_body self v s)) <= 8 /\
  gets (trace (while_body self v s)) = [].
Proof.
  rewrite while_body_run.
  destruct (balance_visible v); [|cbn; split; [lia|reflexivity]].
  destruct (read_balance v) as [b|e]; [|cbn; split; [lia|reflexivity]].
  destruct (articles_visible v); [|cbn; split; [lia|reflexivity]].
  destruct (sweep_rests self b (articles v)) as [H1 H2].
  destruct (sweep self b (articles v)) as [[t l] [[]|e]]; cbn [fst] in H1, H2.
  - cbn zeta.
    destruct (update_spreadsheet_rests (refused v) (rows l) self.(spread_sheet)
                self.(work_sheet) (extend (emptied s) l)) as [H3 H4].
    destruct (outcome (update_spreadsheet _ _ _ _ _)); cbn [trace fst];
      rewrite !slept_app, !gets_app; change (fst (fst ?x)) with (trace x);
      rewrite H1, H2, H3, H4; cbn; split; (lia || reflexivity).
  - cbn [trace fst]. rewrite slept_app, gets_app, H1, H2. cbn. split; [lia|reflexivity].
Qed.

Lemma while_body_continues self v s :
  continues self v = true ->
  alerts (trace (while_body self v s)) = dues self v /\
  List.length (updates (trace (while_body self v s))) =
    (if v.(articles_visible) then 3 else 0)%nat /\
  slept (trace (while_body self v s)) = 8.
Proof.
  unfold continues, dues. rewrite while_body_run.
  destruct (balance_visible v); [|discriminate].
  destruct (read_balance v) as [b|e]; [|discriminate].
  destruct (articles_visible v); [|intros _; repeat split; reflexivity].
  cbn [andb]. intros H. apply andb_prop in H. destruct H as [H Hpub].
  apply andb_prop in H. destruct H as [Hp Hr].
  apply negb_true_iff in Hr.
  destruct (sweep_rests self b (articles v)) as [H1 _].
  destruct (sweep_passes self b (articles v) Hp) as (t & Es & Ha & Hu & _).
  rewrite Es in *. cbn [fst] in H1. cbn zeta.
  rewrite (update_spreadsheet_accepted _ _ _ _ _ Hr).
  rewrite (update_spreadsheet_publishable _ _ _ _ Hpub). cbn [outcome snd trace fst].
  rewrite !alerts_app, !updates_app, !slept_app, Ha, Hu, H1. cbn.
  rewrite app_nil_r. repeat split; reflexivity.
Qed.

(** X3: as long as its iterations go on, a run is still going, and it has
    sent the alerts each visit calls for, visit after visit (an article met
    again is announced again), and made three worksheet updates for every
    visit that showed articles. *)
Theorem run_alerts_visit_by_visit self collection_url visits s :
  forallb (continues self) visits = true ->
  let r := get_nft_alerts self collection_url true visits s in
  outcome r = Ok Continue /\
  alerts (trace r) = flat_map (dues self) visits /\
  List.length (updates (trace r)) = (3 * List.length (filter articles_visible visits))%nat.
Proof.
  intros H. cbn zeta. rewrite get_nft_alerts_run. cbn zeta.
  cbn [outcome snd trace fst app alerts updates].
  change (snd ?x) with (outcome x). change (fst (fst ?x)) with (trace x).
  revert s. induction visits as [|v visits IH]; intros s; [repeat split; reflexivity|].
  cbn [forallb] in H. apply andb_prop in H. destruct H as [Hv H].
  assert (E : outcome (while_body self v s) = Ok Continue) by (apply continues_iff; exact Hv).
  destruct (while_body_continues self v s Hv) as (Ha & Hu & _).
  destruct (IH H (after (while_body self v s))) as (Ho & Ha' & Hu').
  rewrite (while_True_Continue self v visits s E). cbn zeta.
  cbn [outcome snd trace fst]. change (snd ?x) with (outcome x).
  change (fst (fst ?x)) with (trace x).
  rewrite alerts_app, updates_app, length_app, Ha, Hu, Ha', Hu'. cbn [flat_map filter].
  repeat split; [exact Ho|].
  destruct (articles_visible v); cbn [List.length]; lia.
Qed.

Lemma run_alerts_visit_by_visit_witness :
  let visits := [visit_of [cheap] None; empty_visit; visit_of [cheap; dear] None] in
  forallb (continues bot) visits = true /\
  alerts (trace (get_nft_alerts bot "https://opensea.io/collection/x" true visits start))
  = flat_map (dues bot) visits.
Proof.
  cbn zeta. split; [vm_compute; reflexivity|].
  apply (run_alerts_visit_by_visit bot "https://opensea.io/collection/x"
           [visit_of [cheap] None; empty_visit; visit_of [cheap; dear] None] start).
  vm_compute. reflexivity.
Defined.

(** X4: the loop polls at a fixed pace: a run whose iterations all go on
    has slept six seconds before the loop and eight seconds in every
    iteration, whether the iteration found articles or not. *)
Theorem run_sleeps_eight_seconds_an_iteration self collection_url visits s :
  forallb (continues self) visits = true ->
  slept (trace (get_nft_alerts self collection_url true visits s))
  = 6 + 8 * Z.of_nat (List.length visits).
Proof.
  intros H. rewrite get_nft_alerts_run. cbn zeta. cbn [trace fst app slept].
  change (fst (fst ?x)) with (trace x).
  enough (E : slept (trace (while_True self visits s)) = 8 * Z.of_nat (List.length visits)) by lia.
  revert s. induction visits as [|v visits IH]; intros s; [reflexivity|].
  cbn [forallb] in H. apply andb_prop in H. destruct H as [Hv H].
  assert (E : outcome (while_body self v s) = Ok Continue) by (apply continues_iff; exact Hv).
  destruct (while_body_continues self v s Hv) as (_ & _ & Hs).
  rewrite (while_True_Continue self v visits s E). cbn zeta. cbn [trace fst].
  change (fst (fst ?x)) with (trace x).
  rewrite slept_app, Hs, (IH H). cbn [List.length]. lia.
Qed.

Lemma run_sleeps_eight_seconds_an_iteration_witness :
  slept (trace (get_nft_alerts bot "https://opensea.io/collection/x" true
                  [visit_of [cheap] None; empty_visit] start)) = 6 + 8 * 2.
Proof.
  apply (run_sleeps_eight_seconds_an_iteration bot "https://opensea.io/collection/x"
           [visit_of [cheap] None; empty_visit] start).
  vm_compute. reflexivity.
Defined.

(** X5: a run requests the collection page once, with the auction filter
    appended, before the loop; no iteration loads the page again, however
    the run goes and however it ends. *)
Theorem page_is_requested_once self collection_url collection_visible visits s :
  gets (trace (get_nft_alerts self collection_url collection_visible visits s))
  = [(collection_url ++ "?search[toggles][0]=ON_AUCTION")%string].
Proof.
  destruct collection_visible; [|reflexivity].
  rewrite get_nft_alerts_run. cbn zeta. cbn [trace fst app gets].
  change (fst (fst ?x)) with (trace x). f_equal.
  revert s. induction visits as [|v visits IH]; intros s; [reflexivity|].
  destruct (while_body_rests self v s) as [_ Hg].
  destruct (outcome (while_body self v s)) as [[|]|e] eqn:E.
  - rewrite (while_True_Continue self v visits s E). cbn zeta. cbn [trace fst].
    change (fst (fst ?x)) with (trace x). rewrite gets_app, Hg, IH. reflexivity.
  - rewrite (while_True_Return self v visits s E). exact Hg.
  - rewrite (while_True_Raise self v visits s e E). exact Hg.
Qed.

(** ** A threshold that is no number *)

Lemma nan_leb (x y : float) : PrimFloat.is_nan x = true -> PrimFloat.leb x y = false.
Proof.
  unfold PrimFloat.is_nan. rewrite eqb_spec, leb_spec. unfold SFeqb, SFleb.
  destruct (Prim2SF x) as [sx|sx| |sx mx ex]; try reflexivity.
  - destruct sx; discriminate.
  - destruct sx; discriminate.
  - cbn [SFcompare]. rewrite Z.compare_refl.
    change (Pos.compare_cont Eq mx mx) with (Pos.compare mx mx).
    rewrite Pos.compare_refl. destruct sx; discriminate.
Qed.

(** X16: a threshold that is not a number, which float() makes of the
    setting "nan", silences the bot: no run sends any alert, whatever the
    articles and their ratios, since no ratio compares as at least NaN. *)
Theorem nan_threshold_sends_nothing self collection_url collection_visible visits s :
  PrimFloat.is_nan self.(ratio) = true ->
  alerts (trace (get_nft_alerts self collection_url collection_visible visits s)) = [].
Proof.
  intros N. destruct collection_visible; [|reflexivity].
  rewrite get_nft_alerts_run. cbn zeta. cbn [trace fst app alerts].
  change (fst (fst ?x)) with (trace x).
  assert (F : Forall (fun _ => False) (alerts (trace (while_True self visits s)))).
  { apply while_True_alerts. intros v s' _.
    eapply Forall_impl; [|apply while_body_sound].
    intros msg (b & _ & Hm & _). unfold matched in Hm.
    rewrite (nan_leb _ _ N) in Hm. discriminate. }
  destruct (alerts (trace (while_True self visits s))) as [|msg l]; [reflexivity|].
  inversion F as [|? ? []].
Qed.

Lemma nan_threshold_sends_nothing_witness :
  let self := {| api_token_chatbot := "123456:TOKEN";
                 chat_id := "-1001234567890";
                 spread_sheet := "YN Ratio Sheet";
                 work_sheet := "Sheet1";
                 ratio := nan;
                 busd_price := 1 |} in
  Startup.float_of (Startup.JStr "nan") = Startup.Done self.(ratio) /\
  alerts (trace (get_nft_alerts self "https://opensea.io/collection/x" true
                   [visit_of [cheap; dear] None] start)) = [].
Proof.
  cbn zeta. split; [vm_compute; reflexivity|].
  apply nan_threshold_sends_nothing. vm_compute. reflexivity.
Defined.

(** ** The balance text *)

Lemma lstrip_In c s : Py.isspace c = false -> In c s -> In c (Py.lstrip s).
Proof.
  intros Hc. induction s as [|x s IH]; [intros []|].
  intros Hin. cbn [Py.lstrip]. destruct (Py.isspace x) eqn:E; [|exact Hin].
  destruct Hin as [->|Hin]; [congruence|apply IH; exact Hin].
Qed.

Lemma strip_In c s : Py.isspace c = false -> In c s -> In c (Py.strip s).
Proof.
  intros Hc Hin. unfold Py.strip. apply -> in_rev. apply lstrip_In; [exact Hc|].
  apply -> in_rev. apply lstrip_In; assumption.
Qed.

Lemma drop_underscores_In c s : forall prev s',
  Ascii.eqb c "_" = false ->
  Py.drop_underscores prev s = Some s' -> In c s -> In c s'.
Proof.
  induction s as [|x s IH]; intros prev s' Hc H Hin; [destruct Hin|].
  cbn [Py.drop_underscores] in H.
  destruct (Ascii.eqb x "_") eqn:Ex.
  - destruct (Py.isdigit prev); [|discriminate].
    destruct Hin as [->|Hin]; [congruence|]. exact (IH _ _ Hc H Hin).
  - destruct (Ascii.eqb prev "_" && negb (Py.isdigit x))%bool; [discriminate|].
    destruct (Py.drop_underscores x s) as [s''|] eqn:E; [|discriminate].
    injection H as <-. destruct Hin as [->|Hin]; [left; reflexivity|].
    right. exact (IH _ _ Hc E Hin).
Qed.

Lemma sign_In c s :
  Ascii.eqb c "+" = false -> Ascii.eqb c "-" = false ->
  In c s -> In c (snd (Py.sign s)).
Proof.
  intros Hp Hm Hin. destruct s as [|x s]; [destruct Hin|].
  destruct (Ascii.eqb x "+") eqn:Ep.
  - apply Ascii.eqb_eq in Ep. subst x. destruct Hin as [<-|Hin]; [discriminate|exact Hin].
  - destruct (Ascii.eqb x "-") eqn:Em.
    + apply Ascii.eqb_eq in Em. subst x. destruct Hin as [<-|Hin]; [discriminate|exact Hin].
    + replace (Py.sign (x :: s)) with (false, x :: s); [exact Hin|].
      destruct x as [[] [] [] [] [] [] [] []]; try reflexivity; discriminate.
Qed.

Lemma digits_In c s :
  Py.isdigit c = false -> In c s -> snd (Py.digits s) <> [].
Proof.
  intros Hc. induction s as [|x s IH]; [intros []|].
  intros Hin. cbn [Py.digits]. destruct (Py.isdigit x) eqn:E; [|discriminate].
  destruct Hin as [->|Hin]; [congruence|]. specialize (IH Hin).
  destruct (Py.digits s) as [d r]. exact IH.
Qed.

Lemma long_from_string_foreign text c :
  In c (list_ascii_of_string text) -> foreign c = true ->
  Py.long_from_string text = Raise ValueError.
Proof.
  intros Hin Hf. unfold foreign in Hf. apply andb_prop in Hf. destruct Hf as [_ Hf].
  apply negb_true_iff in Hf.
  apply orb_false_iff in Hf. destruct Hf as [Hf Hminus].
  apply orb_false_iff in Hf. destruct Hf as [Hf Hplus].
  apply orb_false_iff in Hf. destruct Hf as [Hf Hunder].
  apply orb_false_iff in Hf. destruct Hf as [Hdigit Hspace].
  unfold Py.long_from_string.
  pose proof (strip_In c _ Hspace Hin) as H1.
  destruct (Py.drop_underscores " " (Py.strip (list_ascii_of_string text))) as [l|] eqn:E;
    [|reflexivity].
  pose proof (drop_underscores_In c _ _ _ Hunder E H1) as H2.
  pose proof (sign_In c l Hplus Hminus H2) as H3.
  destruct (Py.sign l) as [neg s1]. cbn [snd] in H3.
  pose proof (digits_In c s1 Hdigit H3) as H4.
  destruct (Py.digits s1) as [[|d0 d] [|r0 r]]; cbn [snd] in H4; try reflexivity.
  contradiction.
Qed.

(** X6: the trait balance is read with int() on the raw text, which
    takes no thousands separator: a balance text with any character that
    is ASCII and not a digit, a sign, an underscore or whitespace (a comma,
    a point, a letter) ends the iteration, and the loop with it, with ValueError
    before any article is looked at, nothing sent and nothing written. *)
Theorem balance_with_a_separator_ends_the_loop self v rest s text c :
  v.(balance_visible) = true ->
  v.(balance_text) = Some text ->
  In c (list_ascii_of_string text) ->
  foreign c = true ->
  while_True self (v :: rest) s =
    ([Info Getting_trait_balance; Sleep 5], s, Raise ValueError).
Proof.
  intros Hb Ht Hin Hf.
  assert (E : while_body self v s = ([Info Getting_trait_balance; Sleep 5], s, Raise ValueError)).
  { rewrite while_body_run, Hb. unfold read_balance. rewrite Ht.
    cbn [find_element bind res_Monad]. rewrite (long_from_string_foreign text c Hin Hf).
    reflexivity. }
  rewrite (while_True_Raise self v rest s ValueError); [exact E|].
  rewrite E. reflexivity.
Qed.

Lemma balance_with_a_separator_ends_the_loop_witness :
  let v := {| balance_visible := true;
              balance_text := Some "100,000"%string;
              articles_visible := true;
              articles := [cheap];
              refused := None |} in
  while_True bot [v; empty_visit] start =
    ([Info Getting_trait_balance; Sleep 5], start, Raise ValueError).
Proof.
  cbn zeta.
  apply (balance_with_a_separator_ends_the_loop bot _ [empty_visit] start
           "100,000"%string ","%char).
  - reflexivity.
  - reflexivity.
  - vm_compute. tauto.
  - vm_compute. reflexivity.
Defined.

(** ** The worksheet *)

Lemma Link_tolist_length l : List.length (Link_tolist l) = List.length l.
Proof. unfold Link_tolist. destruct (existsb _ _); apply length_map. Qed.

(** A column leaves every cell beside its own as it was. *)
Lemma write_all_column_outside k values first (w : sheet) r c :
  (r < first \/ c <> k \/ first + List.length values <= r)%nat ->
  write_all w (column k first values) r c = w r c.
Proof.
  intros H. rewrite write_all_column.
  destruct (Nat.eqb_spec c k), (Nat.leb_spec first r),
    (Nat.ltb_spec r (first + List.length values)); cbn [andb]; try reflexivity; lia.
Qed.

Lemma update_spreadsheet_frame refused df ss ws s r k :
  (r < 2 \/ k < 1 \/ 3 < k \/ 2 + List.length df <= r)%nat ->
  worksheet (after (update_spreadsheet refused df ss ws s)) r k = worksheet s r k.
Proof.
  intros H.
  assert (H1 : forall w, write_all w (column_1 df) r k = w r k).
  { intros w. unfold column_1. apply write_all_column_outside. rewrite length_map. lia. }
  assert (H2 : forall w, write_all w (column_2 df) r k = w r k).
  { intros w. unfold column_2. apply write_all_column_outside. rewrite length_map. lia. }
  assert (H3 : forall w, write_all w (column_3 df) r k = w r k).
  { intros w. unfold column_3. apply write_all_column_outside.
    rewrite Link_tolist_length, length_map. lia. }
  publish_cases; cbn [after fst snd set_worksheet worksheet];
    rewrite ?H3, ?H2, ?H1; reflexivity.
Qed.

Lemma while_body_frame self v s r k :
  (r < 2 \/ k < 1 \/ 3 < k)%nat ->
  worksheet (after (while_body self v s)) r k = worksheet s r k.
Proof.
  intros H. rewrite while_body_run.
  destruct (balance_visible v); [|reflexivity].
  destruct (read_balance v) as [b|e]; [|reflexivity].
  destruct (articles_visible v); [|reflexivity].
  destruct (sweep self b (articles v)) as [[t l] [[]|e]]; [|reflexivity].
  cbn zeta.
  assert (E : worksheet (after (update_spreadsheet (refused v) (rows l) self.(spread_sheet)
                                  self.(work_sheet) (extend (emptied s) l))) r k
              = worksheet s r k).
  { rewrite update_spreadsheet_frame by tauto. reflexivity. }
  destruct (outcome (update_spreadsheet _ _ _ _ _)); exact E.
Qed.

(** X7: a run writes to the worksheet only from row 2 on and only in
    columns 1 to 3: the header row and every column beyond the third are
    as they were, however many iterations the run makes and however it
    ends. *)
Theorem run_keeps_header_and_other_columns
    self collection_url collection_visible visits s r k :
  (r < 2 \/ k < 1 \/ 3 < k)%nat ->
  worksheet (after (get_nft_alerts self collection_url collection_visible visits s)) r k
  = worksheet s r k.
Proof.
  intros H. destruct collection_visible; [|reflexivity].
  rewrite get_nft_alerts_run. cbn zeta. cbn [after fst snd].
  change (snd (fst ?x)) with (after x).
  revert s. induction visits as [|v visits IH]; intros s; [reflexivity|].
  pose proof (while_body_frame self v s r k H) as Hv.
  destruct (outcome (while_body self v s)) as [[|]|e] eqn:E.
  - rewrite (while_True_Continue self v visits s E). cbn zeta. cbn [after fst snd].
    change (snd (fst ?x)) with (after x). rewrite IH. exact Hv.
  - rewrite (while_True_Return self v visits s E). exact Hv.
  - rewrite (while_True_Raise self v visits s e E). exact Hv.
Qed.

Lemma run_keeps_header_and_other_columns_witness :
  let run := get_nft_alerts bot "https://opensea.io/collection/x" true
               [visit_of [cheap; dear] None; visit_of [cheap] (Some (UpdateCells 2))] start in
  worksheet (after run) 1%nat 1%nat = worksheet start 1%nat 1%nat /\
  worksheet (after run) 2%nat 4%nat = worksheet start 2%nat 4%nat.
Proof.
  cbn zeta. split.
  - apply (run_keeps_header_and_other_columns bot). lia.
  - apply (run_keeps_header_and_other_columns bot). lia.
Defined.

Lemma publish_sheet df ss ws s r k :
  df <> [] ->
  sendable df = true ->
  worksheet (after (update_spreadsheet None df ss ws s)) r k
  = published (worksheet s) df r k.
Proof.
  intros Hne Hs. rewrite (update_spreadsheet_sendable _ _ _ _ _ Hne Hs). unfold gspread.
  cbn [after fst snd set_worksheet worksheet].
  destruct (write_columns (write_all (write_all (worksheet s) (column_1 df)) (column_2 df))
              df r k Hs) as (_ & _ & ->).
  destruct (write_columns (write_all (worksheet s) (column_1 df)) df r k Hs) as (_ & -> & _).
  destruct (write_columns (worksheet s) df r k Hs) as (-> & _ & _).
  unfold published. set (n := List.length df).
  destruct (Nat.leb 2 r && Nat.ltb r (2 + n))%bool eqn:R.
  - apply andb_prop in R. destruct R as [R1 R2].
    assert (C : forall j, (Nat.eqb k j && Nat.leb 2 r && Nat.ltb r (2 + n))%bool = Nat.eqb k j).
    { intros j. rewrite R1, R2. destruct (Nat.eqb k j); reflexivity. }
    apply Nat.leb_le in R1. apply Nat.ltb_lt in R2.
    destruct (nth_error df (r - 2)) as [[[p b] u]|] eqn:E.
    2:{ apply nth_error_None in E. subst n. lia. }
    rewrite !C.
    rewrite (nth_map_nth_error (fun r0 => of_href (snd r0)) df _ _ E).
    rewrite (nth_map_nth_error (fun r0 => PyInt (snd (fst r0))) df _ _ E).
    rewrite (nth_map_nth_error (fun r0 => PyFloat (fst (fst r0))) df _ _ E).
    destruct k as [|[|[|[|k]]]]; reflexivity.
  - assert (C : forall j, (Nat.eqb k j && Nat.leb 2 r && Nat.ltb r (2 + n))%bool = false).
    { intros j. rewrite <- andb_assoc, R. apply andb_false_r. }
    rewrite !C. reflexivity.
Qed.

Lemma published_row w df i p b u :
  nth_error df i = Some (p, b, u) ->
  published w df (2 + i)%nat 1%nat = PyFloat p /\
  published w df (2 + i)%nat 2%nat = PyInt b /\
  published w df (2 + i)%nat 3%nat = of_href u.
Proof.
  intros E. unfold published.
  assert (L : (i < List.length df)%nat) by (apply nth_error_Some; congruence).
  replace (Nat.leb 2 (2 + i) && Nat.ltb (2 + i) (2 + List.length df))%bool with true.
  2:{ symmetry. apply andb_true_intro. split; [apply Nat.leb_le|apply Nat.ltb_lt]; lia. }
  replace (2 + i - 2)%nat with i by lia. rewrite E. repeat split.
Qed.

Lemma published_below w df r k :
  (2 + List.length df <= r)%nat -> published w df r k = w r k.
Proof.
  intros H. unfold published.
  replace (Nat.ltb r (2 + List.length df)) with false.
  2:{ symmetry. apply Nat.ltb_ge. exact H. }
  rewrite andb_false_r. reflexivity.
Qed.

(** X8: the worksheet is never cleared: when a snapshot is published
    after a longer one whose values could all be sent, the rows of the
    longer one below the last row of the new one stay in the worksheet as
    they were published, whether the new publish succeeds or not. *)
Theorem shorter_snapshot_leaves_stale_rows df1 df2 ss ws s i p b u :
  sendable df1 = true ->
  (List.length df2 <= i)%nat ->
  nth_error df1 i = Some (p, b, u) ->
  let s1 := after (update_spreadsheet None df1 ss ws s) in
  let s2 := after (update_spreadsheet None df2 ss ws s1) in
  worksheet s2 (2 + i)%nat 1%nat = PyFloat p /\
  worksheet s2 (2 + i)%nat 2%nat = PyInt b /\
  worksheet s2 (2 + i)%nat 3%nat = of_href u.
Proof.
  intros Hs Hi E. cbn zeta.
  assert (Hne : df1 <> []) by (intros ->; destruct i; discriminate).
  rewrite (update_spreadsheet_frame None df2 ss ws _ (2 + i) 1),
    (update_spreadsheet_frame None df2 ss ws _ (2 + i) 2),
    (update_spreadsheet_frame None df2 ss ws _ (2 + i) 3) by lia.
  rewrite (publish_sheet df1 ss ws s (2 + i) 1 Hne Hs),
    (publish_sheet df1 ss ws s (2 + i) 2 Hne Hs),
    (publish_sheet df1 ss ws s (2 + i) 3 Hne Hs).
  apply published_row. exact E.
Qed.

Lemma shorter_snapshot_leaves_stale_rows_witness :
  let df1 := [(4000%float, 100000, Some "https://opensea.io/assets/1"%string);
              (6000%float, 100000, Some "https://opensea.io/assets/2"%string)] in
  let df2 := [(5000%float, 90000, Some "https://opensea.io/assets/7"%string)] in
  let s1 := after (update_spreadsheet None df1 "YN Ratio Sheet" "Sheet1" start) in
  let s2 := after (update_spreadsheet None df2 "YN Ratio Sheet" "Sheet1" s1) in
  worksheet s2 3%nat 1%nat = PyFloat 6000 /\
  worksheet s2 3%nat 2%nat = PyInt 100000 /\
  worksheet s2 3%nat 3%nat = of_href (Some "https://opensea.io/assets/2"%string).
Proof.
  cbn zeta.
  apply (shorter_snapshot_leaves_stale_rows
           [(4000%float, 100000, Some "https://opensea.io/assets/1"%string);
            (6000%float, 100000, Some "https://opensea.io/assets/2"%string)]
           [(5000%float, 90000, Some "https://opensea.io/assets/7"%string)]
           "YN Ratio Sheet" "Sheet1" start 1%nat).
  - vm_compute. reflexivity.
  - cbn. lia.
  - reflexivity.
Defined.

(** X9: a published snapshot whose values can all be sent (finite
    prices, a link in every row) replaces an earlier one that is no longer:
    whatever the earlier publish wrote, the worksheet is left, cell by
    cell, as by publishing the second snapshot alone. *)
Theorem longer_snapshot_replaces_the_earlier df1 df2 ss ws s r k :
  sendable df2 = true ->
  (List.length df1 <= List.length df2)%nat ->
  worksheet (after (update_spreadsheet None df2 ss ws
                      (after (update_spreadsheet None df1 ss ws s)))) r k
  = worksheet (after (update_spreadsheet None df2 ss ws s)) r k.
Proof.
  intros Hs H.
  destruct (Nat.leb 2 r && Nat.ltb r (2 + List.length df2) && Nat.leb 1 k && Nat.leb k 3)%bool
    eqn:R.
  - apply andb_prop in R. destruct R as [R R4]. apply andb_prop in R. destruct R as [R R3].
    apply andb_prop in R. destruct R as [R1 R2].
    apply Nat.leb_le in R1, R3, R4. apply Nat.ltb_lt in R2.
    assert (Hne : df2 <> []) by (intros ->; cbn in R2; lia).
    rewrite (publish_sheet df2 ss ws s r k Hne Hs),
      (publish_sheet df2 ss ws (after (update_spreadsheet None df1 ss ws s)) r k Hne Hs).
    unfold published.
    replace (Nat.leb 2 r && Nat.ltb r (2 + List.length df2))%bool with true.
    2:{ symmetry. apply andb_true_intro. split; [apply Nat.leb_le|apply Nat.ltb_lt]; lia. }
    destruct (nth_error df2 (r - 2)) as [[[p b] u]|] eqn:E.
    2:{ apply nth_error_None in E. lia. }
    destruct k as [|[|[|[|k]]]]; try reflexivity; lia.
  - assert (O : (r < 2 \/ k < 1 \/ 3 < k \/ 2 + List.length df2 <= r)%nat).
    { destruct (Nat.leb_spec 2 r), (Nat.ltb_spec r (2 + List.length df2)),
        (Nat.leb_spec 1 k), (Nat.leb_spec k 3); cbn in R; try discriminate; lia. }
    rewrite (update_spreadsheet_frame None df2 ss ws s r k O),
      (update_spreadsheet_frame None df2 ss ws
         (after (update_spreadsheet None df1 ss ws s)) r k O).
    apply update_spreadsheet_frame. lia.
Qed.

Lemma longer_snapshot_replaces_the_earlier_witness :
  let df1 := [(5000%float, 90000, None)] in
  let df2 := [(4000%float, 100000, Some "https://opensea.io/assets/1"%string);
              (6000%float, 100000, Some "https://opensea.io/assets/2"%string)] in
  worksheet (after (update_spreadsheet None df2 "YN Ratio Sheet" "Sheet1"
                      (after (update_spreadsheet None df1 "YN Ratio Sheet" "Sheet1" start))))
    2%nat 1%nat
  = worksheet (after (update_spreadsheet None df2 "YN Ratio Sheet" "Sheet1" start)) 2%nat 1%nat.
Proof.
  cbn zeta.
  apply (longer_snapshot_replaces_the_earlier
           [(5000%float, 90000, None)]
           [(4000%float, 100000, Some "https://opensea.io/assets/1"%string);
            (6000%float, 100000, Some "https://opensea.io/assets/2"%string)]).
  - vm_compute. reflexivity.
  - cbn. lia.
Defined.

(** X10: [update_spreadsheet] gets through exactly when none of its
    calls is refused and the DataFrame has a row and can be encoded.  It
    fails in three ways only: with the error of the gspread call that is
    refused; with IndexError on an empty DataFrame, whose range 'A2:A1'
    gspread answers with two cells for the loop to fill from empty lists;
    with the InvalidJSONError of requests when a price is a NaN or an
    infinity or a missing link stands beside links.  Failed or not, it
    leaves the three lists of the cycle as they are, and the worksheet is
    the old one with the updates its trace reports written to it, in
    order. *)
Theorem update_spreadsheet_failure_modes refused df ss ws s :
  let r := update_spreadsheet refused df ss ws s in
  (outcome r = Ok tt <-> refuses refused = false /\ publishable df = true) /\
  (forall e, outcome r = Raise e ->
     (exists call, refused = Some call /\ In call calls /\ e = APIError call) \/
     (e = IndexError /\ df = []) \/
     (e = InvalidJSONError /\ df <> [] /\
      (compliant (column_1 df) && compliant (column_3 df))%bool = false)) /\
  (forall row col,
      worksheet (after r) row col
      = fold_left write_all (updates (trace r)) (worksheet s) row col) /\
  trait_balances (after r) = trait_balances s /\
  listing_prices (after r) = listing_prices s /\
  listing_urls (after r) = listing_urls s.
Proof.
  cbn zeta. split; [apply update_spreadsheet_Ok_iff|].
  split; [|split; [|apply update_spreadsheet_keeps]].
  - intros e. rewrite update_spreadsheet_run. cbn zeta. unfold values_update, gspread.
    fold (compliant (column_1 df)). fold (compliant (column_2 df)).
    fold (compliant (column_3 df)). rewrite compliant_column_2.
    destruct refused as [[| |n|n]|]; try destruct n as [|[|[|[|n]]]];
      cbn [api_call_eqb Nat.eqb];
      (destruct df as [|row df];
       [|destruct (compliant (column_1 (row :: df))) eqn:C1;
         destruct (compliant (column_3 (row :: df))) eqn:C3]);
      cbn [outcome snd]; intros He; inversion He; subst;
      first [ left; eexists; split; [reflexivity|]; split; [cbn; tauto|reflexivity]
            | right; left; split; reflexivity
            | right; right; split; [reflexivity|]; split; [discriminate|reflexivity] ].
  - intros row col. publish_cases; reflexivity.
Qed.

Lemma compliant_prices l :
  compliant (column_1 (rows l))
  = forallb (fun stats => PrimFloat.is_finite stats.(Listing_Price)) l.
Proof.
  unfold column_1. rewrite compliant_column. unfold rows. rewrite !map_map.
  induction l as [|stats l IH]; [reflexivity|]. cbn [map forallb json_compliant fst].
  f_equal. exact IH.
Qed.

(** X18: an iteration whose wait for an article ended in time but which
    then finds no article on the page publishes an empty snapshot, and
    that ends the loop: the range 'A2:A1' comes back as two cells, and the
    first assignment of the loop over them indexes an empty list.  The
    IndexError is raised before any update is sent, and no later iteration
    runs. *)
Theorem empty_snapshot_ends_the_loop self v rest s trait_balance :
  v.(balance_visible) = true ->
  read_balance v = Ok trait_balance ->
  v.(articles_visible) = true ->
  v.(articles) = [] ->
  v.(refused) = None ->
  while_True self (v :: rest) s
  = ((opening ++ [Info (Updating_Spreadsheet self.(spread_sheet))])%list,
     emptied s, Raise IndexError).
Proof.
  intros Hv Hb Ha Hart Hr.
  assert (E : while_body self v s
              = ((opening ++ [Info (Updating_Spreadsheet self.(spread_sheet))])%list,
                 emptied s, Raise IndexError)).
  { rewrite while_body_run, Hv, Hb, Ha, Hart, Hr.
    change (sweep self trait_balance []) with (@nil event, @nil collection_stats, Ok tt).
    cbn iota zeta. rewrite update_spreadsheet_run. unfold gspread. cbn [rows map].
    cbn [outcome snd trace after fst]. rewrite extend_nil. reflexivity. }
  rewrite (while_True_Raise self v rest s IndexError); [exact E|].
  rewrite E. reflexivity.
Qed.

Lemma empty_snapshot_ends_the_loop_witness :
  while_True bot [visit_of [] None; visit_of [cheap] None] start
  = ((opening ++ [Info (Updating_Spreadsheet "YN Ratio Sheet")])%list, start,
     Raise IndexError).
Proof.
  apply (empty_snapshot_ends_the_loop bot (visit_of [] None) [visit_of [cheap] None]
           start 100000); reflexivity.
Defined.

(** X19: a price that is a NaN or an infinity, which float() makes of the
    texts "nan" and "inf", goes through the for loop like any other, but
    the snapshot that holds it cannot be sent: requests refuses the body of
    the first update, so that the iteration and the loop end with
    InvalidJSONError after the alerts of the iteration and before any update
    of the worksheet. *)
Theorem unsendable_price_ends_the_loop self v rest s trait_balance :
  reaches_publish self v s ->
  read_balance v = Ok trait_balance ->
  v.(refused) = None ->
  forallb (fun stats => PrimFloat.is_finite stats.(Listing_Price))
    (readable self trait_balance v.(articles)) = false ->
  let r := while_True self (v :: rest) s in
  outcome r = Raise InvalidJSONError /\
  r = while_body self v s /\
  alerts (trace r) = due self trait_balance v.(articles) /\
  updates (trace r) = [].
Proof.
  intros H Hb Hr Hfin r.
  destruct (while_body_publishing self v s trait_balance H Hb) as (_ & _ & Hal & Hup & Ho).
  set (l := readable self trait_balance v.(articles)) in *.
  assert (P : update_spreadsheet v.(refused) (rows l) self.(spread_sheet) self.(work_sheet)
                (extend (emptied s) l)
              = ([Info (Updating_Spreadsheet self.(spread_sheet))], extend (emptied s) l,
                 Raise InvalidJSONError)).
  { rewrite Hr, update_spreadsheet_run. unfold values_update, gspread.
    fold (compliant (column_1 (rows l))). rewrite compliant_prices, Hfin.
    destruct l as [|stats l']; [discriminate|]. reflexivity. }
  rewrite P in Hup, Ho. cbn [outcome snd trace fst updates] in Hup, Ho.
  assert (E : r = while_body self v s)
    by (apply (while_True_Raise self v rest s InvalidJSONError); exact Ho).
  rewrite E. repeat split; assumption.
Qed.

Lemma unsendable_price_ends_the_loop_witness :
  let v := visit_of [cheap; listing "nan" "https://opensea.io/assets/8" (Response 200 true)]
             None in
  let r := while_True bot [v; visit_of [cheap] None] start in
  outcome r = Raise InvalidJSONError /\
  List.length (alerts (trace r)) = 1%nat /\
  updates (trace r) = [].
Proof.
  cbn zeta.
  destruct (unsendable_price_ends_the_loop bot
              (visit_of [cheap; listing "nan" "https://opensea.io/assets/8" (Response 200 true)]
                 None)
              [visit_of [cheap] None] start 100000)
    as (Ho & _ & Hal & Hup).
  - unfold reaches_publish. vm_compute. tauto.
  - vm_compute. reflexivity.
  - reflexivity.
  - vm_compute. reflexivity.
  - split; [exact Ho|]. split; [rewrite Hal; vm_compute; reflexivity|exact Hup].
Defined.

(** X17: a missing link is not written: when none of the rows of a
    snapshot has a link, the nulls sent for the third column are skipped,
    so that after the publish every cell of that column holds what it held
    before, the link of an earlier snapshot included, beside the new prices
    and balances. *)
Theorem missing_links_keep_the_earlier (df : DataFrame) ss ws s :
  forallb (fun r => match snd r with None => true | Some _ => false end) df = true ->
  let r := update_spreadsheet None df ss ws s in
  forall row, worksheet (after r) row 3%nat = worksheet s row 3%nat.
Proof.
  intros H r row. subst r.
  assert (X : existsb (fun u : href => match u with Some _ => true | None => false end)
                (map (fun r : float * Z * href => snd r) df) = false).
  { clear row. induction df as [|[[p b] u] df IH]; [reflexivity|].
    cbn [forallb snd] in H. apply andb_prop in H. destruct H as [Hu H].
    cbn [map existsb snd]. rewrite (IH H). destruct u; [discriminate|reflexivity]. }
  assert (L : column_3 df = column 3 2 (map (fun _ => PyNone) df)).
  { unfold column_3, Link_tolist. destruct (existsb _ _) eqn:Y.
    - discriminate X.
    - f_equal. rewrite map_map. clear row X Y.
      induction df as [|[[p b] u] df IH]; [reflexivity|].
      cbn [forallb snd] in H. apply andb_prop in H. destruct H as [Hu H].
      cbn [map snd]. rewrite (IH H). destruct u; [discriminate|reflexivity]. }
  assert (H1 : forall w, write_all w (column_1 df) row 3%nat = w row 3%nat).
  { intros w. unfold column_1. apply write_all_column_outside. right. left. discriminate. }
  assert (H2 : forall w, write_all w (column_2 df) row 3%nat = w row 3%nat).
  { intros w. unfold column_2. apply write_all_column_outside. right. left. discriminate. }
  assert (H3 : forall w, write_all w (column_3 df) row 3%nat = w row 3%nat).
  { intros w. rewrite L, write_all_column.
    destruct (Nat.eqb 3 3 && Nat.leb 2 row
              && Nat.ltb row (2 + List.length (map (fun _ => PyNone) df)))%bool eqn:R;
      [|reflexivity].
    apply andb_prop in R. destruct R as [_ R]. apply Nat.ltb_lt in R.
    rewrite length_map in R.
    destruct (nth_error df (row - 2)) as [x|] eqn:E.
    - rewrite (nth_map_nth_error (fun _ => PyNone) df _ _ E). reflexivity.
    - apply nth_error_None in E. rewrite nth_overflow by (rewrite length_map; lia).
      reflexivity. }
  publish_cases; cbn [after fst snd set_worksheet worksheet];
    rewrite ?H3, ?H2, ?H1; reflexivity.
Qed.

Lemma missing_links_keep_the_earlier_witness :
  let df := [(4000%float, 100000, None)] in
  let s := {| worksheet := earlier; trait_balances := []; listing_prices := [];
              listing_urls := [] |} in
  let r := update_spreadsheet None df "YN Ratio Sheet" "Sheet1" s in
  outcome r = Ok tt /\
  worksheet (after r) 2%nat 1%nat = PyFloat 4000 /\
  worksheet (after r) 2%nat 3%nat = PyStr "https://opensea.io/assets/0".
Proof.
  cbn zeta. split; [vm_compute; reflexivity|]. split; [vm_compute; reflexivity|].
  rewrite (missing_links_keep_the_earlier [(4000%float, 100000, None)]
             "YN Ratio Sheet" "Sheet1"
             {| worksheet := earlier; trait_balances := []; listing_prices := [];
                listing_urls := [] |}); [|reflexivity].
  vm_compute. reflexivity.
Defined.

(** * Start-up *)

Section Constructor.

Import Startup.

(** X11: a bot is constructed only from a settings file that is there
    and holds a JSON document with a "settings" object that has all seven
    keys; the file is left as it was.  The Ratio is converted with float(),
    the BUSDPrice is kept as the document has it, whatever its type, and
    both [get_logger] and [get_spreadsheet_auth] have returned. *)
Theorem constructed_from_complete_settings
    file_settings get_logger get_spreadsheet_auth file_settings' self :
  __init__ file_settings get_logger get_spreadsheet_auth = (file_settings', Done self) ->
  file_settings' = file_settings /\
  file_settings = File (Some (settings self)) /\
  (exists section,
      subscript (settings self) "settings" = Done section /\
      subscript section "ClientSecretFileName" = Done (client_secret_file_name self) /\
      subscript section "ChatBotToken" = Done (api_token_chatbot self) /\
      subscript section "ChatID" = Done (chat_id self) /\
      subscript section "SpreadSheet" = Done (spread_sheet self) /\
      subscript section "WorkSheet" = Done (work_sheet self) /\
      (exists v, subscript section "Ratio" = Done v /\ float_of v = Done (ratio self)) /\
      subscript section "BUSDPrice" = Done (busd_price self)) /\
  get_logger = Done tt /\ get_spreadsheet_auth = Done tt.
Proof.
  unfold __init__, get_settings.
  destruct file_settings as [| |[doc|]]; cbn [isfile load dump bind result_Monad];
    try (intros H; discriminate H).
  unfold setting. cbn [bind result_Monad].
  destruct (subscript doc "settings") as [section|e] eqn:Es; [|intros H; discriminate H].
  destruct (subscript section "ClientSecretFileName") as [v1|e] eqn:E1;
    [|intros H; discriminate H].
  destruct (subscript section "ChatBotToken") as [v2|e] eqn:E2; [|intros H; discriminate H].
  destruct (subscript section "ChatID") as [v3|e] eqn:E3; [|intros H; discriminate H].
  destruct (subscript section "SpreadSheet") as [v4|e] eqn:E4; [|intros H; discriminate H].
  destruct (subscript section "WorkSheet") as [v5|e] eqn:E5; [|intros H; discriminate H].
  destruct (subscript section "Ratio") as [v6|e] eqn:E6; [|intros H; discriminate H].
  destruct (float_of v6) as [x|e] eqn:E7; [|intros H; discriminate H].
  destruct (subscript section "BUSDPrice") as [v8|e] eqn:E8; [|intros H; discriminate H].
  destruct get_logger as [[]|e]; [|intros H; discriminate H].
  destruct get_spreadsheet_auth as [[]|e]; [|intros H; discriminate H].
  cbn [ret result_Monad]. intros H. injection H as <- <-.
  cbn [settings client_secret_file_name api_token_chatbot chat_id spread_sheet work_sheet
       ratio busd_price].
  repeat split. exists section. rewrite Es. repeat split; try assumption.
  exists v6. split; assumption.
Qed.

Lemma constructed_from_complete_settings_witness :
  __init__ (File (Some settings_json)) (Done tt) (Done tt)
  = (File (Some settings_json), Done constructed) /\
  (exists section,
      subscript settings_json "settings" = Done section /\
      (exists v, subscript section "Ratio" = Done v /\ float_of v = Done 20%float) /\
      subscript section "BUSDPrice" = Done (JInt 1)).
Proof.
  split; [vm_compute; reflexivity|].
  destruct (constructed_from_complete_settings (File (Some settings_json)) (Done tt) (Done tt)
              (File (Some settings_json)) constructed)
    as (_ & _ & (section & Hs & _ & _ & _ & _ & _ & Hr & Hb) & _).
  - vm_compute. reflexivity.
  - exists section. repeat split; assumption.
Defined.

(** X12: with no settings file, [get_settings] writes a default whose
    only key is "Settings", and the constructor, which reads the key
    "settings", fails with KeyError; the file it leaves makes every later
    construction fail in the same way, until the file is edited by hand. *)
Theorem default_settings_cannot_start get_logger get_spreadsheet_auth :
  let first := __init__ NoFile get_logger get_spreadsheet_auth in
  (exists doc,
      fst first = File (Some doc) /\
      subscript doc "Settings" = Done (JDict [("ThreadsCount"%string, JInt 5)])) /\
  snd first = Failed (KeyError "settings") /\
  __init__ (fst first) get_logger get_spreadsheet_auth = first.
Proof.
  cbn zeta. split; [eexists; split; reflexivity|]. split; reflexivity.
Qed.

End Constructor.

Section Agents.

Import Startup.

Lemma lstrip_length s : (List.length (lstrip s) <= List.length s)%nat.
Proof.
  induction s as [|c s IH]; [reflexivity|].
  cbn [lstrip]. destruct (isspace c); cbn [List.length]; lia.
Qed.

Lemma lstrip_fixed c s : lstrip (c :: s) = c :: s -> isspace c = false.
Proof.
  cbn [lstrip]. destruct (isspace c); [|reflexivity].
  intros H. pose proof (lstrip_length s) as L. rewrite H in L. cbn [List.length] in L. lia.
Qed.

Lemma lstrip_lstrip s : lstrip (lstrip s) = lstrip s.
Proof.
  induction s as [|c s IH]; [reflexivity|].
  cbn [lstrip]. destruct (isspace c) eqn:E; [exact IH|].
  cbn [lstrip]. rewrite E. reflexivity.
Qed.

Lemma lstrip_suffix s : exists pre, s = (pre ++ lstrip s)%list.
Proof.
  induction s as [|c s [pre IH]]; [exists []; reflexivity|].
  cbn [lstrip]. destruct (isspace c).
  - exists (c :: pre). cbn [app]. rewrite <- IH. reflexivity.
  - exists []. reflexivity.
Qed.

(** The characters [strip] leaves: both ends are trimmed. *)
Lemma trimmed s :
  let t := rev (lstrip (rev (lstrip s))) in
  lstrip t = t /\ lstrip (rev t) = rev t.
Proof.
  cbn zeta. split.
  - destruct (lstrip_suffix (rev (lstrip s))) as [pre E].
    apply (f_equal (@rev ascii)) in E. rewrite rev_involutive, rev_app_distr in E.
    destruct (rev (lstrip (rev (lstrip s)))) as [|c r] eqn:T; [reflexivity|].
    assert (F : isspace c = false).
    { apply (lstrip_fixed c (r ++ rev pre)). cbn [app] in E. rewrite <- E.
      apply lstrip_lstrip. }
    cbn [lstrip]. rewrite F. reflexivity.
  - rewrite rev_involutive. apply lstrip_lstrip.
Qed.

Lemma strip_strip x : strip (strip x) = strip x.
Proof.
  unfold strip. rewrite list_ascii_of_string_of_list_ascii.
  destruct (trimmed (list_ascii_of_string x)) as [H1 H2]. cbn zeta in H1, H2.
  rewrite H1, H2, rev_involutive. reflexivity.
Qed.

Lemma random_choice_In {A} draw (seq : list A) a :
  random_choice draw seq = Done a -> In a seq.
Proof.
  destruct seq as [|x seq]; [discriminate|].
  unfold random_choice.
  assert (L : (draw mod List.length (x :: seq) < List.length (x :: seq))%nat)
    by (apply Nat.mod_upper_bound; discriminate).
  revert L. generalize (draw mod List.length (x :: seq))%nat. intros n L H.
  assert (E : a = nth n (x :: seq) x) by congruence.
  rewrite E. apply nth_In. exact L.
Qed.

(** X13: the user agent chosen is a line of user_agents.txt with the
    whitespace around it stripped (so stripping it again changes nothing;
    a blank line gives the empty agent); the call fails only when the file
    is missing, with FileNotFoundError, or has no line, with IndexError. *)
Theorem user_agent_is_a_stripped_line file_uagents draw :
  match get_user_agent file_uagents draw with
  | Done agent =>
      exists content line,
        file_uagents = Some content /\ In line content /\
        agent = strip line /\ strip agent = agent
  | Failed e =>
      (file_uagents = None /\ e = FileNotFoundError) \/
      (file_uagents = Some [] /\ e = Builtin IndexError)
  end.
Proof.
  destruct file_uagents as [content|]; [|left; split; reflexivity].
  unfold get_user_agent.
  destruct (random_choice draw (map strip content)) as [agent|e] eqn:E.
  - apply random_choice_In in E. apply in_map_iff in E. destruct E as (line & <- & Hin).
    exists content, line. repeat split; [exact Hin|apply strip_strip].
  - destruct content as [|line content]; [|discriminate].
    right. injection E as <-. split; reflexivity.
Qed.

(** X14: when [get_driver] returns, Chrome was started with one
    user-agent argument, made of the agent [get_user_agent] chose, with
    --headless exactly when [headless] is set and a --proxy-server argument
    exactly when [proxy] is set (without it nothing is logged and the
    proxies file is not read); and the switch excluded is enable-automation
    alone: the exclusion of enable-logging, set one line earlier under the
    same key, is overwritten. *)
Theorem driver_options
    file_uagents file_proxies draw_agent draw_proxy chrome proxy headless logged options :
  get_driver file_uagents file_proxies draw_agent draw_proxy chrome proxy headless
  = (logged, Done options) ->
  chrome = true /\
  lookup "excludeSwitches" (experimental_options options)
  = Some (Switches ["enable-automation"%string]) /\
  (exists agent,
      get_user_agent file_uagents draw_agent = Done agent /\
      In ("--user-agent=" ++ agent)%string (arguments options)) /\
  (In "--headless"%string (arguments options) <-> headless = true) /\
  ((exists p, In ("--proxy-server=" ++ p)%string (arguments options)) <-> proxy = true) /\
  (proxy = false ->
   logged = [] /\
   get_driver file_uagents None draw_agent draw_proxy chrome proxy headless
   = (logged, Done options)).
Proof.
  unfold get_driver.
  destruct (get_user_agent file_uagents draw_agent) as [agent|e]; [|discriminate].
  destruct proxy.
  - destruct (get_proxy file_proxies draw_proxy) as [t [p|e]]; [|discriminate].
    destruct headless, chrome; intros H; try discriminate H; injection H as <- <-.
    all: split; [reflexivity|]; split; [reflexivity|].
    all: split; [exists agent; split; [reflexivity|cbn; tauto]|].
    all: split; [first [solve [cbn; split; [intros _; reflexivity|tauto]]
                       |solve [cbn; intuition discriminate]]|].
    all: split; [|discriminate].
    all: split; [reflexivity|intros _; exists p; cbn; tauto].
  - destruct headless, chrome; intros H; try discriminate H; injection H as <- <-.
    all: split; [reflexivity|]; split; [reflexivity|].
    all: split; [exists agent; split; [reflexivity|cbn; tauto]|].
    all: split; [first [solve [cbn; split; [intros _; reflexivity|tauto]]
                       |solve [cbn; intuition discriminate]]|].
    all: split; [|intros _; split; reflexivity].
    all: split; [|discriminate].
    all: intros [p Hp]; cbn in Hp; intuition discriminate.
Qed.

Lemma driver_options_witness :
  exists options,
    get_driver (Some user_agents) None 1 0 true false false = ([], Done options) /\
    In "--user-agent=Mozilla/5.0 (X11; Linux x86_64)"%string (arguments options) /\
    lookup "excludeSwitches" (experimental_options options)
    = Some (Switches ["enable-automation"%string]).
Proof.
  eexists. split; [vm_compute; reflexivity|].
  split; [vm_compute; tauto|].
  eapply (driver_options (Some user_agents) None 1 0 true false false []).
  vm_compute. reflexivity.
Defined.

End Agents.
